(** * simple-docs: the merge engine, its validator, sanitizer and DOCX renderer

    A shallow embedding of [merge.service.js] (field-contract validator,
    markup sanitizer, conversion chain, merge orchestrator) and of
    [docx-templating.js] (strict and lint rendering, error normalisation),
    with the properties the design document states about them.

    Conventions.
    - JavaScript strings and Node buffers holding text are [string]s: the
      bytes of their UTF-8 encoding.  [Buffer.length] is [String.length].
    - Third-party code is not part of the repository.  JSDOM and Node's
      [path] module are parameters gathered in records; PizZip,
      Docxtemplater, Mustache, Puppeteer, LibreOffice, Prisma, the console,
      the clock and the file system are calls of a small free monad,
      answered by an oracle and recorded in a trace. *)

From Stdlib Require Import List String Ascii ZArith Bool Lia Arith.
From Stdlib Require Import DecimalString DecimalPos.
Import ListNotations.
Open Scope string_scope.
Open Scope list_scope.

(* ================================================================== *)
(** * JavaScript values *)

(** JSON-shaped values: the payload of a merge request, the diagnostics of
    the renderer, the fields of an error object.  An object is the list of
    its own enumerable properties in property order, as [Object.entries]
    yields them.  Numbers are the integers; [NaN] does not occur in JSON. *)
#[local] Unset Elimination Schemes.
Inductive JsVal : Type :=
| VUndefined
| VNull
| VBool (b : bool)
| VNum (n : Z)
| VStr (s : string)
| VArr (items : list JsVal)
| VObj (fields : list (string * JsVal)).
#[local] Set Elimination Schemes.

(** Induction over nested values: the hypotheses hold for the items of an
    array and for the values of an object. *)
Section JsVal_induction.
Variable P : JsVal -> Prop.
Hypothesis Hundef : P VUndefined.
Hypothesis Hnull : P VNull.
Hypothesis Hbool : forall b, P (VBool b).
Hypothesis Hnum : forall n, P (VNum n).
Hypothesis Hstr : forall s, P (VStr s).
Hypothesis Harr : forall items, Forall P items -> P (VArr items).
Hypothesis Hobj : forall fields, Forall (fun e => P (snd e)) fields -> P (VObj fields).

Fixpoint JsVal_ind' (v : JsVal) : P v :=
  match v with
  | VUndefined => Hundef
  | VNull => Hnull
  | VBool b => Hbool b
  | VNum n => Hnum n
  | VStr s => Hstr s
  | VArr items =>
      Harr items ((fix go (xs : list JsVal) : Forall P xs :=
               match xs with
               | [] => Forall_nil _
               | x :: rest => Forall_cons _ (JsVal_ind' x) (go rest)
               end) items)
  | VObj fields =>
      Hobj fields ((fix go (es : list (string * JsVal)) : Forall (fun e => P (snd e)) es :=
               match es with
               | [] => Forall_nil _
               | e :: rest => Forall_cons _ (JsVal_ind' (snd e)) (go rest)
               end) fields)
  end.
End JsVal_induction.

(** ToBoolean. *)
Definition truthy (v : JsVal) : bool :=
  match v with
  | VUndefined | VNull => false
  | VBool b => b
  | VNum n => negb (n =? 0)%Z
  | VStr s => negb (s =? "")
  | VArr _ | VObj _ => true
  end.

(** [a || b]. *)
Definition js_or (a b : JsVal) : JsVal := if truthy a then a else b.

(** [Array.isArray]. *)
Definition isArray (v : JsVal) : bool :=
  match v with VArr _ => true | _ => false end.

(** [typeof v === "object"]. *)
Definition typeof_object (v : JsVal) : bool :=
  match v with VNull | VArr _ | VObj _ => true | _ => false end.

(** Decimal rendering of an array index or of a number. *)
Definition string_of_nat (n : nat) : string :=
  NilEmpty.string_of_uint (Nat.to_uint n).

Definition string_of_Z (z : Z) : string :=
  match z with
  | Z0 => "0"
  | Zpos p => NilEmpty.string_of_uint (Pos.to_uint p)
  | Zneg p => "-" ++ NilEmpty.string_of_uint (Pos.to_uint p)
  end.

Fixpoint indexed_from {A} (i : nat) (xs : list A) : list (string * A) :=
  match xs with
  | [] => []
  | x :: rest => (string_of_nat i, x) :: indexed_from (S i) rest
  end.

(** The UTF-16 code units of a text, which is held here as its UTF-8
    bytes.  JavaScript indexes a string by code unit: a character of the
    basic plane, one to three bytes long, is one unit; a character beyond
    it, four bytes long, is two units, its surrogates.  A surrogate is
    written as the three bytes the UTF-8 scheme makes of its number; a byte
    outside a well-formed sequence counts as a unit of its own. *)
Definition isContinuation (c : ascii) : bool :=
  let n := nat_of_ascii c in (128 <=? n)%nat && (n <? 192)%nat.

Definition unitBytes (u : N) : string :=
  String (ascii_of_N (224 + u / 4096))
    (String (ascii_of_N (128 + (u / 64) mod 64))
       (String (ascii_of_N (128 + u mod 64)) EmptyString)).

Definition surrogates (a b c d : ascii) : list string :=
  let point :=
    ((N_of_ascii a mod 8) * 262144 + (N_of_ascii b mod 64) * 4096
     + (N_of_ascii c mod 64) * 64 + N_of_ascii d mod 64)%N in
  let v := (point - 65536)%N in
  [unitBytes (55296 + v / 1024); unitBytes (56320 + v mod 1024)].

Fixpoint codeUnits (s : string) : list string :=
  match s with
  | EmptyString => []
  | String a r1 =>
      let x := nat_of_ascii a in
      let alone := String a EmptyString :: codeUnits r1 in
      match r1 with
      | EmptyString => alone
      | String b r2 =>
          if (192 <=? x)%nat && (x <? 224)%nat && isContinuation b
          then String a (String b EmptyString) :: codeUnits r2
          else
            match r2 with
            | EmptyString => alone
            | String c r3 =>
                if (224 <=? x)%nat && (x <? 240)%nat
                   && isContinuation b && isContinuation c
                then String a (String b (String c EmptyString)) :: codeUnits r3
                else
                  match r3 with
                  | EmptyString => alone
                  | String d r4 =>
                      if (240 <=? x)%nat && (x <? 248)%nat && isContinuation b
                         && isContinuation c && isContinuation d
                      then surrogates a b c d ++ codeUnits r4
                      else alone
                  end
            end
      end
  end.

(** The indexed characters of a string: one per code unit. *)
Definition chars (s : string) : list JsVal := map VStr (codeUnits s).

(** [Object.entries(v)] for a [v] that is neither [null] nor [undefined]
    (there it raises a TypeError; the one caller guards with [obj || {}]):
    the properties of an object, the indexed elements of an array, the
    indexed code units of a string, nothing for a number or a boolean. *)
Definition Object_entries (v : JsVal) : list (string * JsVal) :=
  match v with
  | VObj fields => fields
  | VArr items => indexed_from 0 items
  | VStr s => indexed_from 0 (chars s)
  | _ => []
  end.

(** Property read [v.k] on an object ([undefined] when absent). *)
Fixpoint lookup (k : string) (fields : list (string * JsVal)) : JsVal :=
  match fields with
  | [] => VUndefined
  | (k', v) :: rest => if k' =? k then v else lookup k rest
  end.

(** A JavaScript [Set] built from a list keeps the first occurrence of each
    element, in insertion order. *)
Fixpoint Set_of (seen xs : list string) : list string :=
  match xs with
  | [] => []
  | x :: rest =>
      if existsb (String.eqb x) seen then Set_of seen rest
      else x :: Set_of (x :: seen) rest
  end.

Definition new_Set (xs : list string) : list string := Set_of [] xs.

Definition Set_has (s : list string) (k : string) : bool :=
  existsb (String.eqb k) s.

(* ================================================================== *)
(** * Field-contract validator: [flattenKeys] *)

(** The dot-path of key [k] under [prefix]:
    [prefix ? `${prefix}.${k}` : k]. *)
Definition dotPath (prefix k : string) : string :=
  if negb (prefix =? "") then prefix ++ "." ++ k else k.

(** [flattenKeys(obj, prefix)].  The loop over [Object.entries(obj || {})]
    is the inner [fix]; a value that is a non-array object is recursed into
    with its path as the new prefix, any other value is a leaf. *)
Fixpoint flattenKeys (obj : JsVal) (prefix : string) {struct obj} : list string :=
  match obj with
  | VObj fields =>
      (fix loop (es : list (string * JsVal)) : list string :=
         match es with
         | [] => []
         | (k, v) :: rest =>
             let path := dotPath prefix k in
             match v with
             | VObj _ => flattenKeys v path
             | _ => [path]
             end ++ loop rest
         end) fields
  | VArr items =>
      (fix loop (i : nat) (xs : list JsVal) : list string :=
         match xs with
         | [] => []
         | v :: rest =>
             let path := dotPath prefix (string_of_nat i) in
             match v with
             | VObj _ => flattenKeys v path
             | _ => [path]
             end ++ loop (S i) rest
         end) 0 items
  | VStr s =>
      map (fun e => dotPath prefix (fst e)) (indexed_from 0 (chars s))
  | _ => []
  end.

(** One iteration of the loop body of [flattenKeys]. *)
Definition entryPaths (prefix : string) (e : string * JsVal) : list string :=
  let path := dotPath prefix (fst e) in
  if truthy (snd e) && typeof_object (snd e) && negb (isArray (snd e))
  then flattenKeys (snd e) path
  else [path].

(* ================================================================== *)
(** * Strings as the source tests them *)

Definition LF : string := String (ascii_of_nat 10) EmptyString.

(** The double quote. *)
Definition DQ : string := String (ascii_of_nat 34) EmptyString.

(** ASCII lower-casing.  [String.prototype.toLowerCase] also maps letters
    outside ASCII, but none of them to a letter of "on", "href", "src",
    ".docx", ".html" or "javascript:", the only texts lower-cased names are
    compared with here. *)
Definition lowerChar (c : ascii) : ascii :=
  let n := nat_of_ascii c in
  if (65 <=? n)%nat && (n <=? 90)%nat then ascii_of_nat (n + 32) else c.

Fixpoint toLowerCase (s : string) : string :=
  match s with
  | EmptyString => EmptyString
  | String c rest => String (lowerChar c) (toLowerCase rest)
  end.

Definition startsWith (p s : string) : bool := String.prefix p s.

Definition endsWith (suffix s : string) : bool :=
  let n := String.length s in
  let m := String.length suffix in
  (m <=? n)%nat && (substring (n - m) m s =? suffix).

(** [\s] on one-byte characters: TAB, LF, VT, FF, CR, SPACE. *)
Definition isAsciiSpace (c : ascii) : bool :=
  let n := nat_of_ascii c in
  ((9 <=? n)%nat && (n <=? 13)%nat) || (n =? 32)%nat.

(** [\s] on three-byte characters: U+1680, U+2000..U+200A, U+2028, U+2029,
    U+202F, U+205F, U+3000 and U+FEFF in UTF-8. *)
Definition isSpace3 (a b c : ascii) : bool :=
  let x := nat_of_ascii a in
  let y := nat_of_ascii b in
  let z := nat_of_ascii c in
  ((x =? 225)%nat && (y =? 154)%nat && (z =? 128)%nat)
  || ((x =? 226)%nat && (y =? 128)%nat
      && (((128 <=? z)%nat && (z <=? 138)%nat) || (z =? 168)%nat || (z =? 169)%nat || (z =? 175)%nat))
  || ((x =? 226)%nat && (y =? 129)%nat && (z =? 159)%nat)
  || ((x =? 227)%nat && (y =? 128)%nat && (z =? 128)%nat)
  || ((x =? 239)%nat && (y =? 187)%nat && (z =? 191)%nat).

(** The text left after a maximal leading match of [\s*]
    (U+00A0 is the two bytes C2 A0). *)
Fixpoint skipWhitespace (s : string) : string :=
  match s with
  | EmptyString => s
  | String a r1 =>
      if isAsciiSpace a then skipWhitespace r1
      else
        match r1 with
        | EmptyString => s
        | String b r2 =>
            if (nat_of_ascii a =? 194)%nat && (nat_of_ascii b =? 160)%nat
            then skipWhitespace r2
            else
              match r2 with
              | EmptyString => s
              | String c r3 => if isSpace3 a b c then skipWhitespace r3 else s
              end
        end
  end.

Fixpoint trimEnd (s : string) : string :=
  match s with
  | EmptyString => EmptyString
  | String c rest =>
      if skipWhitespace s =? "" then EmptyString else String c (trimEnd rest)
  end.

(** [String.prototype.trim]. *)
Definition trim (s : string) : string := trimEnd (skipWhitespace s).

(** [String(v)], as a template literal converts an interpolated value. *)
Fixpoint toString (v : JsVal) : string :=
  match v with
  | VUndefined => "undefined"
  | VNull => "null"
  | VBool true => "true"
  | VBool false => "false"
  | VNum n => string_of_Z n
  | VStr s => s
  | VArr items =>
      (fix join (xs : list JsVal) : string :=
         match xs with
         | [] => ""
         | x :: rest =>
             let sx := match x with VUndefined | VNull => "" | _ => toString x end in
             match rest with
             | [] => sx
             | _ => (sx ++ "," ++ join rest)%string
             end
         end) items
  | VObj _ => "[object Object]"
  end.

(* ================================================================== *)
(** * Markup sanitizer: [sanitizeHtmlBuffer] *)

(** The DOM that JSDOM builds.  An element has a local name (lower-case for
    an HTML element, as the parser produces it), its attributes in order,
    its child nodes and, for a [template] element, the nodes of its template
    contents: they live in a separate fragment, which [querySelectorAll]
    does not search and [outerHTML] writes out. *)
#[local] Unset Elimination Schemes.
Inductive Node : Type :=
| Elem (tag : string) (attrs : list (string * string))
       (children : list Node) (content : list Node)
| Text (data : string)
| Comment (data : string).
#[local] Set Elimination Schemes.

(** Induction over the document tree. *)
Section Node_induction.
Variable Q : Node -> Prop.
Hypothesis Helem : forall tag attrs children content,
    Forall Q children -> Q (Elem tag attrs children content).
Hypothesis Htext : forall d, Q (Text d).
Hypothesis Hcomment : forall d, Q (Comment d).

Fixpoint Node_ind' (n : Node) : Q n :=
  match n with
  | Elem tag attrs children content =>
      Helem tag attrs children content
        ((fix go (cs : list Node) : Forall Q cs :=
            match cs with
            | [] => Forall_nil _
            | c :: rest => Forall_cons _ (Node_ind' c) (go rest)
            end) children)
  | Text d => Htext d
  | Comment d => Hcomment d
  end.
End Node_induction.

(** The document: its [documentElement] is the [html] element the HTML
    parser always creates. *)
Record Document : Type := mkDocument {
  rootAttrs : list (string * string);
  rootChildren : list Node
}.

Definition documentElement (d : Document) : Node :=
  Elem "html" (rootAttrs d) (rootChildren d) [].

(** JSDOM: [new JSDOM(text).window.document] and [element.outerHTML]. *)
Record Jsdom : Type := mkJsdom {
  parse : string -> Document;
  outerHTML : Node -> string
}.

(** The selector [script, iframe, object, embed, link[rel='import']].  On
    the elements of an HTML document a selector compares the value of [rel]
    without regard to ASCII case, so [IMPORT] and [Import] match as [import]
    does; the value is compared whole. *)
Definition hasAttr (name value : string) (attrs : list (string * string)) : bool :=
  existsb (fun a => (fst a =? name) && (toLowerCase (snd a) =? value)) attrs.

Definition disallowedTag (tag : string) (attrs : list (string * string)) : bool :=
  (tag =? "script") || (tag =? "iframe") || (tag =? "object") || (tag =? "embed")
  || ((tag =? "link") && hasAttr "rel" "import" attrs).

Definition disallowed (n : Node) : bool :=
  match n with
  | Elem tag attrs _ _ => disallowedTag tag attrs
  | _ => false
  end.

(** [querySelectorAll(sel).forEach((n) => n.remove())]: every matching
    descendant leaves the tree, with its subtree. *)
Fixpoint removeDisallowed (n : Node) : Node :=
  match n with
  | Elem tag attrs children content =>
      Elem tag attrs
        (flat_map (fun c => if disallowed c then [] else [removeDisallowed c]) children)
        content
  | _ => n
  end.

(** [el.removeAttribute(name)]: the first attribute of that name goes. *)
Fixpoint removeAttribute (name : string) (attrs : list (string * string))
  : list (string * string) :=
  match attrs with
  | [] => []
  | a :: rest => if fst a =? name then rest else a :: removeAttribute name rest
  end.

(** [/^on/.test(name)]. *)
Definition isEventHandlerName (name : string) : bool := startsWith "on" name.

(** [/^\s*javascript:/i.test(val)]. *)
Definition isJavascriptUrl (val : string) : bool :=
  startsWith "javascript:" (toLowerCase (skipWhitespace val)).

(** The body of the inner [forEach], on the element's current attributes. *)
Definition stripOne (current : list (string * string)) (attr : string * string)
  : list (string * string) :=
  let name := toLowerCase (fst attr) in
  let val := snd attr in
  let current1 :=
    if isEventHandlerName name then removeAttribute (fst attr) current else current in
  if ((name =? "href") || (name =? "src")) && isJavascriptUrl val
  then removeAttribute (fst attr) current1
  else current1.

(** [[...el.attributes].forEach(...)]: the loop runs over a snapshot. *)
Definition stripAttributes (attrs : list (string * string)) : list (string * string) :=
  fold_left stripOne attrs attrs.

(** [querySelectorAll("*").forEach(...)]: every element of the tree. *)
Fixpoint stripNode (n : Node) : Node :=
  match n with
  | Elem tag attrs children content =>
      Elem tag (stripAttributes attrs) (map stripNode children) content
  | _ => n
  end.

(** The two passes over the document. *)
Definition sanitizeNode (n : Node) : Node := stripNode (removeDisallowed n).

Definition sanitizeDocument (d : Document) : Document :=
  match sanitizeNode (documentElement d) with
  | Elem _ attrs children _ => mkDocument attrs children
  | _ => d
  end.

Definition sanitizeHtmlBuffer (J : Jsdom) (htmlBuffer : string) : string :=
  let doc := sanitizeDocument (parse J htmlBuffer) in
  ("<!DOCTYPE html>" ++ LF ++ outerHTML J (documentElement doc))%string.

(** What the sanitizer is to guarantee. *)

(** The elements of the document tree below and including [n]
    (what [querySelectorAll("*")] visits). *)
Fixpoint treeElements (n : Node) : list Node :=
  match n with
  | Elem _ _ children _ => n :: flat_map treeElements children
  | _ => []
  end.

(** The elements [outerHTML] writes out: the tree and the template
    contents. *)
Fixpoint writtenElements (n : Node) : list Node :=
  match n with
  | Elem _ _ children content =>
      n :: flat_map writtenElements children ++ flat_map writtenElements content
  | _ => []
  end.

Definition attrsOf (n : Node) : list (string * string) :=
  match n with Elem _ attrs _ _ => attrs | _ => [] end.

(** An attribute the sanitizer is to strip. *)
Definition unsafeAttr (a : string * string) : bool :=
  let name := toLowerCase (fst a) in
  isEventHandlerName name
  || (((name =? "href") || (name =? "src")) && isJavascriptUrl (snd a)).

Definition safeAttr (a : string * string) : bool := negb (unsafeAttr a).

(** An element free of the three constructs. *)
Definition cleanElement (n : Node) : bool :=
  negb (disallowed n) && forallb (fun a => negb (unsafeAttr a)) (attrsOf n).

(** The DOM never holds two attributes of one name on an element. *)
Fixpoint uniqueNames (names : list string) : bool :=
  match names with
  | [] => true
  | x :: rest => negb (existsb (String.eqb x) rest) && uniqueNames rest
  end.

Fixpoint wellFormed (n : Node) : bool :=
  match n with
  | Elem _ attrs children _ =>
      uniqueNames (map fst attrs) && forallb wellFormed children
  | _ => true
  end.

(* ================================================================== *)
(** * Errors *)

(** The classes [instanceof] can tell apart here: [Error] (and every class
    of a library), [TypeError], and the repository's [TemplateParseError]. *)
Inductive ErrClass : Type := ClsError | ClsTypeError | ClsTemplateParseError.

(** An error object: its class, its properties ([message], [status],
    [details], [properties], ...) and its [cause]. *)
#[local] Unset Elimination Schemes.
Inductive JsErr : Type :=
| MkErr (cls : ErrClass) (fields : list (string * JsVal)) (cause : option JsErr).
#[local] Set Elimination Schemes.

Definition errClass (e : JsErr) : ErrClass := match e with MkErr c _ _ => c end.
Definition errFields (e : JsErr) : list (string * JsVal) :=
  match e with MkErr _ f _ => f end.
Definition errCause (e : JsErr) : option JsErr := match e with MkErr _ _ c => c end.

(** [e.k]. *)
Definition errGet (e : JsErr) (k : string) : JsVal := lookup k (errFields e).

(** [obj.k = v]. *)
Fixpoint setField (k : string) (v : JsVal) (fields : list (string * JsVal))
  : list (string * JsVal) :=
  match fields with
  | [] => [(k, v)]
  | (k', v') :: rest =>
      if k' =? k then (k, v) :: rest else (k', v') :: setField k v rest
  end.

Definition errSet (e : JsErr) (k : string) (v : JsVal) : JsErr :=
  match e with MkErr c f cause => MkErr c (setField k v f) cause end.

(** [new Error(message)]. *)
Definition newError (message : string) : JsErr :=
  MkErr ClsError [("message", VStr message)] None.

(** The TypeError of a property read on [null] or [undefined]. *)
Definition typeError : JsErr :=
  MkErr ClsTypeError [("message", VStr "Cannot read properties of undefined")] None.

(** What a library or a service throws: an object of a class of its own,
    given by its properties. *)
Definition ExtErr : Type := list (string * JsVal).

Definition external (fields : ExtErr) : JsErr := MkErr ClsError fields None.

(** [e instanceof TemplateParseError]. *)
Definition isTemplateParseError (e : JsErr) : bool :=
  match errClass e with ClsTemplateParseError => true | _ => false end.

Definition Res (R : Type) : Type := (JsErr + R)%type.

(* ================================================================== *)
(** * External calls, programs and traces *)

Definition Handle : Type := nat.

(** A stored template with its declared fields
    ([findUnique({ include: { fields: true } })]). *)
Record Field : Type := mkField { fieldName : string }.

Record Template : Type := mkTemplate {
  templateIdOf : string;
  templateName : string;
  templateFields : list Field
}.

(** The [data] of [prisma.mergeJob.create]. *)
Record MergeJob : Type := mkMergeJob {
  jobTemplateId : string;
  jobData : JsVal;
  jobOutputType : string;
  jobStatus : string;
  jobFilePath : string;
  jobUserId : option string
}.

(** How [doc.render(data)] proceeds: it ends, it throws, or it asks the
    [nullGetter] option about a part whose tag resolved to [null] or
    [undefined] and goes on with the value returned.  An exception of the
    callback is not caught by the engine. *)
Inductive Script : Type :=
| SDone
| SThrow (e : ExtErr)
| SNull (part : JsVal) (k : JsVal -> Script).

(** How a spawned process ends: the [error] event, or [close] with the exit
    code ([null] when a signal ended it) and what the two streams carried. *)
Inductive SpawnResult : Type :=
| SpawnError (e : ExtErr)
| SpawnClose (code : option Z) (stdout stderr : string).

Inductive Call : Type :=
| FsMkdir (path : string)
| FsReadFile (path : string)
| FsWriteFile (path : string) (data : string)
| FsMkdtemp (prefix : string)
| FsAccess (path : string)
| FsRm (path : string)
| EnvSofficeBin
| ProcessPlatform
| OsTmpdir
| DateNow
| ConsoleWarn (label : string) (payload : JsVal)
| Spawn (cmd : string) (args : list string) (cwd : string)
| TemplateFindUnique (id : string)
| MergeJobCreate (job : MergeJob)
| LibreConvert (buffer : string) (ext : string)
| PuppeteerLaunch
| BrowserNewPage (browser : Handle)
| PageSetContent (page : Handle) (html : string)
| PagePdf (page : Handle)
| BrowserClose (browser : Handle)
| MustacheRender (template : string) (data : JsVal)
| PizZipNew (buffer : string)
| DocxtemplaterNew (zip : Handle) (allowNulls : bool)
| DocxRender (doc : Handle) (data : JsVal)
| DocxGenerate (doc : Handle).

(** What each call gives back; [ExtErr + T] where it can throw or reject. *)
Definition reply (c : Call) : Type :=
  match c with
  | FsMkdir _ => ExtErr + unit
  | FsReadFile _ => ExtErr + string
  | FsWriteFile _ _ => ExtErr + unit
  | FsMkdtemp _ => ExtErr + string
  | FsAccess _ => ExtErr + unit
  | FsRm _ => ExtErr + unit
  | EnvSofficeBin => option string
  | ProcessPlatform => string
  | OsTmpdir => string
  | DateNow => Z
  | ConsoleWarn _ _ => unit
  | Spawn _ _ _ => SpawnResult
  | TemplateFindUnique _ => ExtErr + option Template
  | MergeJobCreate _ => ExtErr + Z
  | LibreConvert _ _ => ExtErr + string
  | PuppeteerLaunch => ExtErr + Handle
  | BrowserNewPage _ => ExtErr + Handle
  | PageSetContent _ _ => ExtErr + unit
  | PagePdf _ => ExtErr + string
  | BrowserClose _ => ExtErr + unit
  | MustacheRender _ _ => ExtErr + string
  | PizZipNew _ => ExtErr + Handle
  | DocxtemplaterNew _ _ => ExtErr + Handle
  | DocxRender _ _ => Script
  | DocxGenerate _ => ExtErr + string
  end%type.

(** A program: a result, or a call and what to do with its reply. *)
Inductive Prog (R : Type) : Type :=
| Ret (r : R)
| Vis (c : Call) (k : reply c -> Prog R).

Arguments Ret {R} r.
Arguments Vis {R} c k.

Fixpoint bindProg {A B} (m : Prog A) (f : A -> Prog B) : Prog B :=
  match m with
  | Ret a => f a
  | Vis c k => Vis c (fun x => bindProg (k x) f)
  end.

(** Programs that may throw. *)
Definition M (R : Type) : Type := Prog (Res R).

Definition ret {R} (r : R) : M R := Ret (inr r).
Definition throw {R} (e : JsErr) : M R := Ret (inl e).

Definition bind {A B} (m : M A) (f : A -> M B) : M B :=
  bindProg m (fun r => match r with inl e => Ret (inl e) | inr a => f a end).

(** A call that cannot throw. *)
Definition ask (c : Call) : Prog (reply c) := Vis c (fun x => Ret x).

Definition liftExt {T} (r : ExtErr + T) : Res T :=
  match r with inl e => inl (external e) | inr v => inr v end.

Declare Scope prog_scope.
Delimit Scope prog_scope with prog.
Notation "x <- m ;; k" := (bind m (fun x => k))
  (at level 61, m at next level, right associativity) : prog_scope.
Notation "m ;;; k" := (bind m (fun _ => k))
  (at level 61, right associativity) : prog_scope.
Notation "x <~ m ;; k" := (bindProg m (fun x => k))
  (at level 61, m at next level, right associativity) : prog_scope.
Open Scope prog_scope.

(** [try { m } catch (e) { h e }]. *)
Definition tryCatch {R} (m : M R) (h : JsErr -> M R) : M R :=
  r <~ m ;; match r with inl e => h e | inr v => ret v end.

(** [try { m } finally { cleanup }]: an exception of the cleanup replaces
    the outcome of [m]. *)
Definition tryFinally {R} (m : M R) (cleanup : M unit) : M R :=
  r <~ m ;;
  c <~ cleanup ;;
  match c with inl e => throw e | inr _ => Ret r end.

(** A trace: the calls made, in order, each with its reply. *)
Definition Event : Type := { c : Call & reply c }.
Definition Trace : Type := list Event.
Definition event (c : Call) (r : reply c) : Event := existT _ c r.

(** The environment answers a call knowing what happened before. *)
Definition Oracle : Type := Trace -> forall c : Call, reply c.

(** Running [m] after history [h]: its result and the events it added. *)
Fixpoint run {R} (o : Oracle) (m : Prog R) (h : Trace) : R * Trace :=
  match m with
  | Ret r => (r, [])
  | Vis c k =>
      let x := o h c in
      let (r, t) := run o (k x) (h ++ [event c x]) in
      (r, event c x :: t)
  end.

(** Programs whose every possible call satisfies [ok]. *)
Inductive callsOnly {R} (ok : Call -> Prop) : Prog R -> Prop :=
| callsOnly_Ret : forall r, callsOnly ok (Ret r)
| callsOnly_Vis : forall c k,
    ok c -> (forall x, callsOnly ok (k x)) -> callsOnly ok (Vis c k).

(* ================================================================== *)
(** * Structured-document renderer: [docx-templating.js] *)

(** [v.k] for a [v] that is neither [null] nor [undefined]. *)
Definition get (v : JsVal) (k : string) : JsVal :=
  match v with VObj fields => lookup k fields | _ => VUndefined end.

Definition isNullish (v : JsVal) : bool :=
  match v with VUndefined | VNull => true | _ => false end.

(** [v?.k]. *)
Definition optGet (v : JsVal) (k : string) : JsVal :=
  if isNullish v then VUndefined else get v k.

(** [DOCX_OPTIONS.nullGetter]: always throws, an [Error] whose [details]
    hold one entry. *)
Definition strictNullGetter (part : JsVal) : Res JsVal :=
  let tag := optGet part "value" in
  inl (MkErr ClsError
         [("message", VStr "TEMPLATE_PARSE_ERROR");
          ("details",
           VArr [VObj [("id", VStr "undefined_tag");
                       ("explanation",
                        VStr ("Tag " ++ DQ ++ toString tag ++ DQ ++ " is undefined"))]])]
         None).

(** The override of lint mode: [() => ""]. *)
Definition lintNullGetter (_ : JsVal) : Res JsVal := inr (VStr "").

(** [new TemplateParseError(details, cause)]. *)
Definition newTemplateParseError (details : JsVal) (cause : JsErr) : JsErr :=
  MkErr ClsTemplateParseError
    [("message", VStr "TEMPLATE_PARSE_ERROR");
     ("name", VStr "TemplateParseError");
     ("details", details)]
    (Some cause).

(** [isDocxError(e)]. *)
Definition isDocxError (e : JsErr) : bool :=
  let properties := errGet e "properties" in
  truthy properties
  && (truthy (get properties "errors") || truthy (get properties "id")).

(** One entry of [mapDocxDetails]; reading [er.properties] throws when [er]
    is [null] or [undefined]. *)
Definition detailOf (er : JsVal) : Res JsVal :=
  if isNullish er then inl typeError
  else
    let properties := get er "properties" in
    inr (VObj [("id", optGet properties "id");
               ("explanation", optGet properties "explanation");
               ("xtag", optGet properties "xtag");
               ("file", optGet properties "file");
               ("offset", optGet properties "offset")]).

Fixpoint mapRes {A B} (f : A -> Res B) (xs : list A) : Res (list B) :=
  match xs with
  | [] => inr []
  | x :: rest =>
      match f x with
      | inl e => inl e
      | inr y =>
          match mapRes f rest with
          | inl e => inl e
          | inr ys => inr (y :: ys)
          end
      end
  end.

(** [mapDocxDetails(e)]. *)
Definition mapDocxDetails (e : JsErr) : Res JsVal :=
  let list :=
    match optGet (errGet e "properties") "errors" with
    | VArr errors => errors
    | _ => [VObj (errFields e)]
    end in
  match mapRes detailOf list with
  | inl err => inl err
  | inr details => inr (VArr details)
  end.




(** [doc.render(data)] with the option [nullGetter] in force. *)
Fixpoint runScript (nullGetter : JsVal -> Res JsVal) (s : Script) : Res unit :=
  match s with
  | SDone => inr tt
  | SThrow e => inl (external e)
  | SNull part k =>
      match nullGetter part with
      | inl e => inl e
      | inr v => runScript nullGetter (k v)
      end
  end.

(** A fallible call, its rejection turned into a thrown error. *)
Definition call {T} (c : Call) (cast : reply c -> ExtErr + T) : M T :=
  Vis c (fun x => Ret (liftExt (cast x))).

Notation "'perform' c" := (call c (fun x => x)) (at level 10, c at level 9).

(** [renderInternal(buffer, data, { allowNulls })]. *)
Definition renderInternal (buffer : string) (data : JsVal) (allowNulls : bool)
  : M string :=
  zip <- perform (PizZipNew buffer) ;;
  doc <- perform (DocxtemplaterNew zip allowNulls) ;;
  script <~ ask (DocxRender doc data) ;;
  match runScript (if allowNulls then lintNullGetter else strictNullGetter) script with
  | inl e =>
      if isDocxError e then
        match mapDocxDetails e with
        | inl err => throw err
        | inr details => throw (newTemplateParseError details e)
        end
      else throw e
  | inr _ => perform (DocxGenerate doc)
  end.

(** The default [data = {}] of a parameter left [undefined]. *)
Definition orEmptyObject (data : JsVal) : JsVal :=
  match data with VUndefined => VObj [] | _ => data end.

(** [lintDocxBuffer(buffer)]. *)
Definition lintDocxBuffer (buffer : string) : M JsVal :=
  tryCatch
    (renderInternal buffer (VObj []) true ;;; ret (VArr []))
    (fun e =>
       if isTemplateParseError e then ret (errGet e "details")
       else ret (VArr [VObj [("id", VStr "unknown_error");
                             ("explanation", errGet e "message")]])).

(** [renderDocxBufferOrThrow(templateBuffer, data)]. *)
Definition renderDocxBufferOrThrow (templateBuffer : string) (data : JsVal) : M string :=
  renderInternal templateBuffer (orEmptyObject data) false.

(* ================================================================== *)
(** * Conversions *)

(** [path.join], [path.basename] and the two directories of [paths.js]. *)
Record NodePath : Type := mkNodePath {
  path_join : string -> string -> string;
  path_basename : string -> string;
  UPLOADS_DIR : string;
  OUTPUTS_DIR : string
}.

Section Conversions.
Variable P : NodePath.

(** [ensureOutputsDir()]. *)
Definition ensureOutputsDir : M unit :=
  perform (FsMkdir (UPLOADS_DIR P)) ;;;
  perform (FsMkdir (OUTPUTS_DIR P)).

(** [loadTemplateBuffer(template)]. *)
Definition loadTemplateBuffer (template : Template) : M string :=
  perform (FsReadFile (path_join P (UPLOADS_DIR P) (templateName template))).

(** [convertDocxToPdfBuffer(docxBuffer)]. *)
Definition convertDocxToPdfBuffer (docxBuffer : string) : M string :=
  perform (LibreConvert docxBuffer ".pdf").

(** [renderHtmlBuffer(templateBuffer, data)]. *)
Definition renderHtmlBuffer (templateBuffer : string) (data : JsVal) : M string :=
  perform (MustacheRender templateBuffer data).

(** [convertHtmlToPdfBuffer(htmlBuffer)]. *)
Definition convertHtmlToPdfBuffer (htmlBuffer : string) : M string :=
  browser <- perform PuppeteerLaunch ;;
  tryFinally
    (page <- perform (BrowserNewPage browser) ;;
     perform (PageSetContent page htmlBuffer) ;;;
     perform (PagePdf page))
    (perform (BrowserClose browser)).

(** [runSoffice(cmd, args, cwd)]: what the promise settles to. *)
Definition sofficeFailure (code : option Z) (stdout stderr : string) : JsErr :=
  let shown := match code with Some z => string_of_Z z | None => "null" end in
  let message :=
    trim ("soffice exit code " ++ shown ++ LF
          ++ (if negb (stderr =? "") then stderr else stdout)) in
  MkErr ClsError
    [("message", VStr message);
     ("code", match code with Some z => VNum z | None => VNull end);
     ("stdout", VStr stdout);
     ("stderr", VStr stderr)]
    None.

Definition runSoffice (cmd : string) (args : list string) (cwd : string)
  : M (string * string) :=
  out <~ ask (Spawn cmd args cwd) ;;
  match out with
  | SpawnError e => throw (external e)
  | SpawnClose code stdout stderr =>
      match code with
      | Some 0%Z => ret (stdout, stderr)
      | _ => throw (sofficeFailure code stdout stderr)
      end
  end.

(** [resolveSoffice()]; an empty [SOFFICE_BIN] is falsy. *)
Definition truthyEnv (env : option string) : option string :=
  match env with
  | Some bin => if bin =? "" then None else Some bin
  | None => None
  end.

Definition macPath : string :=
  "/Applications/LibreOffice.app/Contents/MacOS/soffice".

Definition resolveSoffice : M string :=
  env <~ ask EnvSofficeBin ;;
  match truthyEnv env with
  | Some bin => ret bin
  | None =>
      platform <~ ask ProcessPlatform ;;
      if platform =? "darwin" then
        tryCatch (perform (FsAccess macPath) ;;; ret macPath)
                 (fun _ => ret "soffice")
      else ret "soffice"
  end.

(** The body of the [try] of [convertHtmlToDocxBuffer]. *)
Definition twoStage (soffice tmpDir : string) : M string :=
  let inHtml := path_join P tmpDir "source.html" in
  let midOdt := path_join P tmpDir "source.odt" in
  let outDocx := path_join P tmpDir "source.docx" in
  runSoffice soffice
    ["--headless"; "--infilter=HTML (StarWriter)"; "--convert-to"; "odt";
     "--outdir"; tmpDir; inHtml] tmpDir ;;;
  perform (FsAccess midOdt) ;;;
  runSoffice soffice
    ["--headless"; "--convert-to"; "docx"; "--outdir"; tmpDir; midOdt] tmpDir ;;;
  perform (FsReadFile outDocx).

(** The [finally] of [convertHtmlToDocxBuffer]: [try { rm } catch {}]. *)
Definition cleanup (tmpDir : string) : M unit :=
  tryCatch (perform (FsRm tmpDir)) (fun _ => ret tt).

(** [convertHtmlToDocxBuffer(htmlBuffer)], once the binary is resolved:
    the directory, the staged input, the guarded two stages. *)
Definition stageAndConvert (htmlBuffer soffice : string) : M string :=
  tmp <~ ask OsTmpdir ;;
  tmpDir <- perform (FsMkdtemp (path_join P tmp "html2docx-")) ;;
  perform (FsWriteFile (path_join P tmpDir "source.html") htmlBuffer) ;;;
  tryFinally (twoStage soffice tmpDir) (cleanup tmpDir).

(** [convertHtmlToDocxBuffer(htmlBuffer)]. *)
Definition convertHtmlToDocxBuffer (htmlBuffer : string) : M string :=
  soffice <- resolveSoffice ;;
  stageAndConvert htmlBuffer soffice.

End Conversions.

(* ================================================================== *)
(** * Merge orchestrator: [mergeTemplate] *)

(** [\w], [.], [-] and the space: the characters of [/[^\w.\- ]+/] keeps. *)
Definition isSafeChar (c : ascii) : bool :=
  let n := nat_of_ascii c in
  ((48 <=? n)%nat && (n <=? 57)%nat) || ((65 <=? n)%nat && (n <=? 90)%nat)
  || ((97 <=? n)%nat && (n <=? 122)%nat)
  || (n =? 95)%nat || (n =? 46)%nat || (n =? 45)%nat || (n =? 32)%nat.

(** [.replace(/[^\w.\- ]+/g, "_")]; [inRun] tells that the run of other
    characters being read has its underscore already. *)
Fixpoint replaceUnsafeRuns (inRun : bool) (s : string) : string :=
  match s with
  | EmptyString => EmptyString
  | String c rest =>
      if isSafeChar c then String c (replaceUnsafeRuns false rest)
      else if inRun then replaceUnsafeRuns true rest
      else String "_"%char (replaceUnsafeRuns true rest)
  end.

Fixpoint hasDot (s : string) : bool :=
  match s with
  | EmptyString => false
  | String c rest => (c =? ".")%char || hasDot rest
  end.

(** [.replace(/\.[^.]+$/, "")]. *)
Fixpoint stripExtension (s : string) : string :=
  match s with
  | EmptyString => EmptyString
  | String c rest =>
      if (c =? ".")%char && negb (rest =? "") && negb (hasDot rest)
      then EmptyString
      else String c (stripExtension rest)
  end.

(** [/\.docx$/i] and [/\.html?$/i]. *)
Definition isDocxName (name : string) : bool :=
  endsWith ".docx" (toLowerCase name).

Definition isHtmlName (name : string) : bool :=
  endsWith ".html" (toLowerCase name) || endsWith ".htm" (toLowerCase name).

(** The argument object of [mergeTemplate]. *)
Record MergeArgs : Type := mkMergeArgs {
  templateId : string;
  data : JsVal;
  outputType : string;
  userId : option string;
  fromWebhook : bool
}.

(** The names the template declares, as the [Set] [allowed]. *)
Definition allowedOf (template : Template) : list string :=
  new_Set (map fieldName (templateFields template)).

(** [extras]: provided leaf paths that are not declared. *)
Definition extrasOf (template : Template) (data : JsVal) : list string :=
  filter (fun k => negb (Set_has (allowedOf template) k)) (flattenKeys data "").

(** [missing]: declared names that are not among the provided leaf paths. *)
Definition missingOf (template : Template) (data : JsVal) : list string :=
  let providedSet := new_Set (flattenKeys data "") in
  filter (fun k => negb (Set_has providedSet k)) (allowedOf template).

(** The error of the missing-required check. *)
Definition missingError (missing : list string) : JsErr :=
  errSet (newError ("Missing required fields: " ++ String.concat " ," missing))
         "status" (VNum 422).

(** [userId || null]. *)
Definition orNull (userId : option string) : option string :=
  match userId with
  | Some u => if u =? "" then None else Some u
  | None => None
  end.

Section Merge.
Variable J : Jsdom.
Variable P : NodePath.

(** Lines 420 to 441: the field-contract check. *)
Definition validate (template : Template) (data : JsVal) : M unit :=
  let extras := extrasOf template data in
  _ <~ (match extras with
        | [] => Ret tt
        | _ => ask (ConsoleWarn "Unexpected field:" (VArr (map VStr extras)))
        end) ;;
  match missingOf template data with
  | [] => ret tt
  | missing => throw (missingError missing)
  end.

(** The [if (isDocx)] block: the merged artifact and where it goes. *)
Definition docxBranch (a : MergeArgs) (buf stamp : string) : M (string * string) :=
  mergedDocx <-
    tryCatch (renderDocxBufferOrThrow buf (data a))
      (fun err =>
         if isTemplateParseError err
         then throw (errSet err "status" (VNum 422))
         else throw err) ;;
  if outputType a =? "docx" then
    ret (mergedDocx, path_join P (OUTPUTS_DIR P) (stamp ++ ".docx"))
  else if outputType a =? "pdf" then
    outBuffer <- convertDocxToPdfBuffer mergedDocx ;;
    ret (outBuffer, path_join P (OUTPUTS_DIR P) (stamp ++ ".pdf"))
  else throw (newError "outputType must be 'docx' or 'pdf'").

(** [fromWebhook ? sanitizeHtmlBuffer(mergedHtml) : mergedHtml]. *)
Definition finalHtmlOf (fromWebhook : bool) (mergedHtml : string) : string :=
  if fromWebhook then sanitizeHtmlBuffer J mergedHtml else mergedHtml.

(** The condition of the audit log. *)
Definition auditCondition (fromWebhook : bool) (mergedHtml : string) : bool :=
  fromWebhook
  && negb (String.length (finalHtmlOf fromWebhook mergedHtml)
           =? String.length mergedHtml)%nat.

(** The dispatch on [outputType] of the [if (isHtml)] block. *)
Definition deliverHtml (a : MergeArgs) (stamp finalHtml : string)
  : M (string * string) :=
  if outputType a =? "pdf" then
    outBuffer <- convertHtmlToPdfBuffer finalHtml ;;
    ret (outBuffer, path_join P (OUTPUTS_DIR P) (stamp ++ ".pdf"))
  else if outputType a =? "docx" then
    outBuffer <- convertHtmlToDocxBuffer P finalHtml ;;
    ret (outBuffer, path_join P (OUTPUTS_DIR P) (stamp ++ ".docx"))
  else if outputType a =? "html" then
    ret (finalHtml, path_join P (OUTPUTS_DIR P) (stamp ++ ".html"))
  else throw (newError "outputType must be 'docx','pdf', or 'html' for HTML templates").

(** The audit log of the [if (isHtml)] block. *)
Definition auditCall (template : Template) : Call :=
  ConsoleWarn "Sanitization modified merged HTML for template"
              (VStr (templateIdOf template)).

(** The [if (isHtml)] block. *)
Definition htmlBranch (a : MergeArgs) (template : Template) (buf stamp : string)
  : M (string * string) :=
  mergedHtml <- renderHtmlBuffer buf (data a) ;;
  let finalHtml := finalHtmlOf (fromWebhook a) mergedHtml in
  _ <~ (if auditCondition (fromWebhook a) mergedHtml
        then ask (auditCall template)
        else Ret tt) ;;
  deliverHtml a stamp finalHtml.

(** [safeBase]. *)
Definition safeBaseOf (name : string) : string :=
  stripExtension (replaceUnsafeRuns false (path_basename P name)).

(** Everything up to the output write (lines 400 to 573): the template,
    the bytes to write and the destination. *)
Definition chain (a : MergeArgs) : M (Template * (string * string)) :=
  ensureOutputsDir P ;;;
  found <- perform (TemplateFindUnique (templateId a)) ;;
  match found with
  | None => throw (newError "Template not found")
  | Some template =>
      validate template (data a) ;;;
      let isDocx := isDocxName (templateName template) in
      let isHtml := isHtmlName (templateName template) in
      if negb isDocx && negb isHtml
      then throw (newError "Unsupported template type. Use .docx or .html")
      else
        buf <- loadTemplateBuffer P template ;;
        now <~ ask DateNow ;;
        let stamp := (safeBaseOf (templateName template) ++ "-" ++ string_of_Z now)%string in
        afterDocx <- (if isDocx
                      then r <- docxBranch a buf stamp ;; ret (Some r)
                      else ret None) ;;
        afterHtml <- (if isHtml
                      then r <- htmlBranch a template buf stamp ;; ret (Some r)
                      else ret afterDocx) ;;
        match afterHtml with
        | Some out => ret (template, out)
        | None => throw typeError
        end
  end.

(** The output write and the job record (lines 581 to 600). *)
Definition jobOf (a : MergeArgs) (template : Template) (filePath : string) : MergeJob :=
  mkMergeJob (templateIdOf template) (data a) (outputType a) "succeeded"
             filePath (orNull (userId a)).

Definition persist (a : MergeArgs) (r : Template * (string * string))
  : M (Z * string) :=
  let '(template, (outBuffer, filePath)) := r in
  perform (FsWriteFile filePath outBuffer) ;;;
  jobId <- perform (MergeJobCreate (jobOf a template filePath)) ;;
  ret (jobId, filePath).

(** [mergeTemplate({ templateId, data, outputType, userId, fromWebhook })]. *)
Definition mergeTemplate (a : MergeArgs) : M (Z * string) :=
  r <- chain a ;; persist a r.

End Merge.

(* ================================================================== *)
(** * The flattening rule as the design document words it *)

(** The leaves of a nested mapping, each as the sequence of keys leading to
    it: a key whose value is a non-array mapping contributes the leaves of
    that mapping, any other key is a leaf, an array-valued one included. *)
Fixpoint leafPaths (v : JsVal) : list (list string) :=
  match v with
  | VObj fields =>
      (fix go (es : list (string * JsVal)) : list (list string) :=
         match es with
         | [] => []
         | (k, v') :: rest =>
             match v' with
             | VObj _ => map (cons k) (leafPaths v')
             | _ => [[k]]
             end ++ go rest
         end) fields
  | _ => []
  end.

(** A key that is not empty and holds no dot. *)
Definition plainKey (k : string) : bool := negb (k =? "") && negb (hasDot k).

(** A mapping whose keys, at every level that is flattened, are plain and
    pairwise distinct. *)
Fixpoint plainKeys (v : JsVal) : bool :=
  match v with
  | VObj fields =>
      uniqueNames (map fst fields)
      && (fix go (es : list (string * JsVal)) : bool :=
            match es with
            | [] => true
            | (k, v') :: rest => plainKey k && plainKeys v' && go rest
            end) fields
  | _ => true
  end.

(** The dot-path of a leaf under a prefix, key by key as the recursion
    builds it. *)
Definition joinPath (prefix : string) (ks : list string) : string :=
  fold_left dotPath ks prefix.

(** Strings: a dot-free key followed by nothing or by a dotted rest. *)
Definition dottedTail (s : string) : Prop :=
  s = "" \/ exists r, s = String "."%char r.

(** Key sequences made of plain keys. *)
Definition plainPath (ks : list string) : Prop :=
  ks <> [] /\ Forall (fun k => plainKey k = true) ks.

(* ================================================================== *)
(** * Worked cases: a printer, a parser table, an environment *)

(** [outerHTML] as the HTML standard serialises a fragment: start tag with
    its attributes, nothing more for a void element, otherwise the children
    (the template contents for a [template]) and the end tag; text is
    escaped except under a raw-text element. *)
Definition voidTag (tag : string) : bool :=
  existsb (String.eqb tag)
    ["area"; "base"; "br"; "col"; "embed"; "hr"; "img"; "input"; "link"; "meta";
     "source"; "track"; "wbr"].

Definition rawTextTag (tag : string) : bool :=
  existsb (String.eqb tag)
    ["style"; "script"; "xmp"; "iframe"; "noembed"; "noframes"; "plaintext"].

Definition escapeTextChar (c : ascii) : string :=
  if (c =? "&")%char then "&amp;"
  else if (c =? "<")%char then "&lt;"
  else if (c =? ">")%char then "&gt;"
  else String c EmptyString.

Definition escapeAttrChar (c : ascii) : string :=
  if (c =? "&")%char then "&amp;"
  else if (nat_of_ascii c =? 34)%nat then "&quot;"
  else String c EmptyString.

(** Escaping in text and in an attribute value; U+00A0, the two bytes C2
    A0, is written [&nbsp;] in both. *)
Fixpoint escapeWith (one : ascii -> string) (s : string) : string :=
  match s with
  | EmptyString => EmptyString
  | String c rest =>
      match rest with
      | EmptyString => one c
      | String c' rest' =>
          if (nat_of_ascii c =? 194)%nat && (nat_of_ascii c' =? 160)%nat
          then ("&nbsp;" ++ escapeWith one rest')%string
          else (one c ++ escapeWith one rest)%string
      end
  end.

Definition escapeText (s : string) : string := escapeWith escapeTextChar s.

Definition escapeAttr (s : string) : string := escapeWith escapeAttrChar s.

Definition printAttr (a : string * string) : string :=
  (" " ++ fst a ++ "=" ++ DQ ++ escapeAttr (snd a) ++ DQ)%string.

Fixpoint printNode (raw : bool) (n : Node) : string :=
  match n with
  | Text d => if raw then d else escapeText d
  | Comment d => ("<!--" ++ d ++ "-->")%string
  | Elem tag attrs children content =>
      ("<" ++ tag ++ String.concat "" (map printAttr attrs) ++ ">"
       ++ (if voidTag tag then ""
           else String.concat ""
                  (map (printNode (rawTextTag tag))
                       (if tag =? "template" then content else children))
                ++ "</" ++ tag ++ ">"))%string
  end.

Definition el (tag : string) (attrs : list (string * string)) (children : list Node)
  : Node := Elem tag attrs children [].

(** A [template] element whose contents hold a script. *)
Definition templateMarkup : string := "<template><script>evil()</script></template>".

Definition templateDoc : Document :=
  mkDocument []
    [el "head" [] [Elem "template" [] [] [el "script" [] [Text "evil()"]]];
     el "body" [] []].

(** A link to a script URL, an event handler, a script and a remote
    image. *)
Definition linkMarkup : string :=
  "<a href=' JavaScript:alert(1)' id='go' onclick='x()'>click</a><script>evil()</script><img src='https://cdn.example.com/x.png'>".

Definition linkDoc : Document :=
  mkDocument []
    [el "head" [] [];
     el "body" []
       [el "a" [("href", " JavaScript:alert(1)"); ("id", "go"); ("onclick", "x()")]
           [Text "click"];
        el "script" [] [Text "evil()"];
        el "img" [("src", "https://cdn.example.com/x.png")] []]].

(** An empty document with a lower-case doctype. *)
Definition emptyMarkup : string :=
  ("<!doctype html>" ++ LF ++ "<html><head></head><body></body></html>")%string.

Definition emptyDoc : Document := mkDocument [] [el "head" [] []; el "body" [] []].

(** A [plaintext] element: nothing closes it, the rest of the input is its
    text. *)
Definition plaintextMarkup : string := "<plaintext>a".

Definition plaintextDoc (text : string) : Document :=
  mkDocument [] [el "head" [] []; el "body" [] [el "plaintext" [] [Text text]]].

(** A script between two texts: once it is removed the two texts stand
    side by side, and the parser reads what is written of them as one. *)
Definition splitTextMarkup : string := "<p>a<script>x()</script>b</p>".

Definition splitTextDoc : Document :=
  mkDocument []
    [el "head" [] [];
     el "body" [] [el "p" [] [Text "a"; el "script" [] [Text "x()"]; Text "b"]]].

Definition joinedTextDoc : Document :=
  mkDocument [] [el "head" [] []; el "body" [] [el "p" [] [Text "ab"]]].

Definition printed (d : Document) : string :=
  ("<!DOCTYPE html>" ++ LF ++ printNode false (documentElement d))%string.

(** What JSDOM builds for the markup of the worked cases (any other input
    is given the empty document). *)
Definition caseTable : list (string * Document) :=
  [(templateMarkup, templateDoc);
   (linkMarkup, linkDoc);
   (printed (sanitizeDocument linkDoc), sanitizeDocument linkDoc);
   (emptyMarkup, emptyDoc);
   (printed emptyDoc, emptyDoc);
   (plaintextMarkup, plaintextDoc "a");
   (printed (plaintextDoc "a"), plaintextDoc "a</plaintext></body></html>");
   (splitTextMarkup, splitTextDoc);
   (printed (sanitizeDocument splitTextDoc), joinedTextDoc)].

Fixpoint tableFind (s : string) (table : list (string * Document)) : Document :=
  match table with
  | [] => emptyDoc
  | (k, d) :: rest => if k =? s then d else tableFind s rest
  end.

Definition caseJsdom : Jsdom :=
  mkJsdom (fun s => tableFind s caseTable) (printNode false).

(** POSIX paths, for texts without [.] and [..] segments. *)
Fixpoint afterLastSlash (acc s : string) : string :=
  match s with
  | EmptyString => acc
  | String c rest =>
      if (c =? "/")%char then afterLastSlash rest rest else afterLastSlash acc rest
  end.

Definition posixPath : NodePath :=
  mkNodePath (fun a b => (a ++ "/" ++ b)%string) (fun s => afterLastSlash s s)
             "/app/uploads" "/app/outputs".


(** An environment for the worked cases: what the template lookup finds,
    the bytes of the template file, how [doc.render] proceeds, which writes
    are rejected, the clock.  Mustache is given templates without tags and
    returns them as they are. *)
Record Env : Type := mkEnv {
  envTemplate : option Template;
  envBytes : string;
  envScript : Script;
  envWriteFails : string -> bool;
  envNow : Z
}.

Definition envOracle (E : Env) : Oracle :=
  fun _ c =>
    match c as c0 return reply c0 with
    | FsMkdir _ => inr tt
    | FsReadFile _ => inr (envBytes E)
    | FsWriteFile p _ =>
        if envWriteFails E p then inl [("code", VStr "ENOSPC")] else inr tt
    | FsMkdtemp prefix => inr (prefix ++ "Ab12Cd")%string
    | FsAccess _ => inr tt
    | FsRm _ => inr tt
    | EnvSofficeBin => None
    | ProcessPlatform => "linux"
    | OsTmpdir => "/tmp"
    | DateNow => envNow E
    | ConsoleWarn _ _ => tt
    | Spawn _ _ _ => SpawnClose (Some 0%Z) "" ""
    | TemplateFindUnique _ => inr (envTemplate E)
    | MergeJobCreate _ => inr 101%Z
    | LibreConvert _ _ => inr "PDF_BUF"
    | PuppeteerLaunch => inr 1
    | BrowserNewPage _ => inr 2
    | PageSetContent _ _ => inr tt
    | PagePdf _ => inr "PDF_BUF"
    | BrowserClose _ => inr tt
    | MustacheRender t _ => inr t
    | PizZipNew _ => inr 1
    | DocxtemplaterNew _ _ => inr 2
    | DocxRender _ _ => envScript E
    | DocxGenerate _ => inr "DOCX_OUT"
    end.

(** A template with the one tag [firstName], which the data leave out. *)
Definition unresolvedScript : Script :=
  SNull (VObj [("value", VStr "firstName")]) (fun _ => SDone).


(** A template with a duplicate open tag: the engine throws its batch. *)
Definition malformedScript : Script :=
  SThrow
    [("message", VStr "Multi error");
     ("properties",
      VObj [("id", VStr "multi_error");
            ("errors",
             VArr [VObj [("properties",
                          VObj [("id", VStr "duplicate_open_tag");
                                ("explanation", VStr "Duplicate open tag");
                                ("xtag", VStr "{{ name");
                                ("file", VStr "word/document.xml");
                                ("offset", VNum 42)])]])])].

Definition docxEnv (script : Script) : Env :=
  mkEnv (Some (mkTemplate "tpl-docx-1" "1111-form.docx" [mkField "firstName"]))
        "FAKE_DOCX_CONTENT" script (fun _ => false) 1700000000000.


(** A disk that takes no more data: the write of the staged input is
    rejected. *)
Definition diskFullEnv : Env :=
  mkEnv None "" SDone (fun p => endsWith "/source.html" p) 1700000000000.


(** A template declaring [a] and [b.c]. *)
Definition contractTemplate : Template :=
  mkTemplate "tpl-docx-3" "3333-bad.docx" [mkField "a"; mkField "b.c"].

Definition contractEnv : Env :=
  mkEnv (Some contractTemplate) "FAKE_DOCX_CONTENT" SDone (fun _ => false) 1700000000000.

(** The events that open every attempt that reaches the field check. *)
Definition opening (P : NodePath) (a : MergeArgs) (template : Template) : Trace :=
  [event (FsMkdir (UPLOADS_DIR P)) (inr tt);
   event (FsMkdir (OUTPUTS_DIR P)) (inr tt);
   event (TemplateFindUnique (templateId a)) (inr (Some template))].

(** The advisory warning about undeclared leaf paths. *)
Definition extrasWarning (template : Template) (d : JsVal) : Trace :=
  match extrasOf template d with
  | [] => []
  | extras => [event (ConsoleWarn "Unexpected field:" (VArr (map VStr extras))) tt]
  end.


(** What the trace tells about persistence. *)

(** The job a successful [prisma.mergeJob.create] recorded, with its id. *)
Definition jobRecorded (ev : Event) : option (MergeJob * Z) :=
  match ev with
  | existT _ c x =>
      match c as c0 return reply c0 -> option (MergeJob * Z) with
      | MergeJobCreate j =>
          fun r => match r with inr id => Some (j, id) | inl _ => None end
      | _ => fun _ => None
      end x
  end.

(** The path and bytes of an [fs.writeFile], and whether it succeeded. *)
Definition fileWrite (ev : Event) : option (string * string * bool) :=
  match ev with
  | existT _ c x =>
      match c as c0 return reply c0 -> option (string * string * bool) with
      | FsWriteFile p d =>
          fun r => match r with inr _ => Some (p, d, true) | inl _ => Some (p, d, false) end
      | _ => fun _ => None
      end x
  end.

(** The calls open to the render/convert/sanitize chain: it creates no job
    and writes nothing but the staged input of the two-stage conversion. *)
Definition chainCall (P : NodePath) (c : Call) : Prop :=
  match c with
  | MergeJobCreate _ => False
  | FsWriteFile p _ => exists dir, p = path_join P dir "source.html"
  | _ => True
  end.


(** Whether a call removes a file or a directory. *)
Definition isRemoval (c : Call) : bool :=
  match c with FsRm _ => true | _ => false end.

(** Whether an event is the audit log of the sanitizer. *)
Definition isAuditCall (c : Call) : bool :=
  match c with
  | ConsoleWarn label _ => label =? "Sanitization modified merged HTML for template"
  | _ => false
  end.

Definition auditLogged (ev : Event) : bool := isAuditCall (projT1 ev).

(** Markup templates stored as [9999-sample.html], declaring no field. *)
Definition htmlEnv (bytes : string) : Env :=
  mkEnv (Some (mkTemplate "tpl-html-1" "9999-sample.html" []))
        bytes SDone (fun _ => false) 1700000000000.

Definition webhookArgs : MergeArgs :=
  mkMergeArgs "tpl-html-1" (VObj []) "html" None true.

(* ================================================================== *)
(** * Predicates on texts and trees *)

(** Every character of [s] satisfies [p]. *)
Fixpoint allChars (p : ascii -> bool) (s : string) : bool :=
  match s with
  | EmptyString => true
  | String c rest => p c && allChars p rest
  end.

(** [\d]. *)
Definition isDigit (c : ascii) : bool :=
  let n := nat_of_ascii c in (48 <=? n)%nat && (n <=? 57)%nat.

(** Neither of the two path separators. *)
Definition notSeparator (c : ascii) : bool :=
  negb (c =? "/")%char && negb (c =? "\")%char.

(** An element tree in which no element has template contents. *)
Fixpoint noContent (n : Node) : bool :=
  match n with
  | Elem _ _ children content =>
      match content with
      | [] => forallb noContent children
      | _ => false
      end
  | _ => true
  end.

(* ================================================================== *)
(** * More worked cases *)

(** Whether a call closes a browser. *)
Definition isBrowserClose (c : Call) : bool :=
  match c with BrowserClose _ => true | _ => false end.

(** A stored file that is neither kind of template. *)
Definition txtEnv : Env :=
  mkEnv (Some (mkTemplate "tpl-txt-1" "7777-notes.txt" []))
        "plain text" SDone (fun _ => false) 1700000000000.

(** An environment in which PizZip cannot open the bytes. *)
Definition failingZip (message : string) (o : Oracle) : Oracle :=
  fun h c =>
    match c as c0 return reply c0 -> reply c0 with
    | PizZipNew _ => fun _ => inl [("message", VStr message)]
    | _ => fun r => r
    end (o h c).

(* ================================================================== *)
(** * Upload-time markup linter: [html-lint.js] *)

(** The tree [parse5.parse] builds.  Every node has a [nodeName]: the tag
    name for an element, [#document], [#text], [#comment] and
    [#documentType] for the others.  An element has [attrs]; a node that can
    have children has [childNodes]; where the source reads a property a node
    lacks it puts the empty array in its place, and so does the list here.
    A [template] element keeps its contents in [content], away from its
    [childNodes]. *)
#[local] Unset Elimination Schemes.
Inductive AstNode : Type :=
| Ast (nodeName : string) (attrs : list (string * string))
      (childNodes : list AstNode) (content : list AstNode).
#[local] Set Elimination Schemes.

(** Induction over the tree, through [childNodes]. *)
Section AstNode_induction.
Variable Q : AstNode -> Prop.
Hypothesis Hast : forall nodeName attrs childNodes content,
    Forall Q childNodes -> Q (Ast nodeName attrs childNodes content).

Fixpoint AstNode_ind' (n : AstNode) : Q n :=
  match n with
  | Ast nodeName attrs childNodes content =>
      Hast nodeName attrs childNodes content
        ((fix go (cs : list AstNode) : Forall Q cs :=
            match cs with
            | [] => Forall_nil _
            | c :: rest => Forall_cons _ (AstNode_ind' c) (go rest)
            end) childNodes)
  end.
End AstNode_induction.

(** The accumulator [issues], which [walk] fills. *)
Record Issues : Type := mkIssues {
  errors : list string;
  warnings : list string
}.

(** [issues.errors.push(m)] and [issues.warnings.push(m)]. *)
Definition pushError (m : string) (issues : Issues) : Issues :=
  mkIssues (errors issues ++ [m]) (warnings issues).

Definition pushWarning (m : string) (issues : Issues) : Issues :=
  mkIssues (errors issues) (warnings issues ++ [m]).

Definition BAD_TAGS : list string := new_Set ["script"; "iframe"; "object"; "embed"].

(** [\w]. *)
Definition isWordChar (c : ascii) : bool :=
  let n := nat_of_ascii c in
  ((48 <=? n)%nat && (n <=? 57)%nat) || ((65 <=? n)%nat && (n <=? 90)%nat)
  || ((97 <=? n)%nat && (n <=? 122)%nat) || (n =? 95)%nat.

(** [/^on\w+/i]: the two letters in either case and one more word
    character. *)
Definition ON_ATTR (name : string) : bool :=
  match name with
  | String a (String b (String c _)) =>
      (lowerChar a =? "o")%char && (lowerChar b =? "n")%char && isWordChar c
  | _ => false
  end.

(** [/^javascript:/i]. *)
Definition JS_URL (value : string) : bool :=
  startsWith "javascript:" (toLowerCase value).

(** [/^https?:\/\//i]. *)
Definition REMOTE (value : string) : bool :=
  startsWith "http://" (toLowerCase value) || startsWith "https://" (toLowerCase value).

(** A pattern tried at every position of the text, as an unanchored
    [test] does. *)
Fixpoint anywhere (p : string -> bool) (s : string) : bool :=
  p s || match s with
         | EmptyString => false
         | String _ rest => anywhere p rest
         end.

(** What [\s*[^}]+\s*}}}] asks of the text after [{{{].  White space is
    not a closing brace, so the two [\s*] add nothing to [[^}]+]: the text
    matches when its first closing brace comes after at least one other
    character and opens [}}}]. *)
Fixpoint closesTriple (seen : bool) (s : string) : bool :=
  match s with
  | EmptyString => false
  | String c rest =>
      if (c =? "}")%char then seen && startsWith "}}}" s
      else closesTriple true rest
  end.

Definition tripleAt (s : string) : bool :=
  match s with
  | String a (String b (String c rest)) =>
      (a =? "{")%char && (b =? "{")%char && (c =? "{")%char && closesTriple false rest
  | _ => false
  end.

(** [/{{{\s*[^}]+\s*}}}/]. *)
Definition TRIPLE (html : string) : bool := anywhere tripleAt html.

(** The text after a match, letters in either case, of the lower-case
    text [p] at the start of [s]. *)
Fixpoint afterPrefixCI (p s : string) : option string :=
  match p, s with
  | EmptyString, _ => Some s
  | String a p', String b s' =>
      if (lowerChar b =? a)%char then afterPrefixCI p' s' else None
  | String _ _, EmptyString => None
  end.

(** A double or a single quote. *)
Definition afterQuote (s : string) : option string :=
  match s with
  | String c rest =>
      if (nat_of_ascii c =? 34)%nat || (nat_of_ascii c =? 39)%nat then Some rest else None
  | EmptyString => None
  end.

(** The text after the text [p] at the start of [s]. *)
Fixpoint afterPrefix (p s : string) : option string :=
  match p, s with
  | EmptyString, _ => Some s
  | String a p', String b s' => if (b =? a)%char then afterPrefix p' s' else None
  | String _ _, EmptyString => None
  end.

(** [/@page\b/]: after [@page] comes no word character. *)
Definition atPageAt (s : string) : bool :=
  match afterPrefix "@page" s with
  | Some (String c _) => negb (isWordChar c)
  | Some EmptyString => true
  | None => false
  end.

(** The second pattern of [hasPrintCss]: [media], [=] and the quoted word
    [print], letters in either case, white space allowed around [=]. *)
Definition mediaPrintAt (s : string) : bool :=
  match afterPrefixCI "media" s with
  | Some r1 =>
      match skipWhitespace r1 with
      | String e r2 =>
          (e =? "=")%char
          && match afterQuote (skipWhitespace r2) with
             | Some r3 =>
                 match afterPrefixCI "print" r3 with
                 | Some r4 =>
                     match afterQuote r4 with Some _ => true | None => false end
                 | None => false
                 end
             | None => false
             end
      | EmptyString => false
      end
  | None => false
  end.

(** [hasPrintCss(html)]. *)
Definition hasPrintCss (html : string) : bool :=
  anywhere atPageAt html || anywhere mediaPrintAt html.

(** The body of the loop over [node.attrs || []]. *)
Definition lintAttr (tag : string) (allowRemote : bool) (issues : Issues)
  (a : string * string) : Issues :=
  let issues1 :=
    if ON_ATTR (fst a)
    then pushError ("Disallowed attr " ++ DQ ++ fst a ++ DQ ++ " on <" ++ tag ++ ">") issues
    else issues in
  let issues2 :=
    if (fst a =? "href") && JS_URL (snd a)
    then pushError ("javascript: URL on <" ++ tag ++ ">") issues1
    else issues1 in
  if negb allowRemote && REMOTE (snd a)
  then pushWarning ("Remote ref: " ++ fst a ++ "=" ++ DQ ++ snd a ++ DQ) issues2
  else issues2.

(** [walk(node, issues, allowRemote)]: the node, then its [childNodes] in
    order; the one [issues] object is passed down and filled.  In the
    messages the tag is [nodeName.toLowerCase()]. *)
Fixpoint walk (node : AstNode) (issues : Issues) (allowRemote : bool) : Issues :=
  match node with
  | Ast nodeName attrs childNodes _ =>
      let issues1 :=
        if negb (nodeName =? "") then
          let tag := toLowerCase nodeName in
          fold_left (lintAttr tag allowRemote) attrs
            (if Set_has BAD_TAGS tag
             then pushError ("Disallowed <" ++ tag ++ "> tag") issues
             else issues)
        else issues in
      (fix each (cs : list AstNode) (acc : Issues) : Issues :=
         match cs with
         | [] => acc
         | c :: rest => each rest (walk c acc allowRemote)
         end) childNodes issues1
  end.

(** The options of [lintHtmlBuffer]; both default to [false]. *)
Record LintOptions : Type := mkLintOptions {
  allowRemote : bool;
  requirePrintCss : bool
}.

(** [lintHtmlBuffer(buf, { allowRemote, requirePrintCss })], given what
    [parse5.parse] makes of the text. *)
Definition lintHtmlBuffer (parse5 : string -> AstNode) (buf : string)
  (options : LintOptions) : Issues :=
  let html := buf in
  let issues0 := mkIssues [] [] in
  let issues1 :=
    if TRIPLE html
    then pushError "Disallowed {{{ triple braces }}} (unescaped HTML)" issues0
    else issues0 in
  let issues2 := walk (parse5 html) issues1 (allowRemote options) in
  if requirePrintCss options && negb (hasPrintCss html)
  then pushWarning ("No print CSS detected (@page or media=" ++ DQ ++ "print" ++ DQ ++ ").")
                   issues2
  else issues2.

(** What the linter is to tell. *)

(** Whether an attribute adds an error. *)
Definition attrRejected (a : string * string) : bool :=
  ON_ATTR (fst a) || ((fst a =? "href") && JS_URL (snd a)).

(** The error messages one attribute adds. *)
Definition attrErrors (tag : string) (a : string * string) : list string :=
  (if ON_ATTR (fst a)
   then [("Disallowed attr " ++ DQ ++ fst a ++ DQ ++ " on <" ++ tag ++ ">")%string]
   else [])
  ++ (if (fst a =? "href") && JS_URL (snd a)
      then [("javascript: URL on <" ++ tag ++ ">")%string]
      else []).

(** The error messages of a tree, in document order. *)
Fixpoint nodeErrors (n : AstNode) : list string :=
  match n with
  | Ast nodeName attrs childNodes _ =>
      (if negb (nodeName =? "") then
         let tag := toLowerCase nodeName in
         (if Set_has BAD_TAGS tag then [("Disallowed <" ++ tag ++ "> tag")%string] else [])
         ++ flat_map (attrErrors tag) attrs
       else [])
      ++ flat_map nodeErrors childNodes
  end.

(** A node that adds no error. *)
Definition nodeAccepted (n : AstNode) : bool :=
  match n with
  | Ast nodeName attrs _ _ =>
      (nodeName =? "")
      || (negb (Set_has BAD_TAGS (toLowerCase nodeName))
          && forallb (fun a => negb (attrRejected a)) attrs)
  end.

(** The node and the nodes below it, through [childNodes]. *)
Fixpoint astNodes (n : AstNode) : list AstNode :=
  match n with
  | Ast _ _ childNodes _ => n :: flat_map astNodes childNodes
  end.

(** What [parse5] builds for the markup of the worked cases. *)
Definition ast (name : string) (attrs : list (string * string)) (kids : list AstNode)
  : AstNode := Ast name attrs kids [].

Definition linkAst : AstNode :=
  ast "#document" []
    [ast "html" []
       [ast "head" [] [];
        ast "body" []
          [ast "a" [("href", " JavaScript:alert(1)"); ("id", "go"); ("onclick", "x()")]
               [ast "#text" [] []];
           ast "script" [] [ast "#text" [] []];
           ast "img" [("src", "https://cdn.example.com/x.png")] []]]].

(* ================================================================== *)
(** * Template service: [template.service.js] *)

(** The text left after a maximal leading match of [\d*]. *)
Fixpoint dropDigits (s : string) : string :=
  match s with
  | String c rest => if isDigit c then dropDigits rest else s
  | EmptyString => s
  end.

(** [downloadNameFor(storedName)]: [storedName.replace(/^\d+-/, "")].  The
    digits are taken greedily and no shorter run of them is followed by the
    hyphen, so the pattern matches when the text starts with a digit and
    the hyphen follows the leading digits. *)
Definition downloadNameFor (storedName : string) : string :=
  match storedName with
  | String c _ =>
      if isDigit c then
        match dropDigits storedName with
        | String d rest => if (d =? "-")%char then rest else storedName
        | EmptyString => storedName
        end
      else storedName
  | EmptyString => storedName
  end.

(** [[\w\.]], and the text left after a maximal leading match of
    [[\w\.]*]. *)
Definition isNameChar (c : ascii) : bool := isWordChar c || (c =? ".")%char.

Fixpoint dropName (s : string) : string :=
  match s with
  | String c rest => if isNameChar c then dropName rest else s
  | EmptyString => s
  end.

(** The text after [}}] at the start of [s]. *)
Definition afterClose (s : string) : option string :=
  match s with
  | String c (String d rest) =>
      if (c =? "}")%char && (d =? "}")%char then Some rest else None
  | _ => None
  end.

(** [/{{\s*([\w\.]+)\s*}}/] at the start of [s]: how many characters it
    matches.  White space, name characters and braces are disjoint, so the
    greedy match is the only one. *)
Definition placeholderAt (s : string) : option nat :=
  match s with
  | String a (String b r0) =>
      if (a =? "{")%char && (b =? "{")%char then
        let r1 := skipWhitespace r0 in
        let r2 := dropName r1 in
        if (String.length r2 <? String.length r1)%nat then
          match afterClose (skipWhitespace r2) with
          | Some r3 => Some (String.length s - String.length r3)
          | None => None
          end
        else None
      else None
  | _ => None
  end.

(** [{{\s*|\s*}}] at the start of [s]: how many characters it matches. *)
Definition delimiterAt (s : string) : option nat :=
  match s with
  | String a (String b r0) =>
      if (a =? "{")%char && (b =? "{")%char
      then Some (String.length s - String.length (skipWhitespace r0))
      else
        match afterClose (skipWhitespace s) with
        | Some r => Some (String.length s - String.length r)
        | None => None
        end
  | _ => None
  end.

(** [text.match(re) || []] for a global pattern that matches no empty
    text: the matches from left to right, each search starting where the
    match before ended.  [skip] counts the characters of the current match
    still to pass. *)
Fixpoint matchAll (pattern : string -> option nat) (skip : nat) (s : string)
  : list string :=
  match s with
  | EmptyString => []
  | String _ rest =>
      match skip with
      | S n => matchAll pattern n rest
      | O =>
          match pattern s with
          | Some len => substring 0 len s :: matchAll pattern (len - 1) rest
          | None => matchAll pattern 0 rest
          end
      end
  end.

(** [s.replace(re, "")] for such a pattern. *)
Fixpoint removeAll (pattern : string -> option nat) (skip : nat) (s : string)
  : string :=
  match s with
  | EmptyString => EmptyString
  | String c rest =>
      match skip with
      | S n => removeAll pattern n rest
      | O =>
          match pattern s with
          | Some len => removeAll pattern (len - 1) rest
          | None => String c (removeAll pattern 0 rest)
          end
      end
  end.

(** [extractPlaceholders(text)]. *)
Definition extractPlaceholders (text : string) : list string :=
  let matches := matchAll placeholderAt 0 text in
  new_Set (map (fun m => removeAll delimiterAt 0 m) matches).

(** A text with one tag per name, each after its separator. *)
Fixpoint tagged (parts : list (string * string)) (tail : string) : string :=
  match parts with
  | [] => tail
  | (separator, name) :: rest =>
      (separator ++ "{{" ++ name ++ "}}" ++ tagged rest tail)%string
  end.

(** A placeholder name, and a text without an opening brace. *)
Definition isName (name : string) : bool :=
  negb (name =? "") && allChars isNameChar name.

Definition noOpening (s : string) : bool :=
  allChars (fun c => negb (c =? "{")%char) s.

(** A run of white space: [\s*] passes it whatever follows. *)
Definition Blank (w : string) : Prop :=
  forall t, skipWhitespace (w ++ t) = skipWhitespace t.

(** A one-byte character that is not white space. *)
Definition plainChar (c : ascii) : bool :=
  negb (isAsciiSpace c) && (nat_of_ascii c <? 128)%nat.

(* ================================================================== *)
(** * The HTTP layer: calls, programs and traces *)

(** What a handler sends with [res.status(s)]: [.send(text)] or
    [.json(value)]. *)
Inductive Body : Type :=
| Sent (text : string)
| Json (value : JsVal).

(** What [FileType.fromBuffer] detects. *)
Record FileType : Type := mkFileType {
  ext : string;
  mime : string
}.

(** The calls of the route handlers: those of the merge engine and, on top
    of them, type detection, the object store ([s3.send] of a put, to the
    bucket of the environment), Mammoth, the template table, the two
    parsers of the webhook, the console, the response and the [next] of a
    middleware. *)
Inductive WebCall : Type :=
| Core (c : Call)
| FileTypeFromBuffer (bytes : string)
| S3PutObject (key bytes contentType : string)
| MammothExtractRawText (bytes : string)
| TemplateCreate (name : string) (fieldNames : list string)
| CsvParse (csv : string)
| JsonParse (text : string)
| ConsoleLog (label : string) (payload : JsVal)
| ConsoleError (label : string) (err : JsErr)
| Respond (status : nat) (body : Body)
| Next.

(** What each call gives back.  A response and the console give nothing
    and do not throw. *)
Definition webReply (c : WebCall) : Type :=
  match c with
  | Core c0 => reply c0
  | FileTypeFromBuffer _ => ExtErr + option FileType
  | S3PutObject _ _ _ => ExtErr + unit
  | MammothExtractRawText _ => ExtErr + string
  | TemplateCreate _ _ => ExtErr + Template
  | CsvParse _ => ExtErr + list JsVal
  | JsonParse _ => ExtErr + JsVal
  | ConsoleLog _ _ => unit
  | ConsoleError _ _ => unit
  | Respond _ _ => unit
  | Next => unit
  end%type.

(** A handler's program. *)
Inductive Web (R : Type) : Type :=
| Done (r : R)
| Step (c : WebCall) (k : webReply c -> Web R).

Arguments Done {R} r.
Arguments Step {R} c k.

Fixpoint webThen {A B} (m : Web A) (f : A -> Web B) : Web B :=
  match m with
  | Done a => f a
  | Step c k => Step c (fun x => webThen (k x) f)
  end.

(** A program of the merge engine, run inside a handler. *)
Fixpoint lift {R} (m : Prog R) : Web R :=
  match m with
  | Ret r => Done r
  | Vis c k => Step (Core c) (fun x => lift (k x))
  end.

(** Handlers' programs that may throw. *)
Definition Handler (R : Type) : Type := Web (Res R).

Definition webBind {A B} (m : Handler A) (f : A -> Handler B) : Handler B :=
  webThen m (fun r => match r with inl e => Done (inl e) | inr a => f a end).

Definition webRet {R} (r : R) : Handler R := Done (inr r).
Definition webThrow {R} (e : JsErr) : Handler R := Done (inl e).

(** A call that cannot throw, and a fallible one. *)
Definition webAsk (c : WebCall) : Web (webReply c) := Step c (fun x => Done x).

Definition webCall {T} (c : WebCall) (cast : webReply c -> ExtErr + T) : Handler T :=
  Step c (fun x => Done (liftExt (cast x))).

(** [try { m } catch (e) { h e }]. *)
Definition webTry {R} (m : Handler R) (h : JsErr -> Handler R) : Handler R :=
  webThen m (fun r => match r with inl e => h e | inr v => webRet v end).

(** [res.status(status).send(text)], [res.status(status).json(value)]. *)
Definition respond (status : nat) (body : Body) : Handler unit :=
  Step (Respond status body) (fun _ => Done (inr tt)).

Declare Scope web_scope.
Delimit Scope web_scope with web.
Notation "x <- m ;; k" := (webBind m (fun x => k))
  (at level 61, m at next level, right associativity) : web_scope.
Notation "m ;;; k" := (webBind m (fun _ => k))
  (at level 61, right associativity) : web_scope.
Notation "x <~ m ;; k" := (webThen m (fun x => k))
  (at level 61, m at next level, right associativity) : web_scope.

(** Traces of a handler and the world that answers its calls. *)
Definition WebEvent : Type := { c : WebCall & webReply c }.
Definition WebTrace : Type := list WebEvent.
Definition webEvent (c : WebCall) (r : webReply c) : WebEvent := existT _ c r.

Definition World : Type := WebTrace -> forall c : WebCall, webReply c.

Fixpoint serve {R} (w : World) (m : Web R) (h : WebTrace) : R * WebTrace :=
  match m with
  | Done r => (r, [])
  | Step c k =>
      let x := w h c in
      let (r, t) := serve w (k x) (h ++ [webEvent c x]) in
      (r, webEvent c x :: t)
  end.

(** An event of the merge engine as an event of the handler, and the
    oracle the engine meets when it runs after history [h]. *)
Definition inject (ev : Event) : WebEvent := existT _ (Core (projT1 ev)) (projT2 ev).

Definition engineOracle (w : World) (h : WebTrace) : Oracle :=
  fun t c => w (h ++ map inject t) (Core c).

(** Whether a call ends the handling of a request: a response, or the
    [next] that hands it on. *)
Definition isAnswer (c : WebCall) : bool :=
  match c with Respond _ _ | Next => true | _ => false end.

(** Calls of the merge engine. *)
Definition isCore (c : WebCall) : bool :=
  match c with Core _ => true | _ => false end.

(** Programs that call nothing that satisfies [bad]. *)
Inductive quiet {R} (bad : WebCall -> bool) : Web R -> Prop :=
| quiet_Done : forall r, quiet bad (Done r)
| quiet_Step : forall c k,
    bad c = false -> (forall x, quiet bad (k x)) -> quiet bad (Step c k).

(** Programs that on every path answer once, as their last call, and
    return; with [throws], a path may instead throw without having
    answered. *)
Inductive answers (throws : bool) : Handler unit -> Prop :=
| answers_now : forall c k,
    isAnswer c = true -> (forall x, k x = Done (inr tt)) -> answers throws (Step c k)
| answers_throw : forall e, throws = true -> answers throws (Done (inl e))
| answers_Step : forall c k,
    isAnswer c = false -> (forall x, answers throws (k x)) -> answers throws (Step c k).

(** A trace without an answer, and a trace whose last event is its only
    answer. *)
Definition silent (t : WebTrace) : Prop :=
  Forall (fun ev => isAnswer (projT1 ev) = false) t.

Definition answeredOnce (t : WebTrace) : Prop :=
  exists before last,
    t = before ++ [last] /\ silent before /\ isAnswer (projT1 last) = true.

(* ================================================================== *)
(** * Text extraction and storage: [template.service.js] *)

Definition DOCX_MIME : string :=
  "application/vnd.openxmlformats-officedocument.wordprocessingml.document".

(** [document.body]: the first [body] or [frameset] child of the root
    element. *)
Definition bodyOf (d : Document) : option Node :=
  find (fun n => match n with
                 | Elem tag _ _ _ => (tag =? "body") || (tag =? "frameset")
                 | _ => false
                 end)
       (rootChildren d).

(** [node.textContent]: the data of the text nodes below the node, in tree
    order. *)
Fixpoint textContent (n : Node) : string :=
  match n with
  | Elem _ _ children _ => String.concat "" (map textContent children)
  | Text d => d
  | Comment _ => ""
  end.

Section TemplateService.
Variable J : Jsdom.

(** [extractTextFromBuffer(buffer, mimeType)]. *)
Definition extractTextFromBuffer (bytes mimeType : string) : Handler string :=
  if mimeType =? DOCX_MIME then
    webCall (MammothExtractRawText bytes) (fun x => x)
  else if mimeType =? "text/html" then
    match bodyOf (parse J bytes) with
    | Some body => webRet (textContent body)
    | None => webThrow typeError
    end
  else webThrow (newError "Unsupported MIME type for parsing").

(** [storeTemplateAndFields(templateName, fieldNames)]. *)
Definition storeTemplateAndFields (name : string) (fieldNames : list string)
  : Handler Template :=
  webCall (TemplateCreate name fieldNames) (fun x => x).

End TemplateService.

(** [withPrefix(key)]. *)
Definition withPrefix (key : string) : string := key.

(* ================================================================== *)
(** * Upload route: [templateUploadHandler.js] *)

(** [req.file], as the upload middleware fills it. *)
Record Upload : Type := mkUpload {
  originalname : string;
  buffer : string
}.

Definition ALLOWED_MIME_TYPES : list string := [DOCX_MIME; "text/html"].

(** The four bytes [50 4b 03 04]. *)
Definition ZIP_MAGIC : string :=
  String (ascii_of_nat 80) (String (ascii_of_nat 75)
    (String (ascii_of_nat 3) (String (ascii_of_nat 4) EmptyString))).

(** [lint.length] and the like: the [length] of a value; reading it off
    [null] or [undefined] throws. *)
Definition lengthOf (v : JsVal) : Res JsVal :=
  match v with
  | VUndefined | VNull => inl typeError
  | VArr items => inr (VNum (Z.of_nat (List.length items)))
  | VStr s => inr (VNum (Z.of_nat (List.length (codeUnits s))))
  | VObj fields => inr (lookup "length" fields)
  | _ => inr VUndefined
  end.

Section UploadRoute.
Variable parse5 : string -> AstNode.
Variable J : Jsdom.
Variable P : NodePath.
Variable path_extname : string -> string.

(** Lines 92 to 118: the type by extension, tried when detection by
    content found nothing. *)
Definition fallbackType (file : Upload) : option FileType :=
  let extension := toLowerCase (path_extname (originalname file)) in
  if extension =? ".docx" then
    if substring 0 4 (buffer file) =? ZIP_MAGIC
    then Some (mkFileType "docx" DOCX_MIME)
    else None
  else if (extension =? ".html") || (extension =? ".htm") then
    Some (mkFileType (substring 1 (String.length extension - 1) extension) "text/html")
  else None.

(** [sanitize(name)]. *)
Definition sanitize (name : string) : string :=
  replaceUnsafeRuns false (path_basename P name).

(** Lines 165 to 258: what follows the checks. *)
Definition storeUpload (file : Upload) (fileType : FileType) : Handler unit :=
  (let baseName := sanitize (originalname file) in
   now <~ webAsk (Core DateNow) ;;
   let stamped := (string_of_Z now ++ "-" ++ baseName)%string in
   let s3Key := withPrefix ("uploads/" ++ stamped) in
   webCall (S3PutObject s3Key (buffer file) (mime fileType)) (fun x => x) ;;;
   text <- extractTextFromBuffer J (buffer file) (mime fileType) ;;
   let placeholders := extractPlaceholders text in
   savedTemplate <- storeTemplateAndFields stamped placeholders ;;
   respond 200
     (Json (VObj [("templateId", VStr (templateIdOf savedTemplate));
                  ("fields", VArr (map (fun f => VStr (fieldName f))
                                       (templateFields savedTemplate)));
                  ("message",
                   VStr ("File " ++ DQ ++ originalname file ++ DQ
                         ++ " successfully uploaded and validated."))])))%web.

(** Lines 154 to 163: the lint of a DOCX, then the rest. *)
Definition docxGate (file : Upload) (fileType : FileType) : Handler unit :=
  (if ext fileType =? "docx" then
     lint <- lift (lintDocxBuffer (buffer file)) ;;
     size <~ Done (lengthOf lint) ;;
     match size with
     | inl e => webThrow e
     | inr n =>
         if truthy n
         then respond 422
                (Json (VObj [("error",
                              VStr "Template has invalid Docxtemplater delimiters/tags");
                             ("details", lint)]))
         else storeUpload file fileType
     end
   else storeUpload file fileType)%web.

(** Lines 132 to 149: the lint of markup, then the rest. *)
Definition htmlGate (file : Upload) (fileType : FileType) : Handler unit :=
  (if (ext fileType =? "html") || (mime fileType =? "text/html") then
     let issues := lintHtmlBuffer parse5 (buffer file) (mkLintOptions false false) in
     _ <~ (match warnings issues with
           | [] => Done tt
           | ws => webAsk (Core (ConsoleWarn "HTML template warnings:" (VArr (map VStr ws))))
           end) ;;
     match errors issues with
     | [] => docxGate file fileType
     | es => respond 422
               (Json (VObj [("error", VStr "Template blocked by HTML linter");
                            ("details", VArr (map VStr es))]))
     end
   else docxGate file fileType)%web.

(** The handler of [POST /upload]. *)
Definition uploadHandler (file : option Upload) : Handler unit :=
  webTry
    (match file with
     | None => respond 400 (Sent "No file uploaded")
     | Some file =>
         (detected <- webCall (FileTypeFromBuffer (buffer file)) (fun x => x) ;;
          let fileType :=
            match detected with
            | Some t => Some t
            | None => fallbackType file
            end in
          match fileType with
          | None => respond 415 (Sent "Unsupported or undetectable file type.")
          | Some t =>
              if negb (existsb (String.eqb (mime t)) ALLOWED_MIME_TYPES)
              then respond 415 (Sent "Unsupported or undetectable file type.")
              else htmlGate file t
          end)%web
     end)
    (fun err =>
       (_ <~ webAsk (ConsoleError "Upload error:" err) ;;
        respond 500 (Sent "Internal Server Error"))%web).

End UploadRoute.

(* ================================================================== *)
(** * Merge routes: [merge.routes.js] *)

(** [err.message === "TEMPLATE_PARSE_ERROR" && err.details]. *)
Definition isParseFailure (err : JsErr) : bool :=
  match errGet err "message" with
  | VStr m => (m =? "TEMPLATE_PARSE_ERROR") && truthy (errGet err "details")
  | _ => false
  end.

(** The [catch] of the merge handlers. *)
Definition mergeFailure (label : string) (err : JsErr) : Handler unit :=
  (if isParseFailure err then
     respond 422
       (Json (VObj [("error", VStr "Template has invalid Docxtemplater tags");
                    ("details", errGet err "details")]))
   else
     _ <~ webAsk (ConsoleError label err) ;;
     respond 400 (Json (VObj [("error", errGet err "message")])))%web.

(** The object [mergeTemplate] returns. *)
Definition jobResult (r : Z * string) : JsVal :=
  VObj [("jobId", VNum (fst r)); ("filePath", VStr (snd r))].

(** The request of the manual merge: the path parameter, the parsed JSON
    body and [req.user?.id]. *)
Record MergeRequest : Type := mkMergeRequest {
  paramTemplateId : string;
  requestBody : JsVal;
  requestUser : option string
}.

(** A destructured property with its default, which stands in for
    [undefined] only. *)
Definition orDefault (v fallback : JsVal) : JsVal :=
  match v with VUndefined => fallback | _ => v end.

(** The output type as the engine compares it.  A value that is not a
    string equals none of the three accepted texts; it is given as the
    empty text, which equals none of them either and appears in no call
    made before the engine rejects it. *)
Definition outputTypeOf (v : JsVal) : string :=
  match v with VStr s => s | _ => "" end.

(** [data && typeof data === "object" ? Object.keys(data) : data]. *)
Definition dataKeys (d : JsVal) : JsVal :=
  if truthy d && typeof_object d
  then VArr (map (fun e => VStr (fst e)) (Object_entries d))
  else d.

Section MergeRoutes.
Variable J : Jsdom.
Variable P : NodePath.

(** [const { data = {}, outputType = "docx" } = req.body || {}] and the
    argument the handler gives [mergeTemplate]. *)
Definition manualArgs (req : MergeRequest) : MergeArgs :=
  let source := js_or (requestBody req) (VObj []) in
  let d := orDefault (get source "data") (VObj []) in
  let outputType := orDefault (get source "outputType") (VStr "docx") in
  mkMergeArgs (paramTemplateId req) d (outputTypeOf outputType) (requestUser req) false.

(** The handler of [POST /templates/:templateId/merge]. *)
Definition manualMerge (req : MergeRequest) : Handler unit :=
  webTry
    (_ <~ webAsk (ConsoleLog "merge data keys:" (dataKeys (data (manualArgs req)))) ;;
     result <- lift (mergeTemplate J P (manualArgs req)) ;;
     respond 200 (Json (jobResult result)))%web
    (mergeFailure "Merge error:").

(** The request of the webhook, once [verifyHmac] has let it through: the
    path parameter, [req.query.outputType] (a text, when the parameter is
    given once), the content type header and the raw body. *)
Record WebhookRequest : Type := mkWebhookRequest {
  hookTemplateId : string;
  queryOutputType : option string;
  contentType : option string;
  rawBody : string
}.

(** [s.includes(part)]. *)
Definition includes (part s : string) : bool := anywhere (startsWith part) s.

(** The loop over the rows: each merge awaited before the next, the jobs
    collected in order; a job brings no [warnings], so none is gathered. *)
Fixpoint mergeRows (templateId outputType : string) (rows : list JsVal)
  (jobs : list JsVal) : Handler (list JsVal) :=
  match rows with
  | [] => webRet jobs
  | row :: rest =>
      (job <- lift (mergeTemplate J P
                      (mkMergeArgs templateId row outputType None true)) ;;
       mergeRows templateId outputType rest (jobs ++ [jobResult job]))%web
  end.

(** Lines 528 to 553: the rows of the payload, or the response that ends
    the request. *)
Definition readRows (req : WebhookRequest) : Handler (option (list JsVal)) :=
  let ctype := toLowerCase (match contentType req with Some c => c | None => "" end) in
  webTry
    (if includes "text/csv" ctype then
       (rows <- webCall (CsvParse (rawBody req)) (fun x => x) ;;
        webRet (Some rows))%web
     else if includes "application/json" ctype then
       (json <- webCall (JsonParse (rawBody req)) (fun x => x) ;;
        webRet (Some (match json with VArr items => items | _ => [json] end)))%web
     else
       (respond 415 (Json (VObj [("error", VStr "Unsupported content type")])) ;;;
        webRet None)%web)
    (fun _ =>
       (respond 400 (Json (VObj [("error", VStr "Invalid payload")])) ;;;
        webRet None)%web).

(** The handler of [POST /webhooks/templates/:templateId]. *)
Definition webhookMerge (req : WebhookRequest) : Handler unit :=
  let outputType :=
    match queryOutputType req with
    | Some t => if t =? "" then "pdf" else t
    | None => "pdf"
    end in
  (read <- readRows req ;;
   match read with
   | None => webRet tt
   | Some rows =>
       if (1000 <? List.length rows)%nat
       then respond 413 (Json (VObj [("error", VStr "Too many rows")]))
       else
         webTry
           (jobs <- mergeRows (hookTemplateId req) outputType rows [] ;;
            respond 200
              (Json (VObj [("count", VNum (Z.of_nat (List.length rows)));
                           ("jobs", VArr jobs)])))
           (mergeFailure "Webhook merge error:")
   end)%web.

End MergeRoutes.

(** The request as [verifyHmac] sees it: the signature header and the
    body, raw bytes when the raw parser ran. *)
Record SignedRequest : Type := mkSignedRequest {
  signatureHeader : option string;
  signedBody : option string
}.

Section VerifyHmac.
(** [crypto.createHmac("sha256", WEBHOOK_SECRET).update(raw).digest()], with
    the secret set (the application does not start without it), and
    [Buffer.from(text, "hex")], which does not throw. *)
Variable hmacSha256 : string -> string.
Variable fromHex : string -> string.

(** [verifyHmac(req, res, next)]. *)
Definition verifyHmac (req : SignedRequest) : Handler unit :=
  let sigHex := trim (match signatureHeader req with Some s => s | None => "" end) in
  if sigHex =? "" then respond 401 (Json (VObj [("error", VStr "Unauthorized")]))
  else
    match signedBody req with
    | None => respond 400 (Json (VObj [("error", VStr "Webhook requires raw body")]))
    | Some raw =>
        let expectedSignature := hmacSha256 raw in
        let provided := fromHex sigHex in
        if negb (String.length provided =? String.length expectedSignature)%nat
           || negb (provided =? expectedSignature)
        then respond 401 (Json (VObj [("error", VStr "Unauthorized")]))
        else Step Next (fun _ => Done (inr tt))
    end.

End VerifyHmac.

(* ================================================================== *)
(** * Traces of the handlers and worked cases *)

(** The first event of a manual merge: the log of the keys. *)
Definition keysLogged (req : MergeRequest) : WebEvent :=
  webEvent (ConsoleLog "merge data keys:" (dataKeys (data (manualArgs req)))) tt.

(** A world for the worked cases: the engine meets the environment [E],
    detection by content finds [detected], the object store and the
    template table accept what they are given, Mammoth gives the bytes back
    as text and both parsers of the webhook read [rows]. *)
Definition caseWorld (E : Env) (detected : option FileType) (rows : list JsVal) : World :=
  fun _ c =>
    match c as c0 return webReply c0 with
    | Core c0 => envOracle E [] c0
    | FileTypeFromBuffer _ => inr detected
    | S3PutObject _ _ _ => inr tt
    | MammothExtractRawText bytes => inr bytes
    | TemplateCreate name fieldNames =>
        inr (mkTemplate "tpl-new-1" name (map mkField fieldNames))
    | CsvParse _ => inr rows
    | JsonParse _ => inr (VArr rows)
    | ConsoleLog _ _ => tt
    | ConsoleError _ _ => tt
    | Respond _ _ => tt
    | Next => tt
    end.

(** Whether a call creates a template row. *)
Definition isCreate (c : WebCall) : bool :=
  match c with TemplateCreate _ _ => true | _ => false end.

(** A trace of the upload of [file] in which every template row was
    created after the clock was read and the bytes of the file were
    accepted by the object store, the row named by the time and the
    sanitized name, the object under [uploads/] and that name. *)
Definition rowAfterObject (P : NodePath) (file : Upload) (t : WebTrace) : Prop :=
  forall before name fieldNames x after,
    t = before ++ webEvent (TemplateCreate name fieldNames) x :: after ->
    exists now contentType,
      name = (string_of_Z now ++ "-" ++ replaceUnsafeRuns false
                (path_basename P (originalname file)))%string
      /\ In (webEvent (Core DateNow) now) before
      /\ In (webEvent (S3PutObject ("uploads/" ++ name) (buffer file) contentType) (inr tt))
            before.

(** A trace in which no template row is created. *)
Definition createFree (t : WebTrace) : Prop :=
  Forall (fun ev => isCreate (projT1 ev) = false) t.

(** Whether a call is a response with the given status. *)
Definition isStatus (status : nat) (c : WebCall) : bool :=
  match c with Respond s _ => (s =? status)%nat | _ => false end.

(** [path.extname] on a base name with a dot past its first character: the
    text from the last dot on. *)
Fixpoint fromLastDot (acc s : string) : string :=
  match s with
  | EmptyString => acc
  | String c rest =>
      if (c =? ".")%char then fromLastDot s rest else fromLastDot acc rest
  end.

Definition caseExtname (name : string) : string := fromLastDot "" name.

(* ================================================================== *)
(** * Theorems *)


(** ** [flattenKeys] *)

(** The function is the loop of the source: one [entryPaths] per entry of
    [Object.entries(obj || {})]. *)
Lemma flattenKeys_entries (obj : JsVal) (prefix : string) :
  flattenKeys obj prefix =
  flat_map (entryPaths prefix) (Object_entries (js_or obj (VObj []))).
Proof.
  destruct obj as [| | b | n | s | items | fields]; try reflexivity.
  - destruct b; reflexivity.
  - unfold js_or; simpl. destruct (n =? 0)%Z; reflexivity.
  - unfold js_or; simpl. destruct s as [|c s]; [reflexivity|].
    simpl negb. cbv iota. unfold Object_entries.
    change (flattenKeys (VStr (String c s)) prefix)
      with (map (fun e => dotPath prefix (fst e)) (indexed_from 0 (chars (String c s)))).
    unfold chars. generalize 0 (codeUnits (String c s)). intros i t; revert i.
    induction t as [|a t IH]; intros i; simpl; [reflexivity|].
    unfold entryPaths at 1. simpl. rewrite andb_false_r. simpl.
    f_equal. apply IH.
  - unfold js_or; simpl.
    generalize 0. induction items as [|v rest IH]; intros i; simpl; [reflexivity|].
    rewrite IH. f_equal.
    destruct v; unfold entryPaths; simpl; rewrite ?andb_false_r; reflexivity.
  - unfold js_or; simpl.
    induction fields as [|[k v] rest IH]; simpl; [reflexivity|].
    rewrite IH. f_equal.
    destruct v; unfold entryPaths; simpl; rewrite ?andb_false_r; reflexivity.
Qed.

Example flattenKeys_client :
  flattenKeys
    (VObj [("client", VObj [("address", VObj [("city", VStr "NYC"); ("zip", VStr "10001")]);
                            ("name", VStr "Ada")])]) ""
  = ["client.address.city"; "client.address.zip"; "client.name"].
Proof. reflexivity. Qed.

Lemma flattenKeys_cons (k : string) (v : JsVal) rest prefix :
  flattenKeys (VObj ((k, v) :: rest)) prefix =
  match v with
  | VObj _ => flattenKeys v (dotPath prefix k)
  | _ => [dotPath prefix k]
  end ++ flattenKeys (VObj rest) prefix.
Proof. reflexivity. Qed.

Lemma leafPaths_cons (k : string) (v : JsVal) rest :
  leafPaths (VObj ((k, v) :: rest)) =
  match v with
  | VObj _ => map (cons k) (leafPaths v)
  | _ => [[k]]
  end ++ leafPaths (VObj rest).
Proof. reflexivity. Qed.

(** For every mapping the output holds one entry per leaf, in order: the
    dot-path of that leaf. *)
Lemma flattenKeys_per_leaf (v : JsVal) :
  forall fields prefix, v = VObj fields ->
    flattenKeys v prefix = map (joinPath prefix) (leafPaths v).
Proof.
  induction v as [| | | | | items _ | fs IH] using JsVal_ind';
    intros fields prefix E; try discriminate.
  clear E fields.
  induction fs as [|[k v] rest IHrest]; [reflexivity|].
  inversion IH as [|? ? IHv IHr]; subst. simpl in IHv.
  rewrite flattenKeys_cons, leafPaths_cons, map_app, (IHrest IHr).
  f_equal. destruct v; try reflexivity.
  rewrite (IHv fields (dotPath prefix k) eq_refl), map_map. reflexivity.
Qed.

Lemma plainKeys_cons (k : string) (v : JsVal) rest :
  plainKeys (VObj ((k, v) :: rest)) = true ->
  plainKey k = true /\ plainKeys v = true /\ plainKeys (VObj rest) = true
  /\ existsb (String.eqb k) (map fst rest) = false.
Proof.
  simpl. intros H.
  apply andb_true_iff in H as [Hu H].
  apply andb_true_iff in Hu as [Hk Hu].
  apply andb_true_iff in H as [H Hr].
  apply andb_true_iff in H as [Hp Hv].
  repeat split; auto.
  - rewrite Hu. exact Hr.
  - now apply negb_true_iff in Hk.
Qed.


Lemma append_assoc (a b c : string) : ((a ++ b) ++ c = a ++ (b ++ c))%string.
Proof. induction a as [|x a IH]; simpl; [reflexivity | now rewrite IH]. Qed.

Lemma append_nil_r (a : string) : (a ++ "")%string = a.
Proof. induction a as [|x a IH]; simpl; [reflexivity | now rewrite IH]. Qed.

Lemma dotfree_split (k1 : string) :
  forall k2 s1 s2,
    hasDot k1 = false -> hasDot k2 = false ->
    dottedTail s1 -> dottedTail s2 ->
    (k1 ++ s1)%string = (k2 ++ s2)%string -> k1 = k2 /\ s1 = s2.
Proof.
  induction k1 as [|c k1 IH]; intros [|d k2] s1 s2 H1 H2 T1 T2 E; simpl in *.
  - now split.
  - exfalso. apply orb_false_iff in H2 as [Hd _].
    destruct T1 as [-> | [r ->]]; [discriminate|].
    injection E as Ec _. subst d. now rewrite Ascii.eqb_refl in Hd.
  - exfalso. apply orb_false_iff in H1 as [Hc _].
    destruct T2 as [-> | [r ->]]; [discriminate|].
    injection E as Ec _. subst c. now rewrite Ascii.eqb_refl in Hc.
  - apply orb_false_iff in H1 as [_ H1]. apply orb_false_iff in H2 as [_ H2].
    injection E as Ec E. subst d.
    destruct (IH k2 s1 s2 H1 H2 T1 T2 E) as [-> ->]. now split.
Qed.


Lemma concat_cons2 (k k' : string) ks :
  String.concat "." (k :: k' :: ks) = (k ++ "." ++ String.concat "." (k' :: ks))%string.
Proof. reflexivity. Qed.

Lemma concat_dot_inj (ks1 : list string) :
  forall ks2, plainPath ks1 -> plainPath ks2 ->
    String.concat "." ks1 = String.concat "." ks2 -> ks1 = ks2.
Proof.
  induction ks1 as [|k1 r1 IH]; intros ks2 [N1 F1] [N2 F2] E; [contradiction|].
  destruct ks2 as [|k2 r2]; [contradiction|].
  inversion F1 as [|? ? Hk1 F1']; inversion F2 as [|? ? Hk2 F2']; subst.
  apply andb_true_iff in Hk1 as [_ D1]. apply negb_true_iff in D1.
  apply andb_true_iff in Hk2 as [_ D2]. apply negb_true_iff in D2.
  assert (T : forall r : list string,
             dottedTail (match r with
                         | [] => ""
                         | _ => ("." ++ String.concat "." r)%string end)).
  { intros [|x r]; [now left | right; eexists; reflexivity]. }
  assert (S : forall (k : string) r,
             String.concat "." (k :: r)
             = (k ++ match r with
                     | [] => ""
                     | _ => ("." ++ String.concat "." r)%string end)%string).
  { intros k [|x r]; simpl; [now rewrite append_nil_r | reflexivity]. }
  rewrite (S k1 r1), (S k2 r2) in E.
  destruct (dotfree_split k1 k2 _ _ D1 D2 (T r1) (T r2) E) as [Ek E']. subst k2.
  f_equal.
  destruct r1 as [|x1 r1], r2 as [|x2 r2]; try reflexivity; try discriminate.
  injection E' as E'.
  apply IH; [split; [discriminate | assumption] | split; [discriminate | assumption] | exact E'].
Qed.

Lemma dotPath_nonempty prefix k : k <> "" -> dotPath prefix k <> "".
Proof.
  unfold dotPath. destruct prefix as [|c p]; simpl; [auto | discriminate].
Qed.

Lemma dotPath_step prefix (k x : string) :
  k <> "" ->
  dotPath (dotPath prefix k) x = dotPath prefix (k ++ "." ++ x)%string.
Proof.
  intros Hk. unfold dotPath at 1.
  destruct (dotPath prefix k =? "") eqn:E.
  - apply String.eqb_eq in E. now apply dotPath_nonempty in E.
  - simpl. unfold dotPath. destruct (negb (prefix =? "")); [|reflexivity].
    now rewrite !append_assoc.
Qed.

Lemma plainKey_nonempty k : plainKey k = true -> k <> "".
Proof.
  intros H ->. discriminate.
Qed.

(** Every leaf of a mapping with plain keys is a plain path. *)
Lemma leafPaths_plain (v : JsVal) :
  plainKeys v = true -> Forall plainPath (leafPaths v).
Proof.
  induction v as [| | | | | items _ | fields IH] using JsVal_ind'; intros H;
    try constructor.
  induction fields as [|[k v] rest IHrest]; [constructor|].
  inversion IH as [|? ? IHv IHr]; subst. simpl in IHv.
  apply plainKeys_cons in H as (Hk & Hv & Hr & _).
  rewrite leafPaths_cons. apply Forall_app. split; [|now apply IHrest].
  assert (Hone : plainPath [k]) by (split; [discriminate | now constructor]).
  destruct v; try (constructor; [exact Hone | constructor]).
  apply Forall_forall. intros p Hp. apply in_map_iff in Hp as (q & <- & Hq).
  specialize (IHv Hv). rewrite Forall_forall in IHv.
  destruct (IHv q Hq) as [_ Fq]. split; [discriminate | now constructor].
Qed.

(** The flattened output lists the dot-path of every leaf, in order. *)
Lemma flattenKeys_leafPaths (v : JsVal) :
  forall prefix, plainKeys v = true ->
    flattenKeys v prefix
    = map (fun ks => dotPath prefix (String.concat "." ks)) (leafPaths v)
    \/ (forall fields, v <> VObj fields).
Proof.
  induction v as [| | | | | items _ | fields IH] using JsVal_ind'; intros prefix H;
    try (right; intros f; discriminate).
  left.
  induction fields as [|[k v] rest IHrest]; [reflexivity|].
  inversion IH as [|? ? IHv IHr]; subst. simpl in IHv.
  pose proof (leafPaths_plain _ H) as Hplain.
  apply plainKeys_cons in H as (Hk & Hv & Hr & _).
  rewrite flattenKeys_cons, leafPaths_cons, map_app.
  rewrite (IHrest IHr Hr). f_equal.
  destruct v; try reflexivity.
  destruct (IHv (dotPath prefix k) Hv) as [-> | Hno]; [|now elim (Hno fields)].
  rewrite map_map. apply map_ext_in. intros q Hq.
  pose proof (leafPaths_plain _ Hv) as Hpv. rewrite Forall_forall in Hpv.
  destruct (Hpv q Hq) as [Nq _].
  destruct q as [|k' q]; [contradiction|].
  rewrite concat_cons2. apply dotPath_step. now apply plainKey_nonempty.
Qed.

Lemma existsb_eqb_false (k : string) (l : list string) :
  existsb (String.eqb k) l = false -> ~ In k l.
Proof.
  intros H Hin.
  assert (existsb (String.eqb k) l = true).
  { apply existsb_exists. exists k. split; [exact Hin | apply String.eqb_refl]. }
  congruence.
Qed.

Lemma leafPaths_heads (fields : list (string * JsVal)) :
  forall p, In p (leafPaths (VObj fields)) ->
            exists k q, p = k :: q /\ In k (map fst fields).
Proof.
  induction fields as [|[k v] rest IH]; intros p Hp; [contradiction|].
  rewrite leafPaths_cons in Hp. apply in_app_or in Hp as [Hp | Hp].
  - exists k. destruct v; try (destruct Hp as [<- | []]; exists []; split; [reflexivity | now left]).
    apply in_map_iff in Hp as (q & <- & _). exists q. split; [reflexivity | now left].
  - destruct (IH p Hp) as (k' & q & -> & Hin). exists k', q. split; [reflexivity | now right].
Qed.

(** Distinct keys at every level give distinct leaves. *)
Lemma leafPaths_NoDup (v : JsVal) :
  plainKeys v = true -> NoDup (leafPaths v).
Proof.
  induction v as [| | | | | items _ | fields IH] using JsVal_ind'; intros H;
    try constructor.
  induction fields as [|[k v] rest IHrest]; [constructor|].
  inversion IH as [|? ? IHv IHr]; subst. simpl in IHv.
  apply plainKeys_cons in H as (Hk & Hv & Hr & Hfresh).
  rewrite leafPaths_cons.
  assert (Hhead : forall p, In p (leafPaths (VObj rest)) ->
                            exists k' q, p = k' :: q /\ k' <> k).
  { intros p Hp. destruct (leafPaths_heads rest p Hp) as (k' & q & -> & Hin).
    exists k', q. split; [reflexivity|]. intros ->.
    now apply existsb_eqb_false in Hfresh. }
  assert (Hdisj : forall q, ~ In (k :: q) (leafPaths (VObj rest))).
  { intros q Hq. destruct (Hhead _ Hq) as (k' & q' & E & Hne). congruence. }
  assert (Hrest : NoDup (leafPaths (VObj rest))) by now apply IHrest.
  destruct v; try (simpl; constructor; [apply Hdisj | exact Hrest]).
  clear Hhead. specialize (IHv Hv).
  induction (leafPaths (VObj fields)) as [|q l IHl]; [exact Hrest|].
  inversion IHv; subst. simpl. constructor; [| now apply IHl].
  intros Hin. apply in_app_or in Hin as [Hin | Hin]; [| now apply (Hdisj q)].
  apply in_map_iff in Hin as (q' & E & Hq'). injection E as ->. contradiction.
Qed.

Lemma NoDup_map_on {A B} (f : A -> B) (l : list A) :
  (forall x y, In x l -> In y l -> f x = f y -> x = y) ->
  NoDup l -> NoDup (map f l).
Proof.
  induction l as [|a l IH]; intros Hinj Hnd; [constructor|].
  inversion Hnd; subst. simpl. constructor.
  - intros Hin. apply in_map_iff in Hin as (x & E & Hx).
    assert (x = a) by (apply Hinj; [now right | now left | exact E]).
    subst. contradiction.
  - apply IH; [|assumption]. intros x y Hx Hy. apply Hinj; now right.
Qed.

(** Below a non-empty prefix every path extends the prefix by a dot and
    more: a mapping never yields its own path. *)
Lemma flattenKeys_below (v : JsVal) :
  forall prefix p, prefix <> "" -> In p (flattenKeys v prefix) ->
    forall fields, v = VObj fields -> exists r, p = (prefix ++ "." ++ r)%string.
Proof.
  induction v as [| | | | | items _ | fields IH] using JsVal_ind';
    intros prefix p Hne Hin fs E; try discriminate.
  clear E fs.
  induction fields as [|[k v] rest IHrest]; [contradiction|].
  inversion IH as [|? ? IHv IHr]; subst. simpl in IHv.
  rewrite flattenKeys_cons in Hin. apply in_app_or in Hin as [Hin | Hin];
    [| now apply IHrest].
  assert (Hpath : dotPath prefix k = (prefix ++ "." ++ k)%string).
  { unfold dotPath. destruct prefix; [contradiction | reflexivity]. }
  destruct v; try (destruct Hin as [<- | []]; exists k; exact Hpath).
  destruct (IHv (dotPath prefix k) p) with (fields := fields) as [r Hr];
    [rewrite Hpath; destruct prefix; [contradiction | discriminate]
    | exact Hin | reflexivity |].
  exists (k ++ "." ++ r)%string. rewrite Hr, Hpath. now rewrite !append_assoc.
Qed.

Lemma length_append (a b : string) :
  String.length (a ++ b) = String.length a + String.length b.
Proof. induction a as [|x a IH]; simpl; [reflexivity | now rewrite IH]. Qed.

Lemma append_not_self (a b : string) : b <> "" -> (a ++ b)%string <> a.
Proof.
  intros Hb E. apply Hb.
  assert (L : String.length (a ++ b) = String.length a) by now rewrite E.
  rewrite length_append in L.
  destruct b; [reflexivity | simpl in L; lia].
Qed.

(** C4, as the code has it.  For a mapping whose keys are non-empty, hold
    no dot and are distinct within each object: the output is the dot-path
    of every leaf, one entry per leaf and in order, and no path occurs
    twice, whatever the nesting depth; an array-valued key is a leaf at
    its current dot-path and is not descended into; a key whose value is a
    non-array mapping yields the paths of its children and not its own. *)
Theorem flattenKeys_each_leaf_once (fields : list (string * JsVal))
  (Hkeys : plainKeys (VObj fields) = true) :
  flattenKeys (VObj fields) "" = map (String.concat ".") (leafPaths (VObj fields))
  /\ NoDup (flattenKeys (VObj fields) "")
  /\ (forall prefix k items rest,
        flattenKeys (VObj ((k, VArr items) :: rest)) prefix
        = dotPath prefix k :: flattenKeys (VObj rest) prefix)
  /\ (forall prefix k sub rest,
        flattenKeys (VObj ((k, VObj sub) :: rest)) prefix
        = flattenKeys (VObj sub) (dotPath prefix k) ++ flattenKeys (VObj rest) prefix
        /\ (k <> "" -> ~ In (dotPath prefix k) (flattenKeys (VObj sub) (dotPath prefix k)))).
Proof.
  assert (E : flattenKeys (VObj fields) ""
              = map (String.concat ".") (leafPaths (VObj fields))).
  { destruct (flattenKeys_leafPaths (VObj fields) "" Hkeys) as [E | Hno];
      [exact E | now elim (Hno fields)]. }
  split; [exact E|]. split.
  - rewrite E. apply NoDup_map_on; [| now apply leafPaths_NoDup].
    pose proof (leafPaths_plain _ Hkeys) as Hp. rewrite Forall_forall in Hp.
    intros x y Hx Hy. apply concat_dot_inj; auto.
  - split; [reflexivity|]. intros prefix k sub rest. split; [reflexivity|].
    intros Hk Hin.
    destruct (flattenKeys_below (VObj sub) (dotPath prefix k) _
                (dotPath_nonempty prefix k Hk) Hin sub eq_refl) as [r Hr].
    symmetry in Hr. revert Hr. apply append_not_self. discriminate.
Qed.

Lemma flattenKeys_each_leaf_once_witness :
  plainKeys (VObj [("client", VObj [("name", VStr "Ada"); ("tags", VArr [VStr "x"])]);
                   ("total", VNum 3)]) = true
  /\ flattenKeys (VObj [("client", VObj [("name", VStr "Ada"); ("tags", VArr [VStr "x"])]);
                        ("total", VNum 3)]) ""
     = ["client.name"; "client.tags"; "total"]
  /\ NoDup (flattenKeys (VObj [("client", VObj [("name", VStr "Ada");
                                                 ("tags", VArr [VStr "x"])]);
                               ("total", VNum 3)]) "").
Proof.
  destruct (flattenKeys_each_leaf_once
              [("client", VObj [("name", VStr "Ada"); ("tags", VArr [VStr "x"])]);
               ("total", VNum 3)] eq_refl) as (E & N & _).
  split; [reflexivity|]. split; [exact E | exact N].
Defined.

(** C4 as stated fails: a dotted key and a nested key of the same dot-path
    are both leaves, and the path is returned twice. *)
Lemma flattenKeys_dotted_key_twice :
  flattenKeys (VObj [("a.b", VNum 1); ("a", VObj [("b", VNum 2)])]) "" = ["a.b"; "a.b"]
  /\ ~ NoDup (flattenKeys (VObj [("a.b", VNum 1); ("a", VObj [("b", VNum 2)])]) "").
Proof.
  split; [reflexivity|].
  intros H. change (NoDup ["a.b"; "a.b"]) in H.
  inversion H as [|? ? Hnot _]; subst. apply Hnot. now left.
Qed.

(** ** Strings *)

Example stripExtension_last_only :
  stripExtension "report.final.v2.docx" = "report.final.v2"
  /\ stripExtension "name." = "name."
  /\ stripExtension "plain" = "plain".
Proof. repeat split. Qed.

Example replaceUnsafeRuns_runs :
  replaceUnsafeRuns false "inv(1)#2 final.docx" = "inv_1_2 final.docx".
Proof. reflexivity. Qed.

Example template_kinds :
  isDocxName "Form.DOCX" = true /\ isHtmlName "page.htm" = true
  /\ isHtmlName "page.html" = true /\ isHtmlName "page.html5" = false
  /\ isDocxName "page.html" = false.
Proof. repeat split. Qed.

Example isJavascriptUrl_cases :
  isJavascriptUrl "javascript:alert(1)" = true
  /\ isJavascriptUrl (" " ++ LF ++ "JaVaScRiPt:void(0)") = true
  /\ isJavascriptUrl "https://cdn.example.com/x.png" = false
  /\ isJavascriptUrl "x javascript:" = false.
Proof. repeat split. Qed.

Example disallowedTag_rel_cases :
  disallowedTag "link" [("rel", "import")] = true
  /\ disallowedTag "link" [("href", "x.html"); ("rel", "IMPORT")] = true
  /\ disallowedTag "link" [("rel", "stylesheet")] = false
  /\ disallowedTag "link" [("rel", "import stylesheet")] = false
  /\ disallowedTag "a" [("rel", "import")] = false.
Proof. repeat split. Qed.

Example codeUnits_cases :
  codeUnits "ab" = ["a"; "b"]
  /\ List.length (codeUnits (String (ascii_of_nat 195) (String (ascii_of_nat 169) ""))) = 1
  /\ flattenKeys (VStr (String (ascii_of_nat 195) (String (ascii_of_nat 169) ""))) "" = ["0"]
  /\ List.length
       (codeUnits (String (ascii_of_nat 240) (String (ascii_of_nat 159)
                     (String (ascii_of_nat 152) (String (ascii_of_nat 128) ""))))) = 2.
Proof. repeat split. Qed.

Example sofficeFailure_message :
  errGet (sofficeFailure (Some 77%Z) "out" ("boom" ++ LF)) "message"
  = VStr ("soffice exit code 77" ++ LF ++ "boom").
Proof. reflexivity. Qed.

(** ** The sanitizer on the document tree *)


Lemma uniqueNames_NoDup (l : list string) : uniqueNames l = true <-> NoDup l.
Proof.
  induction l as [|x l IH]; simpl.
  - split; [constructor | reflexivity].
  - rewrite andb_true_iff, negb_true_iff, IH. split.
    + intros [Hx Hl]. constructor; [now apply existsb_eqb_false | exact Hl].
    + intros H. inversion H as [|? ? Hx Hl]; subst. split; [|exact Hl].
      destruct (existsb (String.eqb x) l) eqn:E; [|reflexivity].
      apply existsb_exists in E as (y & Hy & Exy).
      apply String.eqb_eq in Exy. subst. contradiction.
Qed.

Lemma removeAttribute_absent (name : string) attrs :
  ~ In name (map fst attrs) -> removeAttribute name attrs = attrs.
Proof.
  induction attrs as [|a rest IH]; simpl; intros H; [reflexivity|].
  destruct (fst a =? name) eqn:E.
  - apply String.eqb_eq in E. elim H. now left.
  - rewrite IH; [reflexivity|]. intros Hin. apply H. now right.
Qed.

Lemma removeAttribute_middle (a : string * string) l1 l2 :
  ~ In (fst a) (map fst l1) ->
  removeAttribute (fst a) (l1 ++ a :: l2) = l1 ++ l2.
Proof.
  induction l1 as [|b l1 IH]; simpl; intros H.
  - now rewrite String.eqb_refl.
  - destruct (fst b =? fst a) eqn:E.
    + apply String.eqb_eq in E. elim H. now left.
    + rewrite IH; [reflexivity|]. intros Hin. apply H. now right.
Qed.

Lemma removeAttribute_incl (name : string) attrs a :
  In a (removeAttribute name attrs) -> In a attrs.
Proof.
  induction attrs as [|b rest IH]; simpl; [auto|].
  destruct (fst b =? name); [now right|].
  intros [-> | H]; [now left | right; now apply IH].
Qed.

Lemma in_names_filter (f : string * string -> bool) l x :
  In x (map fst (filter f l)) -> In x (map fst l).
Proof.
  intros H. apply in_map_iff in H as (a & <- & Ha).
  apply filter_In in Ha as [Ha _]. now apply in_map.
Qed.

Lemma stripOne_safe current a : unsafeAttr a = false -> stripOne current a = current.
Proof.
  unfold unsafeAttr, stripOne. intros H.
  apply orb_false_iff in H as [-> ->]. reflexivity.
Qed.

Lemma stripOne_unsafe l1 l2 a :
  unsafeAttr a = true -> NoDup (map fst (l1 ++ a :: l2)) ->
  stripOne (l1 ++ a :: l2) a = l1 ++ l2.
Proof.
  intros Hu Hnd.
  assert (H1 : ~ In (fst a) (map fst l1) /\ ~ In (fst a) (map fst (l1 ++ l2))).
  { rewrite map_app in Hnd. simpl in Hnd.
    pose proof (NoDup_remove_2 _ _ _ Hnd) as Hn. rewrite <- map_app in Hn.
    split; [|exact Hn]. intros Hin. apply Hn. rewrite map_app. apply in_or_app. now left. }
  destruct H1 as [Ha Hb].
  unfold unsafeAttr in Hu. unfold stripOne.
  destruct (isEventHandlerName (toLowerCase (fst a)));
    destruct (((toLowerCase (fst a) =? "href") || (toLowerCase (fst a) =? "src"))
              && isJavascriptUrl (snd a)); try discriminate;
    rewrite ?removeAttribute_middle by assumption;
    rewrite ?removeAttribute_absent by assumption; reflexivity.
Qed.

Lemma names_filter_app (f : string * string -> bool) l1 l2 x :
  In x (map fst (filter f l1 ++ l2)) -> In x (map fst (l1 ++ l2)).
Proof.
  rewrite !map_app, !in_app_iff. intros [H | H]; [left | now right].
  now apply in_names_filter in H.
Qed.

Lemma NoDup_names_filter (f : string * string -> bool) l1 l2 :
  NoDup (map fst (l1 ++ l2)) -> NoDup (map fst (filter f l1 ++ l2)).
Proof.
  induction l1 as [|a l1 IH]; simpl; intros H; [exact H|].
  inversion H as [|? ? Hnot Hnd]; subst.
  destruct (f a); simpl; [| now apply IH].
  constructor; [| now apply IH].
  intros Hin. apply Hnot. now apply names_filter_app in Hin.
Qed.

Lemma stripAttributes_loop (todo : list (string * string)) :
  forall done, NoDup (map fst (done ++ todo)) ->
    fold_left stripOne todo (filter safeAttr done ++ todo) = filter safeAttr (done ++ todo).
Proof.
  induction todo as [|a todo IH]; intros done Hnd; simpl.
  - now rewrite !app_nil_r.
  - assert (E : done ++ a :: todo = (done ++ [a]) ++ todo) by now rewrite <- app_assoc.
    destruct (unsafeAttr a) eqn:Hu.
    + rewrite stripOne_unsafe; [| exact Hu | now apply NoDup_names_filter].
      rewrite E, <- IH by (now rewrite <- E).
      rewrite filter_app. simpl. unfold safeAttr at 3. rewrite Hu. simpl.
      now rewrite app_nil_r.
    + rewrite stripOne_safe by exact Hu.
      rewrite E, <- IH by (now rewrite <- E).
      rewrite filter_app. simpl. unfold safeAttr at 3. rewrite Hu. simpl.
      now rewrite <- app_assoc.
Qed.

(** With distinct attribute names the loop keeps exactly the attributes
    that are neither event handlers nor script-URL links, values untouched. *)
Lemma stripAttributes_filter (attrs : list (string * string)) :
  uniqueNames (map fst attrs) = true ->
  stripAttributes attrs = filter safeAttr attrs.
Proof.
  intros H. apply uniqueNames_NoDup in H.
  exact (stripAttributes_loop attrs [] H).
Qed.

Lemma stripLoop_incl (todo : list (string * string)) a :
  forall cur, In a (fold_left stripOne todo cur) -> In a cur.
Proof.
  induction todo as [|b todo IH]; intros cur; simpl; [auto|].
  intros H. apply IH in H. unfold stripOne in H.
  repeat match type of H with
         | context [if ?c then _ else _] => destruct c
         end; repeat apply removeAttribute_incl in H; exact H.
Qed.

Lemma stripAttributes_incl (attrs : list (string * string)) a :
  In a (stripAttributes attrs) -> In a attrs.
Proof. apply stripLoop_incl. Qed.

Lemma hasAttr_strip name value attrs :
  hasAttr name value (stripAttributes attrs) = true -> hasAttr name value attrs = true.
Proof.
  unfold hasAttr. rewrite !existsb_exists.
  intros (a & Ha & E). exists a. split; [now apply stripAttributes_incl | exact E].
Qed.

Lemma disallowedTag_strip tag attrs :
  disallowedTag tag attrs = false -> disallowedTag tag (stripAttributes attrs) = false.
Proof.
  unfold disallowedTag. intros H.
  destruct (hasAttr "rel" "import" (stripAttributes attrs)) eqn:E.
  - apply hasAttr_strip in E. now rewrite E in H.
  - rewrite !orb_false_iff in *. rewrite andb_false_r. intuition.
Qed.

Lemma disallowed_sanitized (c : Node) :
  disallowed c = false -> disallowed (sanitizeNode c) = false.
Proof.
  destruct c as [tag attrs children content | d | d]; simpl; auto.
  apply disallowedTag_strip.
Qed.

Lemma filter_safe_idem attrs : filter safeAttr (filter safeAttr attrs) = filter safeAttr attrs.
Proof.
  induction attrs as [|a l IH]; simpl; [reflexivity|].
  destruct (safeAttr a) eqn:E; simpl; [rewrite E, IH |]; auto.
Qed.

Lemma uniqueNames_filter attrs :
  uniqueNames (map fst attrs) = true ->
  uniqueNames (map fst (filter safeAttr attrs)) = true.
Proof.
  rewrite !uniqueNames_NoDup. intros H.
  pose proof (NoDup_names_filter safeAttr attrs [] ) as N.
  rewrite !app_nil_r in N. now apply N.
Qed.

(** The two passes, applied again to their own result, change nothing. *)
Lemma sanitizeNode_idempotent (n : Node) :
  wellFormed n = true -> sanitizeNode (sanitizeNode n) = sanitizeNode n.
Proof.
  induction n as [tag attrs children content IH | d | d] using Node_ind';
    intros Hwf; try reflexivity.
  simpl in Hwf. apply andb_true_iff in Hwf as [Hu Hc].
  unfold sanitizeNode in *. simpl.
  rewrite (stripAttributes_filter attrs Hu).
  rewrite (stripAttributes_filter _ (uniqueNames_filter _ Hu)), filter_safe_idem.
  f_equal.
  induction children as [|c rest IHrest]; [reflexivity|].
  inversion IH as [|? ? IHc IHr]; subst.
  simpl in Hc. apply andb_true_iff in Hc as [Hwc Hwr].
  simpl. destruct (disallowed c) eqn:Ed; simpl; [now apply IHrest|].
  pose proof (disallowed_sanitized c Ed) as Es. unfold sanitizeNode in Es.
  rewrite Es. simpl. rewrite (IHc Hwc). f_equal. now apply IHrest.
Qed.

(** Every element of the sanitized document tree is clean. *)
Lemma sanitizeNode_clean (n : Node) :
  wellFormed n = true -> disallowed n = false ->
  forallb cleanElement (treeElements (sanitizeNode n)) = true.
Proof.
  induction n as [tag attrs children content IH | d | d] using Node_ind';
    intros Hwf Hd; try reflexivity.
  simpl in Hwf. apply andb_true_iff in Hwf as [Hu Hc].
  unfold sanitizeNode in *. simpl. apply andb_true_iff. split.
  - unfold cleanElement. simpl. apply andb_true_iff. split.
    + simpl in Hd. now rewrite (disallowedTag_strip tag attrs Hd).
    + rewrite (stripAttributes_filter attrs Hu). apply forallb_forall.
      intros a Ha. apply filter_In in Ha as [_ Ha]. exact Ha.
  - clear Hd Hu. induction children as [|c rest IHrest]; [reflexivity|].
    inversion IH as [|? ? IHc IHr]; subst.
    simpl in Hc. apply andb_true_iff in Hc as [Hwc Hwr].
    simpl. destruct (disallowed c) eqn:Ed; simpl; [now apply IHrest|].
    rewrite forallb_app, (IHc Hwc eq_refl). simpl. now apply IHrest.
Qed.

Lemma documentElement_sanitized (d : Document) :
  documentElement (sanitizeDocument d) = sanitizeNode (documentElement d).
Proof. reflexivity. Qed.

(** The template contents are out of reach of both passes. *)
Lemma sanitizeNode_content tag attrs children content :
  exists attrs' children',
    sanitizeNode (Elem tag attrs children content) = Elem tag attrs' children' content.
Proof. unfold sanitizeNode. simpl. eauto. Qed.

(** In the document tree proper, which is what [querySelectorAll] visits,
    no element of the sanitized output carries a disallowed tag, an event
    handler attribute or a script-URL [href]/[src]; and an attribute that is
    none of these, a remote [src] among them, stays as it was. *)
Lemma sanitizeDocument_tree_clean (d : Document) :
  wellFormed (documentElement d) = true ->
  forallb cleanElement (treeElements (documentElement (sanitizeDocument d))) = true
  /\ (forall a, In a (rootAttrs d) -> unsafeAttr a = false ->
                In a (rootAttrs (sanitizeDocument d))).
Proof.
  intros Hwf. split.
  - rewrite documentElement_sanitized. now apply sanitizeNode_clean.
  - intros a Ha Hs. simpl in Hwf. apply andb_true_iff in Hwf as [Hu _].
    unfold sanitizeDocument, sanitizeNode. simpl.
    rewrite (stripAttributes_filter _ Hu). apply filter_In. split; [exact Ha|].
    unfold safeAttr. now rewrite Hs.
Qed.

Example sanitize_link_case :
  sanitizeDocument linkDoc
  = mkDocument []
      [el "head" [] [];
       el "body" []
         [el "a" [("id", "go")] [Text "click"];
          el "img" [("src", "https://cdn.example.com/x.png")] []]].
Proof. reflexivity. Qed.

(** C6 at the failing input: the contents of a [template] element are not
    searched by [querySelectorAll] and are written out by [outerHTML], so
    whatever element they hold is in the output of the two passes; for the
    markup of a template holding a script, the sanitized bytes still hold
    the script tag. *)
Theorem sanitizeHtmlBuffer_template_script :
  (forall tag attrs children content e,
      In e (flat_map writtenElements content) ->
      In e (writtenElements (sanitizeNode (Elem tag attrs children content))))
  /\ sanitizeHtmlBuffer caseJsdom templateMarkup
     = ("<!DOCTYPE html>" ++ LF
        ++ "<html><head><template><script>evil()</script></template></head><body></body></html>")%string
  /\ existsb disallowed
       (writtenElements
          (documentElement (sanitizeDocument (parse caseJsdom templateMarkup)))) = true.
Proof.
  split; [|split; reflexivity].
  intros tag attrs children content e He.
  unfold sanitizeNode. simpl. right. apply in_or_app. now right.
Qed.

Lemma filter_safe_all (attrs : list (string * string)) :
  forallb (fun a => negb (unsafeAttr a)) attrs = true -> filter safeAttr attrs = attrs.
Proof.
  induction attrs as [|a l IH]; simpl; [reflexivity|].
  rewrite andb_true_iff. intros [Ha Hl]. unfold safeAttr at 1. rewrite Ha.
  f_equal. now apply IH.
Qed.

Lemma clean_child_allowed (c : Node) :
  forallb cleanElement (treeElements c) = true -> disallowed c = false.
Proof.
  destruct c as [tag attrs children content | d | d]; [|reflexivity..].
  simpl. rewrite andb_true_iff. intros [H _]. unfold cleanElement in H.
  apply andb_true_iff in H as [H _]. now apply negb_true_iff in H.
Qed.

Lemma sanitizeNode_fixes_clean (n : Node) :
  wellFormed n = true -> forallb cleanElement (treeElements n) = true ->
  sanitizeNode n = n.
Proof.
  induction n as [tag attrs children content IH | d | d] using Node_ind';
    intros Hwf Hclean; try reflexivity.
  simpl in Hwf. apply andb_true_iff in Hwf as [Hu Hc].
  simpl in Hclean. apply andb_true_iff in Hclean as [Hroot Hkids].
  unfold cleanElement in Hroot. apply andb_true_iff in Hroot as [_ Hattrs].
  simpl in Hattrs.
  unfold sanitizeNode in *. simpl.
  rewrite (stripAttributes_filter attrs Hu), (filter_safe_all attrs Hattrs).
  f_equal.
  induction children as [|c rest IHrest]; [reflexivity|].
  inversion IH as [|? ? IHc IHr]; subst.
  simpl in Hc. apply andb_true_iff in Hc as [Hwc Hwr].
  simpl in Hkids. rewrite forallb_app in Hkids. apply andb_true_iff in Hkids as [Hkc Hkr].
  simpl. rewrite (clean_child_allowed c Hkc). simpl.
  rewrite (IHc Hwc Hkc). f_equal. now apply IHrest.
Qed.

(** Both passes keep the attribute names of an element distinct. *)
Lemma sanitizeNode_wellFormed (n : Node) :
  wellFormed n = true -> wellFormed (sanitizeNode n) = true.
Proof.
  induction n as [tag attrs children content IH | d | d] using Node_ind';
    intros Hwf; try reflexivity.
  simpl in Hwf. apply andb_true_iff in Hwf as [Hu Hc].
  unfold sanitizeNode in *. simpl. apply andb_true_iff. split.
  - rewrite (stripAttributes_filter attrs Hu). now apply uniqueNames_filter.
  - clear Hu. induction children as [|c rest IHrest]; [reflexivity|].
    inversion IH as [|? ? IHc IHr]; subst.
    simpl in Hc. apply andb_true_iff in Hc as [Hwc Hwr].
    simpl. destruct (disallowed c); simpl; [now apply IHrest|].
    rewrite (IHc Hwc). simpl. now apply IHrest.
Qed.

(** When JSDOM reads the first output as the very tree that was written,
    that tree is one in which the sanitizer finds nothing to remove. *)
Lemma reparsed_as_written (J : Jsdom) (x : string) :
  wellFormed (documentElement (parse J x)) = true ->
  parse J (sanitizeHtmlBuffer J x) = sanitizeDocument (parse J x) ->
  wellFormed (documentElement (parse J (sanitizeHtmlBuffer J x))) = true
  /\ forallb cleanElement
       (treeElements (documentElement (parse J (sanitizeHtmlBuffer J x)))) = true
  /\ outerHTML J (documentElement (parse J (sanitizeHtmlBuffer J x)))
     = outerHTML J (documentElement (sanitizeDocument (parse J x))).
Proof.
  intros Hwf ->. rewrite documentElement_sanitized. repeat split.
  - now apply sanitizeNode_wellFormed.
  - now apply sanitizeNode_clean.
Qed.

(** C7, as the code has it.  The rewrite of the document tree is idempotent;
    the bytes are unchanged by a second application whenever JSDOM reads
    the first output as a tree in which the sanitizer finds nothing to
    remove and which is written out as the same text.  That tree need not
    be the one that was written: two texts that a removal left side by side
    are read back as one. *)
Theorem sanitizeHtmlBuffer_twice (J : Jsdom) (x : string)
  (Hwf : wellFormed (documentElement (parse J x)) = true)
  (Hwf' : wellFormed (documentElement (parse J (sanitizeHtmlBuffer J x))) = true)
  (Hclean : forallb cleanElement
              (treeElements (documentElement (parse J (sanitizeHtmlBuffer J x)))) = true)
  (Hsame : outerHTML J (documentElement (parse J (sanitizeHtmlBuffer J x)))
           = outerHTML J (documentElement (sanitizeDocument (parse J x)))) :
  sanitizeDocument (sanitizeDocument (parse J x)) = sanitizeDocument (parse J x)
  /\ sanitizeHtmlBuffer J (sanitizeHtmlBuffer J x) = sanitizeHtmlBuffer J x.
Proof.
  split.
  - unfold sanitizeDocument at 1.
    rewrite documentElement_sanitized, (sanitizeNode_idempotent _ Hwf).
    reflexivity.
  - unfold sanitizeHtmlBuffer at 1. cbv zeta.
    rewrite documentElement_sanitized, (sanitizeNode_fixes_clean _ Hwf' Hclean), Hsame.
    reflexivity.
Qed.

Lemma sanitizeHtmlBuffer_twice_witness :
  parse caseJsdom (sanitizeHtmlBuffer caseJsdom splitTextMarkup)
  <> sanitizeDocument (parse caseJsdom splitTextMarkup)
  /\ sanitizeHtmlBuffer caseJsdom (sanitizeHtmlBuffer caseJsdom splitTextMarkup)
     = sanitizeHtmlBuffer caseJsdom splitTextMarkup.
Proof.
  split; [vm_compute; discriminate|].
  apply (sanitizeHtmlBuffer_twice caseJsdom splitTextMarkup); reflexivity.
Defined.

(** C7 as stated fails: nothing closes a [plaintext] element, so the end
    tags written by the first application become text in the second. *)
Lemma sanitizeHtmlBuffer_not_idempotent :
  sanitizeHtmlBuffer caseJsdom (sanitizeHtmlBuffer caseJsdom plaintextMarkup)
  <> sanitizeHtmlBuffer caseJsdom plaintextMarkup.
Proof.
  intros E.
  assert (L : String.length (sanitizeHtmlBuffer caseJsdom
                               (sanitizeHtmlBuffer caseJsdom plaintextMarkup))
              = String.length (sanitizeHtmlBuffer caseJsdom plaintextMarkup))
    by now rewrite E.
  vm_compute in L. discriminate.
Qed.

(** ** Running programs *)

Lemma run_bindProg {A B} (m : Prog A) (f : A -> Prog B) (o : Oracle) :
  forall h,
    run o (bindProg m f) h =
    let (a, t1) := run o m h in
    let (b, t2) := run o (f a) (h ++ t1) in
    (b, t1 ++ t2).
Proof.
  induction m as [a | c k IH]; intros h; simpl.
  - rewrite app_nil_r. now destruct (run o (f a) h).
  - rewrite IH. destruct (run o (k (o h c)) (h ++ [event c (o h c)])) as [a t1].
    rewrite <- app_assoc. simpl.
    now destruct (run o (f a) (h ++ event c (o h c) :: t1)).
Qed.

Lemma run_bind {A B} (m : M A) (f : A -> M B) (o : Oracle) (h : Trace) :
  run o (bind m f) h =
  let (r, t1) := run o m h in
  match r with
  | inl e => (inl e, t1)
  | inr a => let (b, t2) := run o (f a) (h ++ t1) in (b, t1 ++ t2)
  end.
Proof.
  unfold bind. rewrite run_bindProg.
  destruct (run o m h) as [[e | a] t1]; simpl; [now rewrite app_nil_r | reflexivity].
Qed.

Lemma run_call {T} (c : Call) (cast : reply c -> ExtErr + T) (o : Oracle) (h : Trace) :
  run o (call c cast) h = (liftExt (cast (o h c)), [event c (o h c)]).
Proof. reflexivity. Qed.

Lemma run_ask (c : Call) (o : Oracle) (h : Trace) :
  run o (ask c) h = (o h c, [event c (o h c)]).
Proof. reflexivity. Qed.

Lemma run_tryCatch {R} (m : M R) (handler : JsErr -> M R) (o : Oracle) (h : Trace) :
  run o (tryCatch m handler) h =
  let (r, t1) := run o m h in
  match r with
  | inl e => let (b, t2) := run o (handler e) (h ++ t1) in (b, t1 ++ t2)
  | inr v => (inr v, t1)
  end.
Proof.
  unfold tryCatch. rewrite run_bindProg.
  destruct (run o m h) as [[e | v] t1]; simpl; [reflexivity | now rewrite app_nil_r].
Qed.

Lemma run_tryFinally {R} (m : M R) (final : M unit) (o : Oracle) (h : Trace) :
  run o (tryFinally m final) h =
  let (r, t1) := run o m h in
  let (c, t2) := run o final (h ++ t1) in
  (match c with inl e => inl e | inr _ => r end, t1 ++ t2).
Proof.
  unfold tryFinally. rewrite run_bindProg.
  destruct (run o m h) as [r t1]. rewrite run_bindProg.
  destruct (run o final (h ++ t1)) as [[e | u] t2]; simpl; now rewrite app_nil_r.
Qed.


Lemma callsOnly_bindProg {A B} (ok : Call -> Prop) (m : Prog A) (f : A -> Prog B) :
  callsOnly ok m -> (forall a, callsOnly ok (f a)) -> callsOnly ok (bindProg m f).
Proof.
  intros Hm Hf. induction Hm as [r | c k Hc Hk IH]; simpl; [apply Hf|].
  constructor; [exact Hc | exact IH].
Qed.

Lemma callsOnly_bind {A B} (ok : Call -> Prop) (m : M A) (f : A -> M B) :
  callsOnly ok m -> (forall a, callsOnly ok (f a)) -> callsOnly ok (bind m f).
Proof.
  intros Hm Hf. apply callsOnly_bindProg; [exact Hm|].
  intros [e | a]; [constructor | apply Hf].
Qed.

Lemma callsOnly_run {R} (ok : Call -> Prop) (m : Prog R) (o : Oracle) :
  callsOnly ok m -> forall h, Forall (fun ev => ok (projT1 ev)) (snd (run o m h)).
Proof.
  intros Hm. induction Hm as [r | c k Hc Hk IH]; intros h; simpl; [constructor|].
  specialize (IH (o h c) (h ++ [event c (o h c)])).
  destruct (run o (k (o h c)) (h ++ [event c (o h c)])) as [r t]. simpl in *.
  constructor; [exact Hc | exact IH].
Qed.

Lemma callsOnly_ret {R} (ok : Call -> Prop) (r : R) : callsOnly ok (ret r).
Proof. constructor. Qed.

Lemma callsOnly_throw {R} (ok : Call -> Prop) (e : JsErr) : callsOnly ok (@throw R e).
Proof. constructor. Qed.

Lemma callsOnly_call {T} (ok : Call -> Prop) (c : Call) (cast : reply c -> ExtErr + T) :
  ok c -> callsOnly ok (call c cast).
Proof. intros H. constructor; [exact H | intros x; constructor]. Qed.

Lemma callsOnly_ask (ok : Call -> Prop) (c : Call) : ok c -> callsOnly ok (ask c).
Proof. intros H. constructor; [exact H | intros x; constructor]. Qed.

Lemma callsOnly_tryCatch {R} (ok : Call -> Prop) (m : M R) (handler : JsErr -> M R) :
  callsOnly ok m -> (forall e, callsOnly ok (handler e)) -> callsOnly ok (tryCatch m handler).
Proof.
  intros Hm Hh. apply callsOnly_bindProg; [exact Hm|].
  intros [e | v]; [apply Hh | constructor].
Qed.

Lemma callsOnly_tryFinally {R} (ok : Call -> Prop) (m : M R) (final : M unit) :
  callsOnly ok m -> callsOnly ok final -> callsOnly ok (tryFinally m final).
Proof.
  intros Hm Hf. apply callsOnly_bindProg; [exact Hm|]. intros r.
  apply callsOnly_bindProg; [exact Hf|]. intros [e | u]; constructor.
Qed.

(** Walks a program: splits binds and handlers, takes every branch. *)
Ltac walk :=
  repeat first
    [ apply callsOnly_bind
    | apply callsOnly_tryCatch
    | apply callsOnly_tryFinally
    | apply callsOnly_bindProg
    | apply callsOnly_ret
    | apply callsOnly_throw
    | apply callsOnly_call
    | apply callsOnly_ask
    | apply callsOnly_Ret
    | apply callsOnly_Vis
    | progress intros
    | match goal with
      | |- callsOnly _ (if ?b then _ else _) => destruct b
      | |- callsOnly _ (match ?x with _ => _ end) => destruct x
      | |- callsOnly _ (let '(_, _) := ?x in _) => destruct x
      end ].

(** ** The structured-document renderer *)

(** Answering the next call of a program under an arbitrary oracle. *)
Ltac answer o :=
  match goal with
  | |- context [o ?h ?c] =>
      let r := fresh "r" in
      destruct (o h c) as [] eqn:r; simpl
  end.















(** C1 at the failing input.  When strict rendering meets a part whose tag
    has no value, the [nullGetter] throws a plain [Error]; it has no
    [properties], so it is not recognised as an engine error and is thrown
    on as it is: the caller gets no bytes, but what it catches is not a
    [TemplateParseError], and its one diagnostic has neither tag text, part
    nor offset. *)
Theorem renderDocxBufferOrThrow_unresolved (o : Oracle) (h : Trace)
  (buf : string) (data : JsVal) (zip doc : Handle) (part : JsVal) (k : JsVal -> Script)
  (Hzip : o h (PizZipNew buf) = inr zip)
  (Hdoc : o (h ++ [event (PizZipNew buf) (inr zip)]) (DocxtemplaterNew zip false)
          = inr doc)
  (Hrender : o ((h ++ [event (PizZipNew buf) (inr zip)])
                ++ [event (DocxtemplaterNew zip false) (inr doc)])
               (DocxRender doc (orEmptyObject data))
             = SNull part k) :
  exists e,
    fst (run o (renderDocxBufferOrThrow buf data) h) = inl e
    /\ isTemplateParseError e = false
    /\ errFields e
       = [("message", VStr "TEMPLATE_PARSE_ERROR");
          ("details",
           VArr [VObj [("id", VStr "undefined_tag");
                       ("explanation",
                        VStr ("Tag " ++ DQ ++ toString (optGet part "value") ++ DQ
                              ++ " is undefined"))]])].
Proof.
  unfold renderDocxBufferOrThrow, renderInternal, bind, call, ask. simpl.
  rewrite Hzip. simpl. rewrite Hdoc. simpl. rewrite Hrender. simpl.
  eexists. split; [reflexivity|]. split; reflexivity.
Qed.

Lemma renderDocxBufferOrThrow_unresolved_witness :
  envOracle (docxEnv unresolvedScript)
            [event (PizZipNew "FAKE_DOCX_CONTENT") (inr 1);
             event (DocxtemplaterNew 1 false) (inr 2)]
            (DocxRender 2 (VObj []))
  = SNull (VObj [("value", VStr "firstName")]) (fun _ => SDone)
  /\ exists e,
      fst (run (envOracle (docxEnv unresolvedScript))
               (renderDocxBufferOrThrow "FAKE_DOCX_CONTENT" (VObj [])) []) = inl e
      /\ isTemplateParseError e = false.
Proof.
  split; [reflexivity|].
  destruct (renderDocxBufferOrThrow_unresolved
              (envOracle (docxEnv unresolvedScript)) [] "FAKE_DOCX_CONTENT" (VObj [])
              1 2 (VObj [("value", VStr "firstName")]) (fun _ => SDone)
              eq_refl eq_refl eq_refl) as (e & He & Hc & _).
  exists e. split; assumption.
Defined.

(** A merge that goes through: template declaring [firstName], payload
    supplying it, same format asked for. *)
Example mergeTemplate_docx_goes_through :
  run (envOracle (docxEnv SDone))
      (mergeTemplate caseJsdom posixPath
         (mkMergeArgs "tpl-docx-1" (VObj [("firstName", VStr "Ada")]) "docx"
                      (Some "u1") false)) []
  = (inr (101%Z, "/app/outputs/1111-form-1700000000000.docx"),
     [event (FsMkdir "/app/uploads") (inr tt);
      event (FsMkdir "/app/outputs") (inr tt);
      event (TemplateFindUnique "tpl-docx-1")
            (inr (Some (mkTemplate "tpl-docx-1" "1111-form.docx" [mkField "firstName"])));
      event (FsReadFile "/app/uploads/1111-form.docx") (inr "FAKE_DOCX_CONTENT");
      event DateNow 1700000000000%Z;
      event (PizZipNew "FAKE_DOCX_CONTENT") (inr 1);
      event (DocxtemplaterNew 1 false) (inr 2);
      event (DocxRender 2 (VObj [("firstName", VStr "Ada")])) SDone;
      event (DocxGenerate 2) (inr "DOCX_OUT");
      event (FsWriteFile "/app/outputs/1111-form-1700000000000.docx" "DOCX_OUT") (inr tt);
      event (MergeJobCreate
               (mkMergeJob "tpl-docx-1" (VObj [("firstName", VStr "Ada")]) "docx"
                           "succeeded" "/app/outputs/1111-form-1700000000000.docx"
                           (Some "u1")))
            (inr 101%Z)]).
Proof. reflexivity. Qed.

(** The same in the orchestrator: a payload that gives the tag the value
    [null] passes the field check, and the attempt fails with an error that
    carries no status. *)
Example mergeTemplate_unresolved_no_status :
  exists e,
    run (envOracle (docxEnv unresolvedScript))
        (mergeTemplate caseJsdom posixPath
           (mkMergeArgs "tpl-docx-1" (VObj [("firstName", VNull)]) "docx" None false)) []
    = (inl e,
       [event (FsMkdir "/app/uploads") (inr tt);
        event (FsMkdir "/app/outputs") (inr tt);
        event (TemplateFindUnique "tpl-docx-1")
              (inr (Some (mkTemplate "tpl-docx-1" "1111-form.docx" [mkField "firstName"])));
        event (FsReadFile "/app/uploads/1111-form.docx") (inr "FAKE_DOCX_CONTENT");
        event DateNow 1700000000000%Z;
        event (PizZipNew "FAKE_DOCX_CONTENT") (inr 1);
        event (DocxtemplaterNew 1 false) (inr 2);
        event (DocxRender 2 (VObj [("firstName", VNull)])) unresolvedScript])
    /\ isTemplateParseError e = false
    /\ errGet e "status" = VUndefined.
Proof. eexists. repeat split. Qed.

(** The constructor stands outside the [try] of [renderInternal]: what it
    throws is thrown on as it is, whatever its shape. *)
Lemma renderInternal_constructor_error (o : Oracle) (h : Trace) (b : string) (d : JsVal)
  (a : bool) (zip : Handle) (x : ExtErr) :
  o h (PizZipNew b) = inr zip ->
  o (h ++ [event (PizZipNew b) (inr zip)]) (DocxtemplaterNew zip a) = inl x ->
  fst (run o (renderInternal b d a) h) = inl (external x).
Proof.
  intros H1 H2. unfold renderInternal, bind, call, ask. simpl.
  rewrite H1. simpl. rewrite H2. reflexivity.
Qed.

(** The sibling path: an error of the engine's own shape, thrown by
    [doc.render], does come out as a [TemplateParseError] with the flat list
    of its diagnostics. *)
Example renderDocxBufferOrThrow_malformed :
  exists e,
    fst (run (envOracle (docxEnv malformedScript))
             (renderDocxBufferOrThrow "FAKE_DOCX_CONTENT" (VObj [])) []) = inl e
    /\ isTemplateParseError e = true
    /\ errGet e "details"
       = VArr [VObj [("id", VStr "duplicate_open_tag");
                     ("explanation", VStr "Duplicate open tag");
                     ("xtag", VStr "{{ name");
                     ("file", VStr "word/document.xml");
                     ("offset", VNum 42)]].
Proof. eexists. repeat split. Qed.

(** ** The two-stage conversion *)

Section TwoStage.
Variable P : NodePath.

(** Once the input is staged, the directory is removed in every outcome
    of the two stages, and what the removal answers does not show in the
    result. *)
Lemma staged_cleanup (o : Oracle) (h : Trace) (soffice tmpDir : string) :
  run o (tryFinally (twoStage P soffice tmpDir) (cleanup tmpDir)) h =
  let (r, t) := run o (twoStage P soffice tmpDir) h in
  (r, t ++ [event (FsRm tmpDir) (o (h ++ t) (FsRm tmpDir))]).
Proof.
  rewrite run_tryFinally.
  destruct (run o (twoStage P soffice tmpDir) h) as [r t].
  unfold cleanup. rewrite run_tryCatch, run_call.
  destruct (o (h ++ t) (FsRm tmpDir)) as [x | []]; reflexivity.
Qed.

(** The second invocation is not launched when the intermediate file is
    missing: the failed existence check ends the two stages. *)
Lemma twoStage_fails_fast (o : Oracle) (h : Trace) (soffice tmpDir out err : string)
  (x : ExtErr) :
  let first :=
    Spawn soffice
      ["--headless"; "--infilter=HTML (StarWriter)"; "--convert-to"; "odt";
       "--outdir"; tmpDir; path_join P tmpDir "source.html"] tmpDir in
  let check := FsAccess (path_join P tmpDir "source.odt") in
  o h first = SpawnClose (Some 0%Z) out err ->
  o (h ++ [event first (SpawnClose (Some 0%Z) out err)]) check = inl x ->
  run o (twoStage P soffice tmpDir) h
  = (inl (external x),
     [event first (SpawnClose (Some 0%Z) out err); event check (inl x)]).
Proof.
  intros first check H1 H2.
  unfold twoStage, runSoffice, bind, call, ask. simpl.
  fold first. rewrite H1. simpl. fold check. rewrite H2. reflexivity.
Qed.

(** The staged input is written outside the [try]: when the write is
    rejected nothing follows, the removal of the directory included. *)
Lemma stageAndConvert_staging_rejected (o : Oracle) (h : Trace)
  (html soffice tmp tmpDir : string) (x : ExtErr) :
  let made := FsMkdtemp (path_join P tmp "html2docx-") in
  let staged := FsWriteFile (path_join P tmpDir "source.html") html in
  o h OsTmpdir = tmp ->
  o (h ++ [event OsTmpdir tmp]) made = inr tmpDir ->
  o ((h ++ [event OsTmpdir tmp]) ++ [event made (inr tmpDir)]) staged = inl x ->
  run o (stageAndConvert P html soffice) h
  = (inl (external x),
     [event OsTmpdir tmp; event made (inr tmpDir); event staged (inl x)]).
Proof.
  intros made staged H1 H2 H3.
  unfold stageAndConvert, bind, call, ask. simpl.
  rewrite H1. fold made. rewrite H2. simpl. fold staged. rewrite H3. reflexivity.
Qed.
End TwoStage.

(** A conversion that goes through: the two invocations around the
    existence check, the read, and the removal of the directory. *)
Example convertHtmlToDocxBuffer_goes_through :
  run (envOracle (htmlEnv "DOCX_BYTES")) (convertHtmlToDocxBuffer posixPath "<p>hi</p>") []
  = (inr "DOCX_BYTES",
     [event EnvSofficeBin None;
      event ProcessPlatform "linux";
      event OsTmpdir "/tmp";
      event (FsMkdtemp "/tmp/html2docx-") (inr "/tmp/html2docx-Ab12Cd");
      event (FsWriteFile "/tmp/html2docx-Ab12Cd/source.html" "<p>hi</p>") (inr tt);
      event (Spawn "soffice"
               ["--headless"; "--infilter=HTML (StarWriter)"; "--convert-to"; "odt";
                "--outdir"; "/tmp/html2docx-Ab12Cd"; "/tmp/html2docx-Ab12Cd/source.html"]
               "/tmp/html2docx-Ab12Cd")
            (SpawnClose (Some 0%Z) "" "");
      event (FsAccess "/tmp/html2docx-Ab12Cd/source.odt") (inr tt);
      event (Spawn "soffice"
               ["--headless"; "--convert-to"; "docx"; "--outdir"; "/tmp/html2docx-Ab12Cd";
                "/tmp/html2docx-Ab12Cd/source.odt"]
               "/tmp/html2docx-Ab12Cd")
            (SpawnClose (Some 0%Z) "" "");
      event (FsReadFile "/tmp/html2docx-Ab12Cd/source.docx") (inr "DOCX_BYTES");
      event (FsRm "/tmp/html2docx-Ab12Cd") (inr tt)]).
Proof. reflexivity. Qed.

Lemma resolveSoffice_returns (o : Oracle) (h : Trace) :
  exists soffice, fst (run o resolveSoffice h) = inr soffice.
Proof.
  unfold resolveSoffice, tryCatch, bind, call, ask. simpl.
  destruct (truthyEnv (o h EnvSofficeBin)) as [bin |]; simpl; [eauto|].
  match goal with
  | |- context [if ?b then _ else _] => destruct b; simpl; [|eauto]
  end.
  answer o; eauto.
Qed.

Lemma resolveSoffice_removes_nothing :
  callsOnly (fun c => isRemoval c = false) resolveSoffice.
Proof. unfold resolveSoffice, ask. walk; reflexivity. Qed.

(** C5 at the failing input.  The staged input is written before the [try]
    whose [finally] removes the directory: when [fs.mkdtemp] has made the
    directory and that write is rejected, the conversion fails with the
    write's error and the directory is never removed. *)
Theorem convertHtmlToDocxBuffer_leaves_directory (P : NodePath) (o : Oracle) (h : Trace)
  (html tmpDir : string) (x : ExtErr) :
  let resolved := snd (run o resolveSoffice h) in
  let tmp := o (h ++ resolved) OsTmpdir in
  let made := FsMkdtemp (path_join P tmp "html2docx-") in
  let staged := FsWriteFile (path_join P tmpDir "source.html") html in
  o ((h ++ resolved) ++ [event OsTmpdir tmp]) made = inr tmpDir ->
  o (((h ++ resolved) ++ [event OsTmpdir tmp]) ++ [event made (inr tmpDir)]) staged
  = inl x ->
  run o (convertHtmlToDocxBuffer P html) h
  = (inl (external x),
     resolved ++ [event OsTmpdir tmp; event made (inr tmpDir); event staged (inl x)])
  /\ Forall (fun ev => isRemoval (projT1 ev) = false)
            (snd (run o (convertHtmlToDocxBuffer P html) h)).
Proof.
  intros resolved tmp made staged Hmade Hstaged.
  assert (E : run o (convertHtmlToDocxBuffer P html) h
              = (inl (external x),
                 resolved ++ [event OsTmpdir tmp; event made (inr tmpDir);
                              event staged (inl x)])).
  { unfold convertHtmlToDocxBuffer. rewrite run_bind.
    destruct (resolveSoffice_returns o h) as [soffice Hs].
    subst resolved. destruct (run o resolveSoffice h) as [r t].
    cbn [fst snd] in *. subst r. cbv beta iota.
    rewrite (stageAndConvert_staging_rejected P o (h ++ t) html soffice tmp tmpDir x
               eq_refl Hmade Hstaged).
    reflexivity. }
  split; [exact E|]. rewrite E. simpl.
  apply Forall_app. split.
  - apply (callsOnly_run _ _ o resolveSoffice_removes_nothing h).
  - repeat constructor.
Qed.

Lemma convertHtmlToDocxBuffer_leaves_directory_witness :
  envOracle diskFullEnv
    [event EnvSofficeBin None; event ProcessPlatform "linux"; event OsTmpdir "/tmp";
     event (FsMkdtemp "/tmp/html2docx-") (inr "/tmp/html2docx-Ab12Cd")]
    (FsWriteFile "/tmp/html2docx-Ab12Cd/source.html" "<p>hi</p>")
  = inl [("code", VStr "ENOSPC")]
  /\ run (envOracle diskFullEnv) (convertHtmlToDocxBuffer posixPath "<p>hi</p>") []
     = (inl (external [("code", VStr "ENOSPC")]),
        [event EnvSofficeBin None;
         event ProcessPlatform "linux";
         event OsTmpdir "/tmp";
         event (FsMkdtemp "/tmp/html2docx-") (inr "/tmp/html2docx-Ab12Cd");
         event (FsWriteFile "/tmp/html2docx-Ab12Cd/source.html" "<p>hi</p>")
               (inl [("code", VStr "ENOSPC")])]).
Proof.
  split; [reflexivity|].
  destruct (convertHtmlToDocxBuffer_leaves_directory posixPath (envOracle diskFullEnv) []
              "<p>hi</p>" "/tmp/html2docx-Ab12Cd" [("code", VStr "ENOSPC")]
              eq_refl eq_refl) as [E _].
  exact E.
Defined.

(** ** The field-contract check in the orchestrator *)

Lemma Set_has_In (s : list string) (k : string) : Set_has s k = true <-> In k s.
Proof.
  unfold Set_has. rewrite existsb_exists. split.
  - intros (x & Hx & E). apply String.eqb_eq in E. now subst.
  - intros H. exists k. split; [exact H | apply String.eqb_refl].
Qed.

Lemma Set_of_In (xs : list string) :
  forall seen k, In k (Set_of seen xs) <-> In k xs /\ ~ In k seen.
Proof.
  induction xs as [|x xs IH]; intros seen k; simpl; [tauto|].
  destruct (existsb (String.eqb x) seen) eqn:E.
  - change (existsb (String.eqb x) seen) with (Set_has seen x) in E.
    apply Set_has_In in E. rewrite IH. split.
    + intros [H1 H2]. auto.
    + intros [[-> | H1] H2]; [contradiction | auto].
  - assert (Hx : ~ In x seen).
    { intros H. apply Set_has_In in H. unfold Set_has in H. congruence. }
    simpl. rewrite IH. simpl. split.
    + intros [-> | [H1 H2]]; [auto | split; [auto | tauto]].
    + intros [[-> | H1] H2]; [now left|].
      destruct (string_dec x k) as [-> | Hne]; [now left | right; tauto].
Qed.

Lemma new_Set_In (xs : list string) (k : string) : In k (new_Set xs) <-> In k xs.
Proof. unfold new_Set. rewrite Set_of_In. simpl. tauto. Qed.

(** The missing names are the declared names absent from the flattened
    leaf paths. *)
Lemma missingOf_In (template : Template) (d : JsVal) (k : string) :
  In k (missingOf template d)
  <-> In k (map fieldName (templateFields template)) /\ ~ In k (flattenKeys d "").
Proof.
  unfold missingOf, allowedOf. rewrite filter_In, new_Set_In, negb_true_iff.
  split; intros [H1 H2]; (split; [exact H1|]).
  - intros Hin. apply new_Set_In, Set_has_In in Hin. congruence.
  - destruct (Set_has (new_Set (flattenKeys d "")) k) eqn:E; [|reflexivity].
    apply Set_has_In in E. apply -> new_Set_In in E. contradiction.
Qed.

Lemma missingError_fields (missing : list string) :
  missingError missing
  = MkErr ClsError
      [("message", VStr ("Missing required fields: " ++ String.concat " ," missing));
       ("status", VNum 422)]
      None.
Proof. reflexivity. Qed.

Section Orchestrator.
Variable J : Jsdom.
Variable P : NodePath.

(** The run of [mergeTemplate] up to and including a failed check. *)
Lemma mergeTemplate_validation_failure (o : Oracle) (h : Trace) (a : MergeArgs)
  (template : Template) :
  o h (FsMkdir (UPLOADS_DIR P)) = inr tt ->
  o (h ++ [event (FsMkdir (UPLOADS_DIR P)) (inr tt)]) (FsMkdir (OUTPUTS_DIR P)) = inr tt ->
  o ((h ++ [event (FsMkdir (UPLOADS_DIR P)) (inr tt)])
     ++ [event (FsMkdir (OUTPUTS_DIR P)) (inr tt)])
    (TemplateFindUnique (templateId a)) = inr (Some template) ->
  missingOf template (data a) <> [] ->
  run o (mergeTemplate J P a) h
  = (inl (missingError (missingOf template (data a))),
     opening P a template ++ extrasWarning template (data a)).
Proof.
  intros Hup Hout Hfind Hmiss.
  unfold mergeTemplate, chain, ensureOutputsDir, validate, bind, call, ask. simpl.
  rewrite Hup. simpl. rewrite Hout. simpl. rewrite Hfind. simpl.
  unfold extrasWarning, opening.
  destruct (missingOf template (data a)) as [|m missing]; [contradiction|].
  destruct (extrasOf template (data a)) as [|x extras]; simpl; [reflexivity|].
  answer o. reflexivity.
Qed.

(** C3.  When a declared field is not among the flattened leaf paths of
    the payload, the attempt fails with the 422 error whose message lists
    every missing name, and it fails there: the directories and the
    template lookup (and the advisory warning, if any) are all that
    happened, the template bytes were not read and no engine was called.
    A template that declares nothing passes the check. *)
Theorem mergeTemplate_missing_required (o : Oracle) (h : Trace) (a : MergeArgs)
  (template : Template)
  (Hup : o h (FsMkdir (UPLOADS_DIR P)) = inr tt)
  (Hout : o (h ++ [event (FsMkdir (UPLOADS_DIR P)) (inr tt)])
            (FsMkdir (OUTPUTS_DIR P)) = inr tt)
  (Hfind : o ((h ++ [event (FsMkdir (UPLOADS_DIR P)) (inr tt)])
              ++ [event (FsMkdir (OUTPUTS_DIR P)) (inr tt)])
             (TemplateFindUnique (templateId a)) = inr (Some template)) :
  let missing := missingOf template (data a) in
  (forall k, In k missing
             <-> In k (map fieldName (templateFields template))
                 /\ ~ In k (flattenKeys (data a) ""))
  /\ ((exists f, In f (templateFields template)
                 /\ ~ In (fieldName f) (flattenKeys (data a) "")) ->
      run o (mergeTemplate J P a) h
      = (inl (MkErr ClsError
                [("message",
                  VStr ("Missing required fields: " ++ String.concat " ," missing));
                 ("status", VNum 422)]
                None),
         opening P a template ++ extrasWarning template (data a)))
  /\ (templateFields template = [] ->
      forall h', fst (run o (validate template (data a)) h') = inr tt).
Proof.
  intros missing. split; [apply missingOf_In|]. split.
  - intros (f & Hf & Hno).
    rewrite <- missingError_fields.
    apply mergeTemplate_validation_failure; try assumption.
    intros E. assert (Hin : In (fieldName f) missing).
    { apply missingOf_In. split; [now apply in_map | exact Hno]. }
    fold missing in E. rewrite E in Hin. contradiction.
  - intros Hnone h'. unfold validate.
    assert (E : missingOf template (data a) = []).
    { unfold missingOf, allowedOf. now rewrite Hnone. }
    rewrite E, run_bindProg.
    destruct (run o _ h') as [u t]. reflexivity.
Qed.

(** C10.  [flattenKeys] of [null] or [undefined] is the empty list; with
    such a payload and a template that declares a field, the attempt fails
    at the field check with the 422 error naming every declared field. *)
Theorem mergeTemplate_null_payload (o : Oracle) (h : Trace) (a : MergeArgs)
  (template : Template)
  (Hup : o h (FsMkdir (UPLOADS_DIR P)) = inr tt)
  (Hout : o (h ++ [event (FsMkdir (UPLOADS_DIR P)) (inr tt)])
            (FsMkdir (OUTPUTS_DIR P)) = inr tt)
  (Hfind : o ((h ++ [event (FsMkdir (UPLOADS_DIR P)) (inr tt)])
              ++ [event (FsMkdir (OUTPUTS_DIR P)) (inr tt)])
             (TemplateFindUnique (templateId a)) = inr (Some template))
  (Hnull : data a = VNull \/ data a = VUndefined)
  (Hdecl : templateFields template <> []) :
  flattenKeys (data a) "" = []
  /\ run o (mergeTemplate J P a) h
     = (inl (MkErr ClsError
               [("message",
                 VStr ("Missing required fields: "
                       ++ String.concat " ," (allowedOf template)));
                ("status", VNum 422)]
               None),
        opening P a template)
  /\ (forall f, In f (templateFields template) ->
                In (fieldName f) (allowedOf template)).
Proof.
  assert (Hflat : flattenKeys (data a) "" = []) by (destruct Hnull as [-> | ->]; reflexivity).
  assert (Hmiss : missingOf template (data a) = allowedOf template).
  { unfold missingOf. rewrite Hflat. simpl.
    induction (allowedOf template) as [|k l IH]; simpl; [reflexivity | now rewrite IH]. }
  assert (Hextra : extrasWarning template (data a) = []).
  { unfold extrasWarning, extrasOf. now rewrite Hflat. }
  assert (Hall : forall f, In f (templateFields template) ->
                           In (fieldName f) (allowedOf template)).
  { intros f Hf. apply new_Set_In. now apply in_map. }
  split; [exact Hflat|]. split; [|exact Hall].
  rewrite <- missingError_fields, <- Hmiss, <- (app_nil_r (opening P a template)), <- Hextra.
  apply mergeTemplate_validation_failure; try assumption.
  rewrite Hmiss. destruct (templateFields template) as [|f fs]; [contradiction|].
  intros E. specialize (Hall f (or_introl eq_refl)). rewrite E in Hall. contradiction.
Qed.
End Orchestrator.

Lemma mergeTemplate_missing_required_witness :
  envOracle contractEnv
            [event (FsMkdir "/app/uploads") (inr tt); event (FsMkdir "/app/outputs") (inr tt)]
            (TemplateFindUnique "tpl-docx-3")
  = inr (Some contractTemplate)
  /\ ~ In "b.c" (flattenKeys (VObj [("a", VNum 1)]) "")
  /\ run (envOracle contractEnv)
         (mergeTemplate caseJsdom posixPath
            (mkMergeArgs "tpl-docx-3" (VObj [("a", VNum 1)]) "docx" None false)) []
     = (inl (MkErr ClsError
               [("message", VStr "Missing required fields: b.c"); ("status", VNum 422)]
               None),
        opening posixPath
          (mkMergeArgs "tpl-docx-3" (VObj [("a", VNum 1)]) "docx" None false)
          contractTemplate).
Proof.
  assert (Hno : ~ In "b.c" (flattenKeys (VObj [("a", VNum 1)]) "")).
  { simpl. intros [E | []]. discriminate. }
  split; [reflexivity|]. split; [exact Hno|].
  destruct (mergeTemplate_missing_required caseJsdom posixPath (envOracle contractEnv) []
              (mkMergeArgs "tpl-docx-3" (VObj [("a", VNum 1)]) "docx" None false)
              contractTemplate eq_refl eq_refl eq_refl) as (_ & Hfail & _).
  rewrite Hfail; [reflexivity|].
  exists (mkField "b.c"). split; [right; now left | exact Hno].
Defined.

Lemma mergeTemplate_null_payload_witness :
  envOracle contractEnv
            [event (FsMkdir "/app/uploads") (inr tt); event (FsMkdir "/app/outputs") (inr tt)]
            (TemplateFindUnique "tpl-docx-3")
  = inr (Some contractTemplate)
  /\ templateFields contractTemplate <> []
  /\ run (envOracle contractEnv)
         (mergeTemplate caseJsdom posixPath
            (mkMergeArgs "tpl-docx-3" VNull "docx" None false)) []
     = (inl (MkErr ClsError
               [("message", VStr "Missing required fields: a ,b.c"); ("status", VNum 422)]
               None),
        opening posixPath (mkMergeArgs "tpl-docx-3" VNull "docx" None false)
          contractTemplate).
Proof.
  split; [reflexivity|]. split; [discriminate|].
  destruct (mergeTemplate_null_payload caseJsdom posixPath (envOracle contractEnv) []
              (mkMergeArgs "tpl-docx-3" VNull "docx" None false)
              contractTemplate eq_refl eq_refl eq_refl (or_introl eq_refl))
    as (_ & Hfail & _); [discriminate|].
  exact Hfail.
Defined.

(** ** Persistence *)

Section Persist.
Variable J : Jsdom.
Variable P : NodePath.

Lemma chainCall_chain (a : MergeArgs) : callsOnly (chainCall P) (chain J P a).
Proof.
  unfold chain, ensureOutputsDir, validate, loadTemplateBuffer, docxBranch, htmlBranch,
    deliverHtml, renderDocxBufferOrThrow, renderInternal, convertDocxToPdfBuffer,
    renderHtmlBuffer, convertHtmlToPdfBuffer, convertHtmlToDocxBuffer, stageAndConvert,
    resolveSoffice, twoStage, cleanup, runSoffice, ask.
  walk; simpl; eauto.
Qed.

Lemma chainCall_no_job (ev : Event) : chainCall P (projT1 ev) -> jobRecorded ev = None.
Proof. destruct ev as [c x]. destruct c; simpl; intros H; try reflexivity. contradiction. Qed.

(** How an attempt ends, given how its chain ended. *)
Lemma mergeTemplate_ending (o : Oracle) (h : Trace) (a : MergeArgs) :
  let rc := fst (run o (chain J P a) h) in
  let tc := snd (run o (chain J P a) h) in
  let r := fst (run o (mergeTemplate J P a) h) in
  let t := snd (run o (mergeTemplate J P a) h) in
  match rc with
  | inl e => r = inl e /\ t = tc
  | inr (template, (outBuffer, filePath)) =>
      let job := jobOf a template filePath in
      (exists x, r = inl (external x)
                 /\ t = tc ++ [event (FsWriteFile filePath outBuffer) (inl x)])
      \/ (exists x, r = inl (external x)
                    /\ t = tc ++ [event (FsWriteFile filePath outBuffer) (inr tt);
                                  event (MergeJobCreate job) (inl x)])
      \/ (exists id, r = inr (id, filePath)
                     /\ t = tc ++ [event (FsWriteFile filePath outBuffer) (inr tt);
                                   event (MergeJobCreate job) (inr id)])
  end.
Proof.
  unfold mergeTemplate. rewrite run_bind.
  destruct (run o (chain J P a) h) as [[e | [template [outBuffer filePath]]] tc];
    simpl; [now split|].
  unfold persist, bind, call. simpl.
  answer o.
  - left. eexists. split; reflexivity.
  - destruct u. answer o.
    + right. left. eexists. split; reflexivity.
    + right. right. eexists. split; reflexivity.
Qed.

(** C2.  Until the chain has ended no job is created and nothing is
    written but the staged input of the two-stage conversion.  If the chain
    fails the attempt ends there.  If it succeeds the output file is
    written next, and only when that write has succeeded is the job
    created, with status succeeded and the path just written.  So a failed
    attempt records no job, and a recorded job is always the last event,
    right after the successful write of its file. *)
Theorem mergeTemplate_write_then_job (o : Oracle) (h : Trace) (a : MergeArgs) :
  let rc := fst (run o (chain J P a) h) in
  let tc := snd (run o (chain J P a) h) in
  let r := fst (run o (mergeTemplate J P a) h) in
  let t := snd (run o (mergeTemplate J P a) h) in
  Forall (fun ev => chainCall P (projT1 ev)) tc
  /\ match rc with
     | inl e => r = inl e /\ t = tc
     | inr (template, (outBuffer, filePath)) =>
         let job := jobOf a template filePath in
         (exists x, r = inl (external x)
                    /\ t = tc ++ [event (FsWriteFile filePath outBuffer) (inl x)])
         \/ (exists x, r = inl (external x)
                       /\ t = tc ++ [event (FsWriteFile filePath outBuffer) (inr tt);
                                     event (MergeJobCreate job) (inl x)])
         \/ (exists id, r = inr (id, filePath)
                        /\ t = tc ++ [event (FsWriteFile filePath outBuffer) (inr tt);
                                      event (MergeJobCreate job) (inr id)])
     end
  /\ (forall e, r = inl e -> forall ev, In ev t -> jobRecorded ev = None)
  /\ (forall ev j id, In ev t -> jobRecorded ev = Some (j, id) ->
        jobStatus j = "succeeded"
        /\ r = inr (id, jobFilePath j)
        /\ exists before outBuffer,
            t = before ++ [event (FsWriteFile (jobFilePath j) outBuffer) (inr tt); ev]).
Proof.
  intros rc tc r t.
  assert (Hchain : Forall (fun ev => chainCall P (projT1 ev)) tc)
    by (apply callsOnly_run, chainCall_chain).
  pose proof (mergeTemplate_ending o h a) as Hend.
  fold rc tc r t in Hend.
  assert (Hquiet : forall ev, In ev tc -> jobRecorded ev = None).
  { intros ev Hin. apply chainCall_no_job.
    rewrite Forall_forall in Hchain. now apply Hchain. }
  split; [exact Hchain|]. split; [exact Hend|].
  destruct rc as [e | [template [outBuffer filePath]]].
  - destruct Hend as [-> ->]. split.
    + intros _ _ ev Hin. now apply Hquiet.
    + intros ev j id Hin Hj. rewrite (Hquiet ev Hin) in Hj. discriminate.
  - destruct Hend as [(x & -> & ->) | [(x & -> & ->) | (id & -> & ->)]]; split.
    + intros _ _ ev Hin. apply in_app_or in Hin as [Hin | [<- | []]];
        [now apply Hquiet | reflexivity].
    + intros ev j id Hin Hj. apply in_app_or in Hin as [Hin | [<- | []]];
        [rewrite (Hquiet ev Hin) in Hj|]; discriminate.
    + intros _ _ ev Hin. apply in_app_or in Hin as [Hin | [<- | [<- | []]]];
        [now apply Hquiet | reflexivity | reflexivity].
    + intros ev j id Hin Hj. apply in_app_or in Hin as [Hin | [<- | [<- | []]]];
        [rewrite (Hquiet ev Hin) in Hj|..]; discriminate.
    + intros e He. discriminate.
    + intros ev j id' Hin Hj. apply in_app_or in Hin as [Hin | [<- | [<- | []]]];
        [rewrite (Hquiet ev Hin) in Hj; discriminate | discriminate |].
      simpl in Hj. injection Hj as <- <-. simpl.
      split; [reflexivity|]. split; [reflexivity|]. eauto.
Qed.
End Persist.

(** ** Sanitization and its audit log *)

Section Audit.
Variable J : Jsdom.
Variable P : NodePath.

(** A trusted caller: the audit log cannot occur. *)
Lemma trusted_never_audited (a : MergeArgs) :
  fromWebhook a = false ->
  callsOnly (fun c => isAuditCall c = false) (mergeTemplate J P a).
Proof.
  intros Htrust.
  unfold mergeTemplate, persist, chain, ensureOutputsDir, validate, loadTemplateBuffer,
    docxBranch, htmlBranch, deliverHtml, renderDocxBufferOrThrow, renderInternal,
    convertDocxToPdfBuffer, renderHtmlBuffer, convertHtmlToPdfBuffer,
    convertHtmlToDocxBuffer, stageAndConvert, resolveSoffice, twoStage, cleanup,
    runSoffice, ask, auditCondition.
  rewrite Htrust. simpl.
  walk; simpl; eauto.
Qed.

(** C8, as the code has it.  Once Mustache has merged the template, what
    goes on to conversion and writing is the sanitized markup for an
    untrusted caller and the merged markup itself for any other; the audit
    log is emitted exactly when the caller is untrusted and the sanitized
    markup differs in byte length from the merged one, which implies that
    sanitization altered it; the log call returns nothing and the block
    goes on to deliver the artifact whether or not it was made.  A trusted
    caller's attempt never holds the audit log. *)
Theorem htmlBranch_audit (o : Oracle) (h : Trace) (a : MergeArgs)
  (template : Template) (buf stamp merged : string)
  (Hmerged : o h (MustacheRender buf (data a)) = inr merged) :
  let final := if fromWebhook a then sanitizeHtmlBuffer J merged else merged in
  let audited :=
    fromWebhook a
    && negb (String.length (sanitizeHtmlBuffer J merged) =? String.length merged)%nat in
  let before :=
    event (MustacheRender buf (data a)) (inr merged)
    :: (if audited then [event (auditCall template) tt] else []) in
  run o (htmlBranch J P a template buf stamp) h
  = (fst (run o (deliverHtml P a stamp final) (h ++ before)),
     before ++ snd (run o (deliverHtml P a stamp final) (h ++ before)))
  /\ (audited = true
      <-> fromWebhook a = true
          /\ String.length (sanitizeHtmlBuffer J merged) <> String.length merged)
  /\ (audited = true -> sanitizeHtmlBuffer J merged <> merged)
  /\ (fromWebhook a = false ->
      forall o' h', Forall (fun ev => auditLogged ev = false)
                           (snd (run o' (mergeTemplate J P a) h'))).
Proof.
  intros final audited before. split; [|split; [|split]].
  - unfold htmlBranch, renderHtmlBuffer. rewrite run_bind, run_call, Hmerged. simpl.
    rewrite run_bindProg.
    unfold auditCondition, finalHtmlOf. subst before audited final.
    remember (sanitizeHtmlBuffer J merged) as clean eqn:Hclean.
    clear Hclean.
    destruct (fromWebhook a); cbv beta iota;
      [destruct (String.length clean =? String.length merged)%nat|]; simpl.
    + rewrite app_nil_r. now destruct (run o (deliverHtml P a stamp _) _).
    + destruct (o (h ++ [event (MustacheRender buf (data a)) (inr merged)])
                  (auditCall template)).
      rewrite <- app_assoc. simpl.
      now destruct (run o (deliverHtml P a stamp _) _).
    + rewrite app_nil_r. now destruct (run o (deliverHtml P a stamp _) _).
  - subst audited. rewrite andb_true_iff, negb_true_iff, Nat.eqb_neq. tauto.
  - subst audited. rewrite andb_true_iff, negb_true_iff, Nat.eqb_neq.
    intros [_ Hlen] E. apply Hlen. now rewrite E.
  - intros Htrust o' h'.
    exact (callsOnly_run _ _ o' (trusted_never_audited a Htrust) h').
Qed.
End Audit.

Lemma htmlBranch_audit_witness :
  envOracle (htmlEnv linkMarkup) [] (MustacheRender linkMarkup (VObj [])) = inr linkMarkup
  /\ run (envOracle (htmlEnv linkMarkup))
         (htmlBranch caseJsdom posixPath webhookArgs
            (mkTemplate "tpl-html-1" "9999-sample.html" []) linkMarkup "9999-sample-17") []
     = (inr (sanitizeHtmlBuffer caseJsdom linkMarkup, "/app/outputs/9999-sample-17.html"),
        [event (MustacheRender linkMarkup (VObj [])) (inr linkMarkup);
         event (auditCall (mkTemplate "tpl-html-1" "9999-sample.html" [])) tt]).
Proof.
  split; [reflexivity|].
  destruct (htmlBranch_audit caseJsdom posixPath (envOracle (htmlEnv linkMarkup)) []
              webhookArgs (mkTemplate "tpl-html-1" "9999-sample.html" [])
              linkMarkup "9999-sample-17" linkMarkup eq_refl) as (Hrun & _).
  rewrite Hrun. reflexivity.
Defined.

(** C8 as stated fails: sanitization turns the lower-case doctype of the
    merged markup into the upper-case one, the bytes differ and their number
    does not, and the attempt, which writes the sanitized bytes, holds no
    audit log. *)
Lemma altered_but_not_audited :
  sanitizeHtmlBuffer caseJsdom emptyMarkup <> emptyMarkup
  /\ String.length (sanitizeHtmlBuffer caseJsdom emptyMarkup) = String.length emptyMarkup
  /\ run (envOracle (htmlEnv emptyMarkup)) (mergeTemplate caseJsdom posixPath webhookArgs) []
     = (inr (101%Z, "/app/outputs/9999-sample-1700000000000.html"),
        [event (FsMkdir "/app/uploads") (inr tt);
         event (FsMkdir "/app/outputs") (inr tt);
         event (TemplateFindUnique "tpl-html-1")
               (inr (Some (mkTemplate "tpl-html-1" "9999-sample.html" [])));
         event (FsReadFile "/app/uploads/9999-sample.html") (inr emptyMarkup);
         event DateNow 1700000000000%Z;
         event (MustacheRender emptyMarkup (VObj [])) (inr emptyMarkup);
         event (FsWriteFile "/app/outputs/9999-sample-1700000000000.html"
                            (sanitizeHtmlBuffer caseJsdom emptyMarkup)) (inr tt);
         event (MergeJobCreate
                  (mkMergeJob "tpl-html-1" (VObj []) "html" "succeeded"
                              "/app/outputs/9999-sample-1700000000000.html" None))
               (inr 101%Z)])
  /\ existsb auditLogged
       (snd (run (envOracle (htmlEnv emptyMarkup))
                 (mergeTemplate caseJsdom posixPath webhookArgs) [])) = false.
Proof.
  split; [intros E; vm_compute in E; discriminate|].
  split; [reflexivity|]. split; reflexivity.
Qed.

(* ================================================================== *)
(** ** File names *)

Lemma allChars_app (p : ascii -> bool) (a b : string) :
  allChars p (a ++ b) = allChars p a && allChars p b.
Proof.
  induction a as [|c a IH]; simpl; [reflexivity|].
  now rewrite IH, andb_assoc.
Qed.

Lemma allChars_impl (p q : ascii -> bool) (s : string) :
  (forall c, p c = true -> q c = true) -> allChars p s = true -> allChars q s = true.
Proof.
  intros H. induction s as [|c s IH]; simpl; [auto|].
  rewrite !andb_true_iff. intros [Hc Hs]. auto.
Qed.

Lemma replaceUnsafeRuns_safe (s : string) :
  forall inRun, allChars isSafeChar (replaceUnsafeRuns inRun s) = true.
Proof.
  induction s as [|c s IH]; intros inRun; simpl; [reflexivity|].
  destruct (isSafeChar c) eqn:E; simpl.
  - now rewrite E, IH.
  - destruct inRun; [apply IH|].
    change (allChars isSafeChar (replaceUnsafeRuns true s) = true). apply IH.
Qed.

Lemma replaceUnsafeRuns_fixes_safe (s : string) :
  allChars isSafeChar s = true -> forall inRun, replaceUnsafeRuns inRun s = s.
Proof.
  induction s as [|c s IH]; simpl; [reflexivity|].
  rewrite andb_true_iff. intros [Hc Hs] inRun. rewrite Hc. f_equal. now apply IH.
Qed.

Lemma stripExtension_allChars (p : ascii -> bool) (s : string) :
  allChars p s = true -> allChars p (stripExtension s) = true.
Proof.
  induction s as [|c s IH]; simpl; [auto|].
  rewrite andb_true_iff. intros [Hc Hs].
  destruct ((c =? ".")%char && negb (s =? "") && negb (hasDot s)); simpl; [reflexivity|].
  rewrite Hc. now apply IH.
Qed.

Lemma string_of_uint_digits (d : Decimal.uint) :
  allChars isDigit (NilEmpty.string_of_uint d) = true.
Proof. induction d; simpl; auto. Qed.

Lemma isDigit_safe (c : ascii) : isDigit c = true -> isSafeChar c = true.
Proof. unfold isDigit, isSafeChar. intros ->. reflexivity. Qed.

Lemma string_of_Z_safe (z : Z) : allChars isSafeChar (string_of_Z z) = true.
Proof.
  destruct z as [|p|p]; simpl; [reflexivity | |];
    apply (allChars_impl isDigit); auto using isDigit_safe, string_of_uint_digits.
Qed.

Lemma isSafeChar_notSeparator (c : ascii) : isSafeChar c = true -> notSeparator c = true.
Proof.
  unfold notSeparator. intros H.
  destruct (c =? "/")%char eqn:E1; [apply Ascii.eqb_eq in E1; subst; discriminate|].
  destruct (c =? "\")%char eqn:E2; [apply Ascii.eqb_eq in E2; subst; discriminate|].
  reflexivity.
Qed.

(** X1.  The stem of every output file: whatever name the template carries
    and whatever [path.basename] makes of it, [safeBase] followed by the
    time stamp is made of letters, digits, [_], [.], [-] and spaces only,
    so it holds no path separator. *)
Theorem stamp_safe (P : NodePath) (name : string) (now : Z) :
  let stamp := (safeBaseOf P name ++ "-" ++ string_of_Z now)%string in
  allChars isSafeChar stamp = true /\ allChars notSeparator stamp = true.
Proof.
  intros stamp.
  assert (H : allChars isSafeChar stamp = true).
  { subst stamp. rewrite !allChars_app, string_of_Z_safe. unfold safeBaseOf.
    rewrite stripExtension_allChars by apply replaceUnsafeRuns_safe. reflexivity. }
  split; [exact H|].
  exact (allChars_impl _ _ _ isSafeChar_notSeparator H).
Qed.

Lemma hasDot_app (a b : string) : hasDot (a ++ b) = hasDot a || hasDot b.
Proof.
  induction a as [|c a IH]; simpl; [reflexivity|].
  now rewrite IH, orb_assoc.
Qed.

Lemma stripExtension_dotfree (s : string) : hasDot s = false -> stripExtension s = s.
Proof.
  induction s as [|c s IH]; simpl; [reflexivity|].
  rewrite orb_false_iff. intros [Hc Hs]. rewrite Hc. simpl. f_equal. now apply IH.
Qed.

(** X2.  [.replace(/\.[^.]+$/, "")] takes off exactly one final extension:
    a name made of any stem, a dot and a non-empty dot-free extension gives
    back the stem, dots of the stem included; a name without a dot is left
    as it is. *)
Theorem stripExtension_round_trip (base ext : string)
  (Hext : ext <> "") (Hdot : hasDot ext = false) :
  stripExtension (base ++ "." ++ ext) = base
  /\ (hasDot base = false -> stripExtension base = base).
Proof.
  split; [|apply stripExtension_dotfree].
  change ("." ++ ext)%string with (String "."%char ext).
  induction base as [|c base IH]; simpl.
  - rewrite Hdot. destruct ext as [|e ext]; [contradiction | reflexivity].
  - rewrite hasDot_app. simpl. rewrite orb_true_r, andb_false_r. now rewrite IH.
Qed.

Lemma stripExtension_round_trip_witness :
  stripExtension ("report.final.v2" ++ "." ++ "docx") = "report.final.v2".
Proof.
  destruct (stripExtension_round_trip "report.final.v2" "docx") as [E _];
    [discriminate | reflexivity | exact E].
Defined.

Lemma substring_tail (k m : nat) (s : string) (a : ascii) (rest : string) :
  substring k (S m) s = String a rest -> substring (S k) m s = rest.
Proof.
  revert s. induction k as [|k IH]; intros s; destruct s as [|c s]; simpl;
    try discriminate.
  - intros H. injection H as _ <-. reflexivity.
  - intros H. destruct s as [|c' s]; [destruct k; discriminate|]. now apply IH.
Qed.

(** No stored name is both kinds of template: [/\.docx$/i] and
    [/\.html?$/i] never match the same name, so at most one of the two
    blocks of [mergeTemplate] runs. *)
Theorem template_kind_exclusive (name : string) :
  isDocxName name && isHtmlName name = false.
Proof.
  unfold isDocxName, isHtmlName, endsWith.
  set (t := toLowerCase name). simpl String.length.
  destruct (5 <=? String.length t)%nat eqn:L5; simpl; [|reflexivity].
  destruct (substring (String.length t - 5) 5 t =? ".docx") eqn:E; simpl; [|reflexivity].
  apply String.eqb_eq in E. rewrite E. simpl.
  apply Nat.leb_le in L5.
  apply substring_tail in E.
  replace (S (String.length t - 5)) with (String.length t - 4) in E by lia.
  rewrite E. simpl. now rewrite andb_false_r.
Qed.

(* ================================================================== *)
(** ** What the sanitizer keeps *)

(** X3.  Markup in which the sanitizer finds nothing to remove goes
    through it untouched: when no element of the parsed document carries a
    disallowed tag, an event handler attribute or a script-URL [href]/[src],
    the document is left as parsed, and the bytes returned are the doctype
    line followed by the serialisation of that very document. *)
Theorem sanitizeHtmlBuffer_keeps_clean (J : Jsdom) (x : string)
  (Hwf : wellFormed (documentElement (parse J x)) = true)
  (Hclean : forallb cleanElement (treeElements (documentElement (parse J x))) = true) :
  sanitizeDocument (parse J x) = parse J x
  /\ sanitizeHtmlBuffer J x
     = ("<!DOCTYPE html>" ++ LF ++ outerHTML J (documentElement (parse J x)))%string.
Proof.
  assert (E : sanitizeDocument (parse J x) = parse J x).
  { unfold sanitizeDocument. rewrite (sanitizeNode_fixes_clean _ Hwf Hclean).
    now destruct (parse J x). }
  split; [exact E|]. unfold sanitizeHtmlBuffer. now rewrite E.
Qed.

Lemma sanitizeHtmlBuffer_keeps_clean_witness :
  sanitizeDocument (parse caseJsdom (printed (sanitizeDocument linkDoc)))
  = parse caseJsdom (printed (sanitizeDocument linkDoc)).
Proof.
  destruct (sanitizeHtmlBuffer_keeps_clean caseJsdom (printed (sanitizeDocument linkDoc)))
    as [E _]; [reflexivity | reflexivity | exact E].
Defined.

Lemma sanitizeNode_written (n : Node) :
  noContent n = true ->
  writtenElements (sanitizeNode n) = treeElements (sanitizeNode n).
Proof.
  induction n as [tag attrs children content IH | d | d] using Node_ind';
    intros Hn; try reflexivity.
  simpl in Hn. destruct content as [|x content]; [|discriminate].
  unfold sanitizeNode in *. simpl. rewrite app_nil_r. f_equal.
  induction children as [|c rest IHrest]; [reflexivity|].
  inversion IH as [|? ? IHc IHr]; subst.
  simpl in Hn. apply andb_true_iff in Hn as [Hc Hr].
  simpl. destruct (disallowed c); simpl; [now apply IHrest|].
  rewrite (IHc Hc). f_equal. now apply IHrest.
Qed.

(** X4.  For a document without template contents the sanitizer keeps its
    promise on everything it writes out: no element of the serialised
    output carries a disallowed tag, an event handler attribute or a
    script-URL [href]/[src]. *)
Theorem sanitizeDocument_written_clean (d : Document)
  (Hwf : wellFormed (documentElement d) = true)
  (Hflat : noContent (documentElement d) = true) :
  forallb cleanElement (writtenElements (documentElement (sanitizeDocument d))) = true.
Proof.
  rewrite documentElement_sanitized, (sanitizeNode_written _ Hflat).
  now apply sanitizeNode_clean.
Qed.

Lemma sanitizeDocument_written_clean_witness :
  forallb cleanElement (writtenElements (documentElement (sanitizeDocument linkDoc))) = true.
Proof. apply (sanitizeDocument_written_clean linkDoc); reflexivity. Defined.

(** X5.  On an element whose attribute names are distinct, as the DOM has
    them, the attribute loop removes the event handlers and the script-URL
    [href]/[src] and nothing else: the attributes left are the others, in
    their order and with their values; and an attribute the loop leaves was
    there before, whatever the names. *)
Theorem stripNode_attributes (tag : string) (attrs : list (string * string))
  (children content : list Node) :
  (uniqueNames (map fst attrs) = true ->
   attrsOf (stripNode (Elem tag attrs children content)) = filter safeAttr attrs)
  /\ (forall a, In a (attrsOf (stripNode (Elem tag attrs children content))) ->
                In a attrs).
Proof.
  simpl. split; [apply stripAttributes_filter | intros a; apply stripAttributes_incl].
Qed.

Lemma stripNode_attributes_witness :
  attrsOf (stripNode (el "a" [("href", " JavaScript:alert(1)"); ("id", "go");
                              ("onclick", "x()")] [Text "click"]))
  = [("id", "go")].
Proof.
  destruct (stripNode_attributes "a"
              [("href", " JavaScript:alert(1)"); ("id", "go"); ("onclick", "x()")]
              [Text "click"] []) as [E _].
  exact (E eq_refl).
Defined.

(* ================================================================== *)
(** ** Conversions and the orchestrator, case by case *)

(** X6.  The browser that [puppeteer.launch] gave is closed in every
    outcome, once, as the last call; nothing else is called when the launch
    itself fails.  The [finally] awaits the close: when the close rejects,
    the conversion rejects with that error, also when the PDF had been
    printed, so bytes come back only when the close went through. *)
Theorem convertHtmlToPdfBuffer_closes (o : Oracle) (h : Trace) (html : string) :
  let r := fst (run o (convertHtmlToPdfBuffer html) h) in
  let t := snd (run o (convertHtmlToPdfBuffer html) h) in
  match o h PuppeteerLaunch with
  | inl x => r = inl (external x) /\ t = [event PuppeteerLaunch (inl x)]
  | inr browser =>
      exists mid closed,
        t = event PuppeteerLaunch (inr browser) :: mid
            ++ [event (BrowserClose browser) closed]
        /\ Forall (fun ev => isBrowserClose (projT1 ev) = false) mid
        /\ (forall x, closed = inl x -> r = inl (external x))
        /\ (forall pdf, r = inr pdf -> closed = inr tt)
  end.
Proof.
  intros r t. subst r t. unfold convertHtmlToPdfBuffer.
  rewrite run_bind, run_call.
  destruct (o h PuppeteerLaunch) as [x | browser]; cbn [liftExt fst snd]; [now split|].
  rewrite run_tryFinally.
  match goal with
  | |- context [run o ?body ?h1] =>
      match body with
      | bind _ _ =>
          pose proof (callsOnly_run (fun c => isBrowserClose c = false) body o) as Hmid;
          destruct (run o body h1) as [rb tb] eqn:Eb
      end
  end.
  rewrite run_call. cbn [liftExt fst snd app].
  eexists tb, _. split; [reflexivity|]. split.
  - specialize (Hmid ltac:(walk; reflexivity) (h ++ [event PuppeteerLaunch (inr browser)])).
    now rewrite Eb in Hmid.
  - split.
    + intros x Hx. now rewrite Hx.
    + intros pdf. destruct (o _ (BrowserClose browser)) as [x | []]; simpl;
        [discriminate | reflexivity].
Qed.

Section Early.
Variable J : Jsdom.
Variable P : NodePath.

(** X7.  An id no template carries: the attempt fails with
    [Template not found] right after the lookup; the two directories were
    made, nothing was read, rendered, written or recorded. *)
Theorem mergeTemplate_template_not_found (o : Oracle) (h : Trace) (a : MergeArgs)
  (Hup : o h (FsMkdir (UPLOADS_DIR P)) = inr tt)
  (Hout : o (h ++ [event (FsMkdir (UPLOADS_DIR P)) (inr tt)])
            (FsMkdir (OUTPUTS_DIR P)) = inr tt)
  (Hfind : o ((h ++ [event (FsMkdir (UPLOADS_DIR P)) (inr tt)])
              ++ [event (FsMkdir (OUTPUTS_DIR P)) (inr tt)])
             (TemplateFindUnique (templateId a)) = inr None) :
  run o (mergeTemplate J P a) h
  = (inl (newError "Template not found"),
     [event (FsMkdir (UPLOADS_DIR P)) (inr tt);
      event (FsMkdir (OUTPUTS_DIR P)) (inr tt);
      event (TemplateFindUnique (templateId a)) (inr None)]).
Proof.
  unfold mergeTemplate, chain, ensureOutputsDir, bind, call, ask. simpl.
  rewrite Hup. simpl. rewrite Hout. simpl. rewrite Hfind. reflexivity.
Qed.

(** X8.  A stored name that ends neither in [.docx] nor in [.htm]/[.html]:
    once the field check has passed, the attempt fails with
    [Unsupported template type] before the template file is read. *)
Theorem mergeTemplate_unsupported_template (o : Oracle) (h : Trace) (a : MergeArgs)
  (template : Template)
  (Hup : o h (FsMkdir (UPLOADS_DIR P)) = inr tt)
  (Hout : o (h ++ [event (FsMkdir (UPLOADS_DIR P)) (inr tt)])
            (FsMkdir (OUTPUTS_DIR P)) = inr tt)
  (Hfind : o ((h ++ [event (FsMkdir (UPLOADS_DIR P)) (inr tt)])
              ++ [event (FsMkdir (OUTPUTS_DIR P)) (inr tt)])
             (TemplateFindUnique (templateId a)) = inr (Some template))
  (Hvalid : missingOf template (data a) = [])
  (Hdocx : isDocxName (templateName template) = false)
  (Hhtml : isHtmlName (templateName template) = false) :
  run o (mergeTemplate J P a) h
  = (inl (newError "Unsupported template type. Use .docx or .html"),
     opening P a template ++ extrasWarning template (data a)).
Proof.
  unfold mergeTemplate, chain, ensureOutputsDir, validate, bind, call, ask. simpl.
  rewrite Hup. simpl. rewrite Hout. simpl. rewrite Hfind. simpl.
  unfold extrasWarning, opening. rewrite Hvalid, Hdocx, Hhtml.
  destruct (extrasOf template (data a)) as [|x extras]; simpl; [reflexivity|].
  answer o. reflexivity.
Qed.
End Early.

Lemma mergeTemplate_template_not_found_witness :
  run (envOracle diskFullEnv)
      (mergeTemplate caseJsdom posixPath (mkMergeArgs "gone" (VObj []) "pdf" None false)) []
  = (inl (newError "Template not found"),
     [event (FsMkdir "/app/uploads") (inr tt);
      event (FsMkdir "/app/outputs") (inr tt);
      event (TemplateFindUnique "gone") (inr None)]).
Proof.
  apply (mergeTemplate_template_not_found caseJsdom posixPath (envOracle diskFullEnv) []
           (mkMergeArgs "gone" (VObj []) "pdf" None false)); reflexivity.
Defined.

Lemma mergeTemplate_unsupported_template_witness :
  run (envOracle txtEnv)
      (mergeTemplate caseJsdom posixPath
         (mkMergeArgs "tpl-txt-1" (VObj [("x", VNum 1)]) "pdf" None false)) []
  = (inl (newError "Unsupported template type. Use .docx or .html"),
     [event (FsMkdir "/app/uploads") (inr tt);
      event (FsMkdir "/app/outputs") (inr tt);
      event (TemplateFindUnique "tpl-txt-1")
            (inr (Some (mkTemplate "tpl-txt-1" "7777-notes.txt" [])));
      event (ConsoleWarn "Unexpected field:" (VArr [VStr "x"])) tt]).
Proof.
  apply (mergeTemplate_unsupported_template caseJsdom posixPath (envOracle txtEnv) []
           (mkMergeArgs "tpl-txt-1" (VObj [("x", VNum 1)]) "pdf" None false)
           (mkTemplate "tpl-txt-1" "7777-notes.txt" [])); reflexivity.
Defined.

Section Shape.
Variable J : Jsdom.
Variable P : NodePath.

(** What each block gives when it returns: the extension of the path is
    the output type asked for. *)
Lemma docxBranch_returns (o : Oracle) (h : Trace) (a : MergeArgs) (buf stamp out filePath : string) :
  fst (run o (docxBranch P a buf stamp) h) = inr (out, filePath) ->
  (outputType a = "docx" \/ outputType a = "pdf")
  /\ filePath = path_join P (OUTPUTS_DIR P) (stamp ++ "." ++ outputType a).
Proof.
  unfold docxBranch. rewrite run_bind.
  destruct (run o (tryCatch _ _) h) as [[e | merged] t]; [discriminate|].
  destruct (outputType a =? "docx") eqn:Ed.
  - apply String.eqb_eq in Ed. rewrite Ed. simpl. intros H. injection H as _ <-. auto.
  - destruct (outputType a =? "pdf") eqn:Ep; [|discriminate].
    apply String.eqb_eq in Ep. rewrite Ep. rewrite run_bind.
    destruct (run o (convertDocxToPdfBuffer merged) (h ++ t)) as [[e | pdf] t2];
      [discriminate|].
    simpl. intros H. injection H as _ <-. auto.
Qed.

Lemma deliverHtml_returns (o : Oracle) (h : Trace) (a : MergeArgs)
  (stamp final out filePath : string) :
  fst (run o (deliverHtml P a stamp final) h) = inr (out, filePath) ->
  (outputType a = "docx" \/ outputType a = "pdf" \/ outputType a = "html")
  /\ filePath = path_join P (OUTPUTS_DIR P) (stamp ++ "." ++ outputType a).
Proof.
  unfold deliverHtml.
  destruct (outputType a =? "pdf") eqn:Ep.
  - apply String.eqb_eq in Ep. rewrite Ep. rewrite run_bind.
    destruct (run o (convertHtmlToPdfBuffer final) h) as [[e | pdf] t]; [discriminate|].
    simpl. intros H. injection H as _ <-. auto.
  - destruct (outputType a =? "docx") eqn:Ed.
    + apply String.eqb_eq in Ed. rewrite Ed. rewrite run_bind.
      destruct (run o (convertHtmlToDocxBuffer P final) h) as [[e | docx] t]; [discriminate|].
      simpl. intros H. injection H as _ <-. auto.
    + destruct (outputType a =? "html") eqn:Eh; [|discriminate].
      apply String.eqb_eq in Eh. rewrite Eh. simpl. intros H. injection H as _ <-. auto.
Qed.

Lemma htmlBranch_returns (o : Oracle) (h : Trace) (a : MergeArgs) (template : Template)
  (buf stamp out filePath : string) :
  fst (run o (htmlBranch J P a template buf stamp) h) = inr (out, filePath) ->
  (outputType a = "docx" \/ outputType a = "pdf" \/ outputType a = "html")
  /\ filePath = path_join P (OUTPUTS_DIR P) (stamp ++ "." ++ outputType a).
Proof.
  unfold htmlBranch. rewrite run_bind.
  destruct (run o (renderHtmlBuffer buf (data a)) h) as [[e | merged] t]; [discriminate|].
  rewrite run_bindProg.
  destruct (run o (if auditCondition J (fromWebhook a) merged then _ else _) (h ++ t))
    as [u t2].
  destruct (run o (deliverHtml P a stamp _) _) as [r t3] eqn:E.
  simpl. intros H. subst r.
  apply (deliverHtml_returns o ((h ++ t) ++ t2) a stamp
           (finalHtmlOf J (fromWebhook a) merged) out filePath).
  now rewrite E.
Qed.

Lemma chain_returns (o : Oracle) (h : Trace) (a : MergeArgs) (template : Template)
  (out filePath : string) (tc : Trace) :
  run o (chain J P a) h = (inr (template, (out, filePath)), tc) ->
  exists now,
    filePath = path_join P (OUTPUTS_DIR P)
                 (safeBaseOf P (templateName template) ++ "-" ++ string_of_Z now
                  ++ "." ++ outputType a)
    /\ (outputType a = "docx" \/ outputType a = "pdf"
        \/ (outputType a = "html" /\ isHtmlName (templateName template) = true))
    /\ In (event DateNow now) tc
    /\ In (event (TemplateFindUnique (templateId a)) (inr (Some template))) tc.
Proof.
  unfold chain. rewrite run_bind.
  destruct (run o (ensureOutputsDir P) h) as [[e | []] t1]; [discriminate|].
  rewrite run_bind, run_call.
  destruct (o (h ++ t1) (TemplateFindUnique (templateId a))) as [x | [found |]] eqn:Ef;
    cbn [liftExt]; try discriminate.
  rewrite run_bind.
  destruct (run o (validate found (data a)) _) as [[e | []] t3]; [discriminate|].
  destruct (negb (isDocxName (templateName found)) && negb (isHtmlName (templateName found)))
    eqn:Ekind; [discriminate|].
  rewrite run_bind. unfold loadTemplateBuffer. rewrite run_call.
  match goal with
  | |- context [o ?h1 (FsReadFile ?p)] => destruct (o h1 (FsReadFile p)) as [x | buf]
  end; cbn [liftExt]; [discriminate|].
  rewrite run_bindProg, run_ask.
  match goal with
  | |- context [o ?h1 DateNow] => set (now := o h1 DateNow)
  end.
  rewrite run_bind.
  match goal with
  | |- context [@run ?R o ?m ?hh] =>
      match m with
      | (if isDocxName _ then _ else _) =>
          destruct (@run R o m hh) as [[e | afterDocx] td] eqn:Edocx
      end
  end; [simpl; discriminate|].
  rewrite run_bind.
  match goal with
  | |- context [@run ?R o ?m ?hh] =>
      match m with
      | (if isHtmlName _ then _ else _) =>
          destruct (@run R o m hh) as [[e | afterHtml] th] eqn:Ehtml
      end
  end; [simpl; discriminate|].
  destruct afterHtml as [[out' path'] |]; [|simpl; discriminate].
  simpl. intros H. injection H as <- <- <- <-.
  exists now.
  assert (Hshape :
    (outputType a = "docx" \/ outputType a = "pdf"
     \/ (outputType a = "html" /\ isHtmlName (templateName found) = true))
    /\ path' = path_join P (OUTPUTS_DIR P)
                 ((safeBaseOf P (templateName found) ++ "-" ++ string_of_Z now)
                  ++ "." ++ outputType a)).
  { destruct (isHtmlName (templateName found)) eqn:Eh.
    - rewrite run_bind in Ehtml.
      match type of Ehtml with
      | context [run o (htmlBranch ?j ?p ?a0 ?f ?b ?st) ?hh] =>
          pose proof (htmlBranch_returns o hh a0 f b st) as Hb;
          destruct (run o (htmlBranch j p a0 f b st) hh) as [[e | r] t]
      end; [discriminate|].
      simpl in Ehtml. injection Ehtml as -> _.
      destruct (Hb out' path' eq_refl) as [Hk Hp].
      split; [|exact Hp]. intuition.
    - simpl in Ehtml. injection Ehtml as -> _.
      destruct (isDocxName (templateName found)); [|simpl in Ekind; discriminate].
      rewrite run_bind in Edocx.
      match type of Edocx with
      | context [run o (docxBranch ?p ?a0 ?b ?st) ?hh] =>
          pose proof (docxBranch_returns o hh a0 b st) as Hb;
          destruct (run o (docxBranch p a0 b st) hh) as [[e | r] t]
      end; [discriminate|].
      simpl in Edocx. injection Edocx as -> _.
      destruct (Hb out' path' eq_refl) as [Hk Hp].
      split; [|exact Hp]. intuition. }
  destruct Hshape as [Hk Hp]. split.
  - rewrite Hp. now rewrite !append_assoc.
  - split; [exact Hk|]. split.
    + apply in_or_app. right. right. apply in_or_app. right. right. now left.
    + apply in_or_app. right. now left.
Qed.

(** X9.  What a successful attempt returns.  The path is [OUTPUTS_DIR]
    joined with [<safeBase>-<Date.now()>.<outputType>], a file name made of
    safe characters only; the output type is [docx] or [pdf], or [html] for
    a markup template; and the attempt ended by writing that very path and
    recording the job that carries it, under the id returned. *)
Theorem mergeTemplate_result_shape (o : Oracle) (h : Trace) (a : MergeArgs)
  (id : Z) (filePath : string)
  (Hok : fst (run o (mergeTemplate J P a) h) = inr (id, filePath)) :
  exists template now outBuffer before,
    let fileName :=
      (safeBaseOf P (templateName template) ++ "-" ++ string_of_Z now
       ++ "." ++ outputType a)%string in
    filePath = path_join P (OUTPUTS_DIR P) fileName
    /\ allChars isSafeChar fileName = true
    /\ (outputType a = "docx" \/ outputType a = "pdf"
        \/ (outputType a = "html" /\ isHtmlName (templateName template) = true))
    /\ snd (run o (mergeTemplate J P a) h)
       = before ++ [event (FsWriteFile filePath outBuffer) (inr tt);
                    event (MergeJobCreate (jobOf a template filePath)) (inr id)]
    /\ In (event (TemplateFindUnique (templateId a)) (inr (Some template))) before
    /\ In (event DateNow now) before.
Proof.
  pose proof (mergeTemplate_ending J P o h a) as Hend. cbv zeta in Hend.
  destruct (run o (chain J P a) h) as [[e | [template [out fp]]] tc] eqn:Ec;
    cbn [fst snd] in Hend.
  - destruct Hend as [Hr _]. rewrite Hr in Hok. discriminate.
  - destruct Hend as [(x & Hr & _) | [(x & Hr & _) | (id' & Hr & Ht)]];
      rewrite Hr in Hok; try discriminate.
    injection Hok as -> ->.
    destruct (chain_returns o h a template out filePath tc Ec)
      as (now & Hp & Hk & Hnow & Hfind).
    exists template, now, out, tc. cbv zeta.
    split; [exact Hp|]. split.
    + rewrite !allChars_app, string_of_Z_safe. unfold safeBaseOf.
      rewrite stripExtension_allChars by apply replaceUnsafeRuns_safe.
      destruct Hk as [-> | [-> | [-> _]]]; reflexivity.
    + split; [exact Hk|]. split; [exact Ht|]. split; assumption.
Qed.
End Shape.

Lemma mergeTemplate_result_shape_witness :
  exists template now outBuffer before,
    "/app/outputs/1111-form-1700000000000.docx"
    = path_join posixPath (OUTPUTS_DIR posixPath)
        (safeBaseOf posixPath (templateName template) ++ "-" ++ string_of_Z now
         ++ "." ++ "docx")
    /\ snd (run (envOracle (docxEnv SDone))
              (mergeTemplate caseJsdom posixPath
                 (mkMergeArgs "tpl-docx-1" (VObj [("firstName", VStr "Ada")]) "docx"
                              (Some "u1") false)) [])
       = before ++ [event (FsWriteFile "/app/outputs/1111-form-1700000000000.docx" outBuffer)
                          (inr tt);
                    event (MergeJobCreate
                             (jobOf (mkMergeArgs "tpl-docx-1"
                                       (VObj [("firstName", VStr "Ada")]) "docx"
                                       (Some "u1") false)
                                    template "/app/outputs/1111-form-1700000000000.docx"))
                          (inr 101%Z)].
Proof.
  destruct (mergeTemplate_result_shape caseJsdom posixPath (envOracle (docxEnv SDone)) []
              (mkMergeArgs "tpl-docx-1" (VObj [("firstName", VStr "Ada")]) "docx"
                           (Some "u1") false)
              101%Z "/app/outputs/1111-form-1700000000000.docx" eq_refl)
    as (template & now & outBuffer & before & Hp & _ & _ & Ht & _).
  exists template, now, outBuffer, before. split; [exact Hp | exact Ht].
Defined.


(** X10.  Once the input is staged, the conversion returns exactly what
    the two stages gave, bytes or error, and its last call removes the
    temporary directory, once; what the removal answers is not looked at. *)
Theorem convertHtmlToDocxBuffer_removes_directory (P : NodePath) (o : Oracle) (h : Trace)
  (html soffice tmpDir : string) :
  let resolved := snd (run o resolveSoffice h) in
  let tmp := o (h ++ resolved) OsTmpdir in
  let made := FsMkdtemp (path_join P tmp "html2docx-") in
  let staged := FsWriteFile (path_join P tmpDir "source.html") html in
  let setup := [event OsTmpdir tmp; event made (inr tmpDir); event staged (inr tt)] in
  let stages := run o (twoStage P soffice tmpDir) ((h ++ resolved) ++ setup) in
  fst (run o resolveSoffice h) = inr soffice ->
  o ((h ++ resolved) ++ [event OsTmpdir tmp]) made = inr tmpDir ->
  o (((h ++ resolved) ++ [event OsTmpdir tmp]) ++ [event made (inr tmpDir)]) staged
  = inr tt ->
  exists removed,
    run o (convertHtmlToDocxBuffer P html) h
    = (fst stages,
       resolved ++ setup ++ snd stages ++ [event (FsRm tmpDir) removed])
    /\ Forall (fun ev => isRemoval (projT1 ev) = false) (resolved ++ setup ++ snd stages).
Proof.
  intros resolved tmp made staged setup stages Hs Hmade Hstaged.
  unfold convertHtmlToDocxBuffer. rewrite run_bind.
  subst resolved. destruct (run o resolveSoffice h) as [r t] eqn:Er.
  cbn [fst snd] in *. subst r.
  unfold stageAndConvert. rewrite run_bindProg, run_ask. fold tmp.
  rewrite run_bind, run_call. fold made. rewrite Hmade. cbn [liftExt].
  rewrite run_bind, run_call. fold staged. rewrite Hstaged. cbn [liftExt].
  rewrite staged_cleanup.
  replace ((((h ++ t) ++ [event OsTmpdir tmp]) ++ [event made (inr tmpDir)])
           ++ [event staged (inr tt)]) with ((h ++ t) ++ setup)
    by (subst setup; now rewrite <- !app_assoc).
  fold stages. destruct stages as [rs ts] eqn:Es. cbn [fst snd].
  eexists. split.
  - rewrite <- !app_assoc. reflexivity.
  - rewrite !Forall_app. split; [|split].
    + pose proof (callsOnly_run _ _ o resolveSoffice_removes_nothing h) as H.
      now rewrite Er in H.
    + subst setup. repeat constructor.
    + assert (Hc : callsOnly (fun c => isRemoval c = false) (twoStage P soffice tmpDir)).
      { unfold twoStage, runSoffice, ask. walk; reflexivity. }
      pose proof (callsOnly_run _ _ o Hc ((h ++ t) ++ setup)) as H.
      subst stages. now rewrite Es in H.
Qed.

Lemma convertHtmlToDocxBuffer_removes_directory_witness :
  exists removed,
    run (envOracle (htmlEnv "DOCX_BYTES")) (convertHtmlToDocxBuffer posixPath "<p>hi</p>") []
    = (inr "DOCX_BYTES",
       [event EnvSofficeBin None;
        event ProcessPlatform "linux";
        event OsTmpdir "/tmp";
        event (FsMkdtemp "/tmp/html2docx-") (inr "/tmp/html2docx-Ab12Cd");
        event (FsWriteFile "/tmp/html2docx-Ab12Cd/source.html" "<p>hi</p>") (inr tt);
        event (Spawn "soffice"
                 ["--headless"; "--infilter=HTML (StarWriter)"; "--convert-to"; "odt";
                  "--outdir"; "/tmp/html2docx-Ab12Cd"; "/tmp/html2docx-Ab12Cd/source.html"]
                 "/tmp/html2docx-Ab12Cd")
              (SpawnClose (Some 0%Z) "" "");
        event (FsAccess "/tmp/html2docx-Ab12Cd/source.odt") (inr tt);
        event (Spawn "soffice"
                 ["--headless"; "--convert-to"; "docx"; "--outdir"; "/tmp/html2docx-Ab12Cd";
                  "/tmp/html2docx-Ab12Cd/source.odt"]
                 "/tmp/html2docx-Ab12Cd")
              (SpawnClose (Some 0%Z) "" "");
        event (FsReadFile "/tmp/html2docx-Ab12Cd/source.docx") (inr "DOCX_BYTES");
        event (FsRm "/tmp/html2docx-Ab12Cd") removed]).
Proof.
  destruct (convertHtmlToDocxBuffer_removes_directory posixPath
              (envOracle (htmlEnv "DOCX_BYTES")) [] "<p>hi</p>" "soffice"
              "/tmp/html2docx-Ab12Cd" eq_refl eq_refl eq_refl) as (removed & E & _).
  exists removed. rewrite E. reflexivity.
Defined.

(** The undeclared names are the flattened leaf paths that no field
    declares. *)
Lemma extrasOf_In (template : Template) (d : JsVal) (k : string) :
  In k (extrasOf template d)
  <-> In k (flattenKeys d "") /\ ~ In k (map fieldName (templateFields template)).
Proof.
  unfold extrasOf, allowedOf. rewrite filter_In, negb_true_iff.
  split; intros [H1 H2]; (split; [exact H1|]).
  - intros Hin. apply new_Set_In, Set_has_In in Hin. congruence.
  - destruct (Set_has _ k) eqn:E; [|reflexivity].
    apply Set_has_In in E. apply -> new_Set_In in E. contradiction.
Qed.

(** X11.  The field check passes exactly when every declared field is
    among the flattened leaf paths of the payload.  Undeclared paths never
    make it fail: all they cause is one warning that lists them. *)
Theorem validate_passes_iff (o : Oracle) (h : Trace) (template : Template) (d : JsVal) :
  (fst (run o (validate template d) h) = inr tt
   <-> forall f, In f (templateFields template) -> In (fieldName f) (flattenKeys d ""))
  /\ snd (run o (validate template d) h) = extrasWarning template d
  /\ (forall k, In k (extrasOf template d)
                <-> In k (flattenKeys d "")
                    /\ ~ In k (map fieldName (templateFields template))).
Proof.
  assert (Hrun : run o (validate template d) h
                 = (match missingOf template d with
                    | [] => inr tt
                    | missing => inl (missingError missing)
                    end, extrasWarning template d)).
  { unfold validate, extrasWarning. rewrite run_bindProg.
    destruct (extrasOf template d) as [|x extras]; simpl.
    - now destruct (missingOf template d).
    - answer o. now destruct (missingOf template d). }
  rewrite Hrun. cbn [fst snd]. split; [|split; [reflexivity | apply extrasOf_In]].
  split.
  - intros Hok f Hf.
    destruct (in_dec string_dec (fieldName f) (flattenKeys d "")) as [Hin | Hno];
      [exact Hin|].
    assert (Hm : In (fieldName f) (missingOf template d)).
    { apply missingOf_In. split; [now apply in_map | exact Hno]. }
    destruct (missingOf template d); [contradiction | discriminate].
  - intros Hall. destruct (missingOf template d) as [|k rest] eqn:E; [reflexivity|].
    assert (Hm : In k (missingOf template d)) by (rewrite E; now left).
    apply missingOf_In in Hm as [Hdecl Hno].
    apply in_map_iff in Hdecl as (f & <- & Hf). elim Hno. now apply Hall.
Qed.

Section Malformed.
Variable P : NodePath.

(** X12.  A template the engine rejects: when [doc.render] throws an
    error of the engine's shape, strict rendering throws a
    [TemplateParseError] that carries the normalised diagnostics and keeps
    the engine's error as its cause; the orchestrator marks it with status
    422 and throws it on.  Nothing is generated or converted. *)
Theorem docxBranch_malformed (o : Oracle) (h : Trace) (a : MergeArgs)
  (buf stamp : string) (zip doc : Handle) (x : ExtErr) (details : JsVal)
  (Hzip : o h (PizZipNew buf) = inr zip)
  (Hdoc : o (h ++ [event (PizZipNew buf) (inr zip)]) (DocxtemplaterNew zip false)
          = inr doc)
  (Hrender : o ((h ++ [event (PizZipNew buf) (inr zip)])
                ++ [event (DocxtemplaterNew zip false) (inr doc)])
               (DocxRender doc (orEmptyObject (data a)))
             = SThrow x)
  (Hdocx : isDocxError (external x) = true)
  (Hmap : mapDocxDetails (external x) = inr details) :
  let e := newTemplateParseError details (external x) in
  run o (renderDocxBufferOrThrow buf (data a)) h
  = (inl e,
     [event (PizZipNew buf) (inr zip);
      event (DocxtemplaterNew zip false) (inr doc);
      event (DocxRender doc (orEmptyObject (data a))) (SThrow x)])
  /\ run o (docxBranch P a buf stamp) h
     = (inl (errSet e "status" (VNum 422)),
        [event (PizZipNew buf) (inr zip);
         event (DocxtemplaterNew zip false) (inr doc);
         event (DocxRender doc (orEmptyObject (data a))) (SThrow x)])
  /\ isTemplateParseError e = true
  /\ errGet (errSet e "status" (VNum 422)) "details" = details
  /\ errGet (errSet e "status" (VNum 422)) "status" = VNum 422
  /\ errCause e = Some (external x).
Proof.
  intros e.
  assert (E : run o (renderDocxBufferOrThrow buf (data a)) h
              = (inl e,
                 [event (PizZipNew buf) (inr zip);
                  event (DocxtemplaterNew zip false) (inr doc);
                  event (DocxRender doc (orEmptyObject (data a))) (SThrow x)])).
  { unfold renderDocxBufferOrThrow, renderInternal, bind, call, ask. simpl.
    rewrite Hzip. simpl. rewrite Hdoc. simpl. rewrite Hrender. simpl.
    rewrite Hdocx, Hmap. reflexivity. }
  split; [exact E|]. split; [|repeat split].
  unfold docxBranch. rewrite run_bind, run_tryCatch, E. reflexivity.
Qed.
End Malformed.

Lemma docxBranch_malformed_witness :
  exists e,
    fst (run (envOracle (docxEnv malformedScript))
             (docxBranch posixPath
                (mkMergeArgs "tpl-docx-1" (VObj [("firstName", VStr "Ada")]) "docx" None false)
                "FAKE_DOCX_CONTENT" "1111-form-17") [])
    = inl e
    /\ isTemplateParseError e = true
    /\ errGet e "status" = VNum 422.
Proof.
  destruct (docxBranch_malformed posixPath (envOracle (docxEnv malformedScript)) []
              (mkMergeArgs "tpl-docx-1" (VObj [("firstName", VStr "Ada")]) "docx" None false)
              "FAKE_DOCX_CONTENT" "1111-form-17" 1 2 _ _ eq_refl eq_refl eq_refl
              eq_refl eq_refl) as (_ & E & Hc & _ & Hs & _).
  eexists. split; [rewrite E; reflexivity|]. split; [exact Hc | exact Hs].
Defined.

(** X13.  Linting reports what merging would throw: for an error of the
    engine's shape thrown by [doc.render], the diagnostics returned by
    [lintDocxBuffer] are the normalised details, the same list a
    [TemplateParseError] carries. *)
Theorem lintDocxBuffer_reports_engine_error (o : Oracle) (h : Trace)
  (buf : string) (zip doc : Handle) (x : ExtErr) (details : JsVal)
  (Hzip : o h (PizZipNew buf) = inr zip)
  (Hdoc : o (h ++ [event (PizZipNew buf) (inr zip)]) (DocxtemplaterNew zip true)
          = inr doc)
  (Hrender : o ((h ++ [event (PizZipNew buf) (inr zip)])
                ++ [event (DocxtemplaterNew zip true) (inr doc)])
               (DocxRender doc (VObj []))
             = SThrow x)
  (Hdocx : isDocxError (external x) = true)
  (Hmap : mapDocxDetails (external x) = inr details) :
  run o (lintDocxBuffer buf) h
  = (inr details,
     [event (PizZipNew buf) (inr zip);
      event (DocxtemplaterNew zip true) (inr doc);
      event (DocxRender doc (VObj [])) (SThrow x)]).
Proof.
  unfold lintDocxBuffer, tryCatch, renderInternal, bind, call, ask. simpl.
  rewrite Hzip. simpl. rewrite Hdoc. simpl. rewrite Hrender. simpl.
  rewrite Hdocx, Hmap. reflexivity.
Qed.

Lemma lintDocxBuffer_reports_engine_error_witness :
  run (envOracle (docxEnv malformedScript)) (lintDocxBuffer "FAKE_DOCX_CONTENT") []
  = (inr (VArr [VObj [("id", VStr "duplicate_open_tag");
                      ("explanation", VStr "Duplicate open tag");
                      ("xtag", VStr "{{ name");
                      ("file", VStr "word/document.xml");
                      ("offset", VNum 42)]]),
     [event (PizZipNew "FAKE_DOCX_CONTENT") (inr 1);
      event (DocxtemplaterNew 1 true) (inr 2);
      event (DocxRender 2 (VObj [])) malformedScript]).
Proof.
  apply (lintDocxBuffer_reports_engine_error (envOracle (docxEnv malformedScript)) []
           "FAKE_DOCX_CONTENT" 1 2); reflexivity.
Defined.

(** X14.  Bytes that PizZip cannot open: the constructor stands outside
    the [try] of [renderInternal] but inside that of [lintDocxBuffer], which
    returns one [unknown_error] diagnostic holding the message. *)
Theorem lintDocxBuffer_unreadable (o : Oracle) (h : Trace) (buf : string) (x : ExtErr)
  (Hzip : o h (PizZipNew buf) = inl x) :
  run o (lintDocxBuffer buf) h
  = (inr (VArr [VObj [("id", VStr "unknown_error");
                      ("explanation", lookup "message" x)]]),
     [event (PizZipNew buf) (inl x)]).
Proof.
  unfold lintDocxBuffer, tryCatch, renderInternal, bind, call, ask. simpl.
  rewrite Hzip. reflexivity.
Qed.

Lemma lintDocxBuffer_unreadable_witness :
  run (failingZip "Can't find end of central directory" (envOracle (docxEnv SDone)))
      (lintDocxBuffer "not a zip") []
  = (inr (VArr [VObj [("id", VStr "unknown_error");
                      ("explanation", VStr "Can't find end of central directory")]]),
     [event (PizZipNew "not a zip")
            (inl [("message", VStr "Can't find end of central directory")])]).
Proof.
  apply (lintDocxBuffer_unreadable
           (failingZip "Can't find end of central directory" (envOracle (docxEnv SDone)))
           [] "not a zip" [("message", VStr "Can't find end of central directory")]).
  reflexivity.
Defined.

(* ================================================================== *)
(** ** The upload-time linter *)

Example lint_link_case :
  lintHtmlBuffer (fun _ => linkAst) linkMarkup (mkLintOptions false true)
  = mkIssues
      [("Disallowed attr " ++ DQ ++ "onclick" ++ DQ ++ " on <a>")%string;
       "Disallowed <script> tag"]
      [("Remote ref: src=" ++ DQ ++ "https://cdn.example.com/x.png" ++ DQ)%string;
       ("No print CSS detected (@page or media=" ++ DQ ++ "print" ++ DQ ++ ").")%string].
Proof. reflexivity. Qed.

Example hasPrintCss_cases :
  hasPrintCss "<style>@page { size: A4 }</style>" = true
  /\ hasPrintCss "<style>@pages</style>" = false
  /\ hasPrintCss ("<link MEDIA = 'Print" ++ DQ ++ ">") = true
  /\ hasPrintCss "<p>media=print</p>" = false.
Proof. repeat split. Qed.

Example TRIPLE_cases :
  TRIPLE "<b>{{{ rawHtml }}}</b>" = true
  /\ TRIPLE "{{{ }}}" = true
  /\ TRIPLE "{{{}}}" = false
  /\ TRIPLE "{{ name }}" = false
  /\ TRIPLE "{{{a}} }" = false.
Proof. repeat split. Qed.

Lemma lintAttr_errors (tag : string) (r : bool) (i : Issues) (a : string * string) :
  errors (lintAttr tag r i a) = errors i ++ attrErrors tag a.
Proof.
  unfold lintAttr, attrErrors.
  destruct (ON_ATTR (fst a)); destruct ((fst a =? "href") && JS_URL (snd a));
    destruct (negb r && REMOTE (snd a)); simpl;
    rewrite <- ?app_assoc, ?app_nil_r; reflexivity.
Qed.

Lemma lintAttr_quiet (tag : string) (i : Issues) (a : string * string) :
  warnings (lintAttr tag true i a) = warnings i.
Proof.
  unfold lintAttr. simpl.
  destruct (ON_ATTR (fst a)); destruct ((fst a =? "href") && JS_URL (snd a)); reflexivity.
Qed.

Lemma attrs_errors (tag : string) (r : bool) (attrs : list (string * string)) :
  forall i, errors (fold_left (lintAttr tag r) attrs i)
            = errors i ++ flat_map (attrErrors tag) attrs.
Proof.
  induction attrs as [|a l IH]; intros i; simpl; [now rewrite app_nil_r|].
  now rewrite IH, lintAttr_errors, <- app_assoc.
Qed.

Lemma attrs_quiet (tag : string) (attrs : list (string * string)) :
  forall i, warnings (fold_left (lintAttr tag true) attrs i) = warnings i.
Proof.
  induction attrs as [|a l IH]; intros i; simpl; [reflexivity|].
  now rewrite IH, lintAttr_quiet.
Qed.

(** [walk] only appends, in document order, and its errors do not depend
    on [allowRemote]. *)
Lemma walk_errors (n : AstNode) :
  forall i r, errors (walk n i r) = errors i ++ nodeErrors n.
Proof.
  induction n as [name attrs kids content IH] using AstNode_ind'. intros i r.
  cbn [walk nodeErrors].
  match goal with
  | |- errors (?each kids ?start) = _ =>
      assert (Hkids : forall acc, errors (each kids acc)
                                  = errors acc ++ flat_map nodeErrors kids)
  end.
  { induction kids as [|c rest IHrest]; intros acc; [now rewrite app_nil_r|].
    inversion IH as [|? ? IHc IHr]; subst.
    simpl. rewrite (IHrest IHr), IHc. now rewrite <- app_assoc. }
  rewrite Hkids. rewrite app_assoc. f_equal.
  destruct (negb (name =? "")); [|now rewrite app_nil_r].
  rewrite attrs_errors.
  destruct (Set_has BAD_TAGS (toLowerCase name)); simpl;
    rewrite <- ?app_assoc; reflexivity.
Qed.

Lemma walk_quiet (n : AstNode) : forall i, warnings (walk n i true) = warnings i.
Proof.
  induction n as [name attrs kids content IH] using AstNode_ind'. intros i.
  cbn [walk].
  match goal with
  | |- warnings (?each kids ?start) = _ =>
      assert (Hkids : forall acc, warnings (each kids acc) = warnings acc)
  end.
  { induction kids as [|c rest IHrest]; intros acc; [reflexivity|].
    inversion IH as [|? ? IHc IHr]; subst.
    simpl. now rewrite (IHrest IHr), IHc. }
  rewrite Hkids.
  destruct (negb (name =? "")); [|reflexivity].
  rewrite attrs_quiet. now destruct (Set_has BAD_TAGS (toLowerCase name)).
Qed.

Lemma lintHtmlBuffer_errors (parse5 : string -> AstNode) (buf : string)
  (options : LintOptions) :
  errors (lintHtmlBuffer parse5 buf options)
  = (if TRIPLE buf then ["Disallowed {{{ triple braces }}} (unescaped HTML)"] else [])
    ++ nodeErrors (parse5 buf).
Proof.
  unfold lintHtmlBuffer.
  destruct (requirePrintCss options && negb (hasPrintCss buf)); simpl;
    rewrite walk_errors; now destruct (TRIPLE buf).
Qed.

(** X15.  The options of the linter bear on warnings only: the errors,
    which block an upload, are the same whatever the options; and with
    remote references allowed and print styles not required there is no
    warning at all. *)
Theorem lintHtmlBuffer_options (parse5 : string -> AstNode) (buf : string)
  (o1 o2 : LintOptions) :
  errors (lintHtmlBuffer parse5 buf o1) = errors (lintHtmlBuffer parse5 buf o2)
  /\ warnings (lintHtmlBuffer parse5 buf (mkLintOptions true false)) = [].
Proof.
  split; [now rewrite !lintHtmlBuffer_errors|].
  unfold lintHtmlBuffer. simpl. rewrite walk_quiet. now destruct (TRIPLE buf).
Qed.

Lemma attrErrors_nil (tag : string) (a : string * string) :
  attrErrors tag a = [] <-> attrRejected a = false.
Proof.
  unfold attrErrors, attrRejected.
  destruct (ON_ATTR (fst a)); destruct ((fst a =? "href") && JS_URL (snd a)); simpl;
    split; intros H; try discriminate; reflexivity.
Qed.

Lemma flat_map_nil {A B} (f : A -> list B) (l : list A) :
  flat_map f l = [] <-> Forall (fun x => f x = []) l.
Proof.
  induction l as [|x l IH]; simpl.
  - split; [constructor | reflexivity].
  - split.
    + intros H. apply app_eq_nil in H as [Hx Hl]. constructor; [exact Hx | now apply IH].
    + intros H. inversion H as [|? ? Hx Hl]; subst. rewrite Hx. now apply IH.
Qed.

Lemma nodeErrors_nil (n : AstNode) :
  nodeErrors n = [] <-> forallb nodeAccepted (astNodes n) = true.
Proof.
  induction n as [name attrs kids content IH] using AstNode_ind'.
  cbn [nodeErrors astNodes forallb nodeAccepted].
  assert (Hkids : flat_map nodeErrors kids = []
                  <-> forallb nodeAccepted (flat_map astNodes kids) = true).
  { induction kids as [|c rest IHrest]; simpl; [tauto|].
    inversion IH as [|? ? IHc IHr]; subst.
    rewrite forallb_app, andb_true_iff, <- IHc, <- (IHrest IHr).
    split; [apply app_eq_nil | intros [-> ->]; reflexivity]. }
  rewrite andb_true_iff, <- Hkids.
  assert (Hself :
    (if negb (name =? "")
     then (if Set_has BAD_TAGS (toLowerCase name)
           then [("Disallowed <" ++ toLowerCase name ++ "> tag")%string] else [])
          ++ flat_map (attrErrors (toLowerCase name)) attrs
     else []) = []
    <-> (name =? "") || (negb (Set_has BAD_TAGS (toLowerCase name))
                         && forallb (fun a => negb (attrRejected a)) attrs) = true).
  { destruct (name =? ""); cbn [negb orb]; [tauto|].
    destruct (Set_has BAD_TAGS (toLowerCase name)); cbn [negb andb app];
      [split; discriminate|].
    rewrite flat_map_nil, forallb_forall, Forall_forall.
    split; intros H a Ha; specialize (H a Ha).
    - apply attrErrors_nil in H. now rewrite H.
    - apply attrErrors_nil. now apply negb_true_iff in H. }
  rewrite <- Hself. split; [apply app_eq_nil | intros [-> ->]; reflexivity].
Qed.

(** X16.  The linter raises no error exactly when the text holds no
    triple-brace tag and no node of the parsed tree, reached through
    [childNodes], has a name among [script], [iframe], [object], [embed],
    an attribute named [on] plus a word character, or an [href] that starts
    with [javascript:]. *)
Theorem lintHtmlBuffer_accepts_iff (parse5 : string -> AstNode) (buf : string)
  (options : LintOptions) :
  errors (lintHtmlBuffer parse5 buf options) = []
  <-> TRIPLE buf = false /\ forallb nodeAccepted (astNodes (parse5 buf)) = true.
Proof.
  rewrite lintHtmlBuffer_errors, <- nodeErrors_nil.
  destruct (TRIPLE buf); simpl; split.
  - discriminate.
  - intros [H _]. discriminate.
  - auto.
  - tauto.
Qed.

Lemma ON_ATTR_event_handler (name : string) :
  ON_ATTR name = true -> isEventHandlerName (toLowerCase name) = true.
Proof.
  destruct name as [|a [|b [|c rest]]]; try discriminate.
  unfold ON_ATTR. rewrite !andb_true_iff. intros [[Ha Hb] _].
  apply Ascii.eqb_eq in Ha, Hb.
  unfold isEventHandlerName, startsWith. simpl. rewrite Ha, Hb. reflexivity.
Qed.

Lemma lowerChar_j (c : ascii) : lowerChar c = "j"%char -> c = "j"%char \/ c = "J"%char.
Proof.
  destruct c as [b0 b1 b2 b3 b4 b5 b6 b7].
  destruct b0, b1, b2, b3, b4, b5, b6, b7; intros H; try discriminate H; auto.
Qed.

Lemma JS_URL_javascript_url (value : string) :
  JS_URL value = true -> isJavascriptUrl value = true.
Proof.
  unfold JS_URL, isJavascriptUrl. intros H.
  assert (E : skipWhitespace value = value); [|now rewrite E].
  destruct value as [|c rest]; [reflexivity|].
  assert (Hc : lowerChar c = "j"%char).
  { unfold startsWith in H. cbn [toLowerCase prefix] in H.
    destruct (ascii_dec "j" (lowerChar c)) as [<- |]; [reflexivity | discriminate]. }
  destruct (lowerChar_j c Hc) as [-> | ->];
    destruct rest as [|b [|c2 r]]; reflexivity.
Qed.

(** X17.  What the upload linter rejects the webhook sanitizer removes:
    an attribute that raises a lint error is one the attribute loop of the
    sanitizer strips, and a tag the linter disallows is one the sanitizer
    takes out.  The linter is the narrower of the two: a script URL in
    [src], or in an [href] behind white space, passes it. *)
Theorem lint_rejections_sanitized :
  (forall a, attrRejected a = true -> unsafeAttr a = true)
  /\ (forall tag attrs, Set_has BAD_TAGS tag = true -> disallowedTag tag attrs = true)
  /\ (attrRejected ("src", "javascript:alert(1)") = false
      /\ unsafeAttr ("src", "javascript:alert(1)") = true)
  /\ (attrRejected ("href", " javascript:alert(1)") = false
      /\ unsafeAttr ("href", " javascript:alert(1)") = true).
Proof.
  split; [|split; [|split; split; reflexivity]].
  - intros [name value]. unfold attrRejected, unsafeAttr. simpl.
    rewrite !orb_true_iff, !andb_true_iff. intros [Hon | [Hhref Hjs]].
    + left. now apply ON_ATTR_event_handler.
    + right. apply String.eqb_eq in Hhref. subst name. split; [reflexivity|].
      now apply JS_URL_javascript_url.
  - intros tag attrs. unfold disallowedTag, BAD_TAGS, Set_has. simpl.
    rewrite !orb_true_iff. intuition discriminate.
Qed.

Lemma anywhere_app (p : string -> bool) (a b : string) :
  p b = true -> anywhere p (a ++ b) = true.
Proof.
  intros H. induction a as [|c a IH]; simpl.
  - destruct b; simpl; now rewrite H.
  - rewrite IH. apply orb_true_r.
Qed.

Lemma closesTriple_run (name rest : string) :
  allChars (fun c => negb (c =? "}")%char) name = true ->
  closesTriple true (name ++ "}}}" ++ rest) = true.
Proof.
  induction name as [|c name IH]; simpl; [now destruct rest|].
  rewrite andb_true_iff, negb_true_iff. intros [-> Hn]. now apply IH.
Qed.

(** X18.  A triple-brace tag anywhere in the text is an error, the first
    one reported: three opening braces, at least one character that is not
    a closing brace, three closing braces. *)
Theorem lintHtmlBuffer_triple_braces (parse5 : string -> AstNode)
  (before name rest : string) (options : LintOptions)
  (Hname : name <> "")
  (Hbrace : allChars (fun c => negb (c =? "}")%char) name = true) :
  exists others,
    errors (lintHtmlBuffer parse5 (before ++ "{{{" ++ name ++ "}}}" ++ rest) options)
    = "Disallowed {{{ triple braces }}} (unescaped HTML)" :: others.
Proof.
  rewrite lintHtmlBuffer_errors.
  assert (E : TRIPLE (before ++ "{{{" ++ name ++ "}}}" ++ rest) = true).
  { apply anywhere_app. destruct name as [|c name]; [contradiction|].
    simpl in Hbrace. apply andb_true_iff in Hbrace as [Hc Hn].
    apply negb_true_iff in Hc. cbn [append tripleAt]. simpl.
    rewrite Hc. now apply closesTriple_run. }
  rewrite E. simpl. eauto.
Qed.

Lemma lintHtmlBuffer_triple_braces_witness :
  exists others,
    errors (lintHtmlBuffer (fun _ => linkAst) ("<b>" ++ "{{{" ++ " rawHtml " ++ "}}}" ++ "</b>")
                           (mkLintOptions false false))
    = "Disallowed {{{ triple braces }}} (unescaped HTML)" :: others.
Proof.
  apply (lintHtmlBuffer_triple_braces (fun _ => linkAst) "<b>" " rawHtml " "</b>");
    [discriminate | reflexivity].
Defined.

(* ================================================================== *)
(** ** The template service *)

Example extractPlaceholders_case :
  extractPlaceholders "Hello {{name}} and {{client.name}} and {{ name }}, {{{raw}}} {{#each}} {{ }}"
  = ["name"; "client.name"; "raw"].
Proof. reflexivity. Qed.

Example downloadNameFor_cases :
  downloadNameFor "1712345678901-sample.html" = "sample.html"
  /\ downloadNameFor "sample.html" = "sample.html"
  /\ downloadNameFor "2024report.docx" = "2024report.docx"
  /\ downloadNameFor "17-2024-report.docx" = "2024-report.docx".
Proof. repeat split. Qed.

Lemma skipWhitespace_plain (c : ascii) (r : string) :
  plainChar c = true -> skipWhitespace (String c r) = String c r.
Proof.
  unfold plainChar. rewrite andb_true_iff, negb_true_iff, Nat.ltb_lt. intros [Hs Hn].
  assert (E194 : (nat_of_ascii c =? 194)%nat = false) by (apply Nat.eqb_neq; lia).
  assert (E225 : (nat_of_ascii c =? 225)%nat = false) by (apply Nat.eqb_neq; lia).
  assert (E226 : (nat_of_ascii c =? 226)%nat = false) by (apply Nat.eqb_neq; lia).
  assert (E227 : (nat_of_ascii c =? 227)%nat = false) by (apply Nat.eqb_neq; lia).
  assert (E239 : (nat_of_ascii c =? 239)%nat = false) by (apply Nat.eqb_neq; lia).
  destruct r as [|b [|c2 r]]; cbn [skipWhitespace]; rewrite Hs; try reflexivity;
    rewrite E194; cbn [andb]; try reflexivity.
  unfold isSpace3. rewrite E225, E226, E227, E239. reflexivity.
Qed.

Lemma isNameChar_plain (c : ascii) : isNameChar c = true -> plainChar c = true.
Proof.
  destruct c as [b0 b1 b2 b3 b4 b5 b6 b7].
  destruct b0, b1, b2, b3, b4, b5, b6, b7; intros H; try discriminate H; reflexivity.
Qed.

Lemma isNameChar_not_brace (c : ascii) :
  isNameChar c = true -> (c =? "{")%char = false /\ (c =? "}")%char = false.
Proof.
  destruct c as [b0 b1 b2 b3 b4 b5 b6 b7].
  destruct b0, b1, b2, b3, b4, b5, b6, b7; intros H; try discriminate H; split; reflexivity.
Qed.

Lemma Blank_nil : Blank "".
Proof. intros t. reflexivity. Qed.

Lemma skipWhitespace_split_le (n : nat) :
  forall s, (String.length s <= n)%nat ->
            exists w, Blank w /\ s = (w ++ skipWhitespace s)%string.
Proof.
  induction n as [|n IH]; intros s Hlen.
  - destruct s; [|simpl in Hlen; lia]. exists "". split; [apply Blank_nil | reflexivity].
  - destruct s as [|a r1]; [exists ""; split; [apply Blank_nil | reflexivity]|].
    simpl in Hlen.
    destruct (isAsciiSpace a) eqn:Ea.
    { destruct (IH r1 ltac:(lia)) as (w & Hw & E). exists (String a w). split.
      - intros t. simpl. rewrite Ea. apply Hw.
      - simpl. rewrite Ea. now rewrite <- E. }
    destruct r1 as [|b r2].
    { exists "". split; [apply Blank_nil|]. simpl. now rewrite Ea. }
    simpl in Hlen.
    destruct ((nat_of_ascii a =? 194)%nat && (nat_of_ascii b =? 160)%nat) eqn:E2.
    { destruct (IH r2 ltac:(lia)) as (w & Hw & E). exists (String a (String b w)). split.
      - intros t. cbn [append skipWhitespace]. rewrite Ea, E2. apply Hw.
      - cbn [append skipWhitespace]. rewrite Ea, E2. now rewrite <- E. }
    destruct r2 as [|c r3].
    { exists "". split; [apply Blank_nil|]. cbn [append skipWhitespace]. now rewrite Ea, E2. }
    simpl in Hlen.
    destruct (isSpace3 a b c) eqn:E3.
    { destruct (IH r3 ltac:(lia)) as (w & Hw & E).
      exists (String a (String b (String c w))). split.
      - intros t. cbn [append skipWhitespace]. rewrite Ea, E2, E3. apply Hw.
      - cbn [append skipWhitespace]. rewrite Ea, E2, E3. now rewrite <- E. }
    exists "". split; [apply Blank_nil|]. cbn [append skipWhitespace].
    now rewrite Ea, E2, E3.
Qed.

Lemma skipWhitespace_split (s : string) :
  exists w, Blank w /\ s = (w ++ skipWhitespace s)%string.
Proof. exact (skipWhitespace_split_le (String.length s) s (le_n _)). Qed.

Lemma Blank_head (a : ascii) (w : string) :
  Blank (String a w) -> plainChar a = false.
Proof.
  intros H. destruct (plainChar a) eqn:E; [|reflexivity].
  specialize (H ""). rewrite append_nil_r in H.
  rewrite (skipWhitespace_plain a w E) in H. discriminate.
Qed.

Lemma dropName_split (s : string) :
  exists name, allChars isNameChar name = true /\ s = (name ++ dropName s)%string.
Proof.
  induction s as [|c s (name & Hn & E)]; [exists ""; split; reflexivity|].
  simpl. destruct (isNameChar c) eqn:Ec.
  - exists (String c name). split; [simpl; now rewrite Ec|]. simpl. now rewrite <- E.
  - exists "". split; reflexivity.
Qed.

Lemma afterClose_split (s rest : string) :
  afterClose s = Some rest -> s = ("}}" ++ rest)%string.
Proof.
  destruct s as [|c [|d r]]; try discriminate. simpl.
  destruct (c =? "}")%char eqn:Ec; [|discriminate].
  destruct (d =? "}")%char eqn:Ed; [|discriminate].
  apply Ascii.eqb_eq in Ec, Ed. subst. intros H. now injection H as ->.
Qed.

(** What the pattern of a placeholder matches: the braces around a name,
    white space allowed on both sides of it. *)
Lemma placeholderAt_shape (s : string) (len : nat) :
  placeholderAt s = Some len ->
  exists w1 name w2 rest,
    Blank w1 /\ Blank w2 /\ isName name = true
    /\ s = ("{{" ++ w1 ++ name ++ w2 ++ "}}" ++ rest)%string
    /\ len = String.length ("{{" ++ w1 ++ name ++ w2 ++ "}}").
Proof.
  destruct s as [|a [|b r0]]; try discriminate. unfold placeholderAt.
  destruct (a =? "{")%char eqn:Ea; [|discriminate].
  destruct (b =? "{")%char eqn:Eb; [|discriminate].
  apply Ascii.eqb_eq in Ea, Eb. subst a b. cbn [andb].
  destruct (skipWhitespace_split r0) as (w1 & Hw1 & E1).
  destruct (dropName_split (skipWhitespace r0)) as (name & Hname & E2).
  destruct (skipWhitespace_split (dropName (skipWhitespace r0))) as (w2 & Hw2 & E3).
  destruct (String.length (dropName (skipWhitespace r0)) <? String.length (skipWhitespace r0))%nat
    eqn:Elen; [|discriminate].
  destruct (afterClose (skipWhitespace (dropName (skipWhitespace r0)))) as [r3|] eqn:Ec;
    [|discriminate].
  apply afterClose_split in Ec. intros H. injection H as <-.
  assert (Es : r0 = (w1 ++ name ++ w2 ++ "}}" ++ r3)%string).
  { rewrite E1 at 1. rewrite E2 at 1. rewrite E3 at 1. now rewrite Ec. }
  exists w1, name, w2, r3. split; [exact Hw1|]. split; [exact Hw2|]. split; [|split].
  - unfold isName. rewrite Hname, andb_true_r.
    destruct name; [|reflexivity].
    apply Nat.ltb_lt in Elen. rewrite E2 in Elen at 2. simpl in Elen. lia.
  - now rewrite Es.
  - rewrite Es. cbn [String.length append]. rewrite !length_append.
    cbn [String.length append]. destruct (String.length r3) as [|[|l0]]; lia.
Qed.

Lemma substring_prefix (a b : string) : substring 0 (String.length a) (a ++ b) = a.
Proof.
  induction a as [|c a IH]; simpl; [now destruct b|]. now rewrite IH.
Qed.

Lemma removeAll_pass (pattern : string -> option nat) (p rest : string) :
  removeAll pattern (String.length p) (p ++ rest) = removeAll pattern 0 rest.
Proof.
  induction p as [|c p IH]; simpl; [now destruct rest | exact IH].
Qed.

Lemma delimiterAt_name (c : ascii) (rest : string) :
  isNameChar c = true -> delimiterAt (String c rest) = None.
Proof.
  intros Hc. destruct (isNameChar_not_brace c Hc) as [Ho Hcl].
  unfold delimiterAt. destruct rest as [|b r0]; [reflexivity|].
  rewrite Ho. cbn [andb].
  rewrite (skipWhitespace_plain c _ (isNameChar_plain c Hc)).
  unfold afterClose. now rewrite Hcl.
Qed.

Lemma removeAll_name (name rest : string) :
  allChars isNameChar name = true ->
  removeAll delimiterAt 0 (name ++ rest) = (name ++ removeAll delimiterAt 0 rest)%string.
Proof.
  induction name as [|c name IH]; [reflexivity|].
  simpl allChars. rewrite andb_true_iff. intros [Hc Hn].
  cbn [append removeAll]. rewrite (delimiterAt_name c _ Hc). f_equal. now apply IH.
Qed.

Lemma removeAll_all (pattern : string -> option nat) (s : string) :
  forall n, (String.length s <= n)%nat -> removeAll pattern n s = "".
Proof.
  induction s as [|c s IH]; intros n Hn; [reflexivity|].
  simpl in Hn. destruct n as [|n]; [lia|]. simpl. apply IH. lia.
Qed.

Lemma removeAll_close (w : string) :
  Blank w -> removeAll delimiterAt 0 (w ++ "}}") = "".
Proof.
  intros Hw. destruct w as [|a w]; [reflexivity|].
  pose proof (Blank_head a w Hw) as Ha.
  assert (Ho : (a =? "{")%char = false).
  { destruct (a =? "{")%char eqn:E; [|reflexivity].
    apply Ascii.eqb_eq in E. subst a. discriminate. }
  assert (E : delimiterAt (String a w ++ "}}")
              = Some (String.length (String a w ++ "}}"))).
  { unfold delimiterAt. cbn [append].
    destruct (w ++ "}}")%string as [|b r0] eqn:Ew; [destruct w; discriminate|].
    rewrite Ho. cbn [andb]. rewrite <- Ew.
    change (String a (w ++ "}}")) with (String a w ++ "}}")%string.
    rewrite (Hw "}}").
    change (afterClose (skipWhitespace "}}")) with (Some "").
    cbv beta iota. change (String.length "") with 0%nat. now rewrite Nat.sub_0_r. }
  cbn [removeAll append] in *. rewrite E. apply removeAll_all.
  cbn [String.length]. lia.
Qed.

(** Taking the delimiters off a match leaves the name. *)
Lemma removeAll_placeholder (w1 name w2 : string) :
  Blank w1 -> Blank w2 -> isName name = true ->
  removeAll delimiterAt 0 ("{{" ++ w1 ++ name ++ w2 ++ "}}") = name.
Proof.
  intros Hw1 Hw2 Hname. unfold isName in Hname.
  apply andb_true_iff in Hname as [Hne Hchars].
  destruct name as [|c name]; [discriminate|].
  assert (Hc : isNameChar c = true) by (simpl in Hchars; now apply andb_true_iff in Hchars).
  assert (E : delimiterAt ("{{" ++ w1 ++ String c name ++ w2 ++ "}}")
              = Some (2 + String.length w1)).
  { unfold delimiterAt. cbn [append Ascii.eqb Bool.eqb andb].
    rewrite (Hw1 _), (skipWhitespace_plain c _ (isNameChar_plain c Hc)).
    repeat first [rewrite length_append | progress cbn [String.length]].
    f_equal. lia. }
  cbn [removeAll append] in *. rewrite E. cbn [Nat.add Nat.sub].
  replace (String.length w1 - 0) with (String.length w1) by lia.
  change (String "{" (w1 ++ String c (name ++ w2 ++ "}}")))
    with (("{" ++ w1) ++ (String c name ++ w2 ++ "}}"))%string.
  change (S (String.length w1)) with (String.length ("{" ++ w1)).
  rewrite removeAll_pass.
  change (String c (name ++ w2 ++ "}}")) with (String c name ++ (w2 ++ "}}"))%string.
  rewrite (removeAll_name _ _ Hchars), (removeAll_close w2 Hw2).
  apply append_nil_r.
Qed.

Lemma matchAll_In (pattern : string -> option nat) (s : string) :
  forall skip m, In m (matchAll pattern skip s) ->
                 exists suffix len, pattern suffix = Some len /\ m = substring 0 len suffix.
Proof.
  induction s as [|c s IH]; intros skip m; simpl; [tauto|].
  destruct skip as [|n]; [|apply IH].
  destruct (pattern (String c s)) as [len|] eqn:E; [|apply IH].
  intros [<- | H]; [eauto | now apply IH in H].
Qed.

Lemma Set_of_NoDup (xs : list string) : forall seen, NoDup (Set_of seen xs).
Proof.
  induction xs as [|x xs IH]; intros seen; simpl; [constructor|].
  destruct (existsb (String.eqb x) seen); [apply IH|].
  constructor; [|apply IH]. rewrite Set_of_In. simpl. tauto.
Qed.

(** X19.  What [extractPlaceholders] returns: names only, each of them a
    non-empty run of word characters and dots with the braces and the white
    space around it taken off, and no name twice. *)
Theorem extractPlaceholders_names (text : string) :
  NoDup (extractPlaceholders text)
  /\ forall name, In name (extractPlaceholders text) -> isName name = true.
Proof.
  split; [apply Set_of_NoDup|].
  intros name H. unfold extractPlaceholders in H.
  apply new_Set_In, in_map_iff in H as (m & <- & Hm).
  apply matchAll_In in Hm as (suffix & len & Hp & ->).
  destruct (placeholderAt_shape suffix len Hp)
    as (w1 & nm & w2 & rest & Hw1 & Hw2 & Hn & -> & ->).
  replace ("{{" ++ w1 ++ nm ++ w2 ++ "}}" ++ rest)%string
    with (("{{" ++ w1 ++ nm ++ w2 ++ "}}") ++ rest)%string
    by (cbn [append]; now rewrite !append_assoc).
  rewrite substring_prefix, removeAll_placeholder; assumption.
Qed.

Lemma placeholderAt_other (c : ascii) (rest : string) :
  (c =? "{")%char = false -> placeholderAt (String c rest) = None.
Proof. intros H. unfold placeholderAt. destruct rest; [reflexivity|]. now rewrite H. Qed.

Lemma matchAll_separator (separator rest : string) :
  noOpening separator = true ->
  matchAll placeholderAt 0 (separator ++ rest) = matchAll placeholderAt 0 rest.
Proof.
  induction separator as [|c s IH]; [reflexivity|].
  unfold noOpening. simpl allChars. rewrite andb_true_iff, negb_true_iff. intros [Hc Hs].
  cbn [append matchAll]. rewrite (placeholderAt_other c _ Hc). now apply IH.
Qed.

Lemma matchAll_nothing (s : string) :
  noOpening s = true -> matchAll placeholderAt 0 s = [].
Proof.
  intros H. rewrite <- (append_nil_r s). now rewrite matchAll_separator.
Qed.

Lemma matchAll_pass (pattern : string -> option nat) (p rest : string) :
  matchAll pattern (String.length p) (p ++ rest) = matchAll pattern 0 rest.
Proof.
  induction p as [|c p IH]; simpl; [now destruct rest | exact IH].
Qed.

Lemma dropName_name (name rest : string) :
  allChars isNameChar name = true -> dropName (name ++ rest) = dropName rest.
Proof.
  induction name as [|c name IH]; [reflexivity|].
  simpl. rewrite andb_true_iff. intros [-> Hn]. now apply IH.
Qed.

Lemma placeholderAt_tag (name rest : string) :
  isName name = true ->
  placeholderAt ("{{" ++ name ++ "}}" ++ rest) = Some (String.length ("{{" ++ name ++ "}}")).
Proof.
  unfold isName. rewrite andb_true_iff. intros [Hne Hchars].
  destruct name as [|c name]; [discriminate|].
  assert (Hc : isNameChar c = true) by (simpl in Hchars; now apply andb_true_iff in Hchars).
  unfold placeholderAt. cbn [append Ascii.eqb Bool.eqb andb].
  rewrite (skipWhitespace_plain c _ (isNameChar_plain c Hc)).
  replace (String c (name ++ String "}" (String "}" rest)))
    with (String c name ++ String "}" (String "}" rest))%string by reflexivity.
  rewrite (dropName_name _ _ Hchars).
  change (dropName (String "}" (String "}" rest))) with (String "}" (String "}" rest)).
  rewrite (skipWhitespace_plain "}" _ eq_refl).
  rewrite length_append. cbn [String.length afterClose Ascii.eqb Bool.eqb andb].
  replace (S (S (String.length rest)) <? S (String.length name) + S (S (String.length rest)))%nat
    with true by (symmetry; apply Nat.ltb_lt; lia).
  f_equal. rewrite !length_append. cbn [String.length]. lia.
Qed.

Lemma matchAll_hit (pattern : string -> option nat) (p rest : string) :
  p <> "" -> pattern (p ++ rest)%string = Some (String.length p) ->
  matchAll pattern 0 (p ++ rest) = p :: matchAll pattern 0 rest.
Proof.
  intros Hp E. destruct p as [|c p]; [contradiction|].
  change (String c p ++ rest)%string with (String c (p ++ rest)) in *.
  cbn [matchAll]. rewrite E. f_equal.
  - change (String c (p ++ rest)) with (String c p ++ rest)%string.
    apply substring_prefix.
  - cbn [String.length]. replace (S (String.length p) - 1) with (String.length p) by lia.
    apply matchAll_pass.
Qed.

Lemma matchAll_tagged (parts : list (string * string)) (tail : string) :
  forallb (fun p => noOpening (fst p) && isName (snd p)) parts = true ->
  noOpening tail = true ->
  matchAll placeholderAt 0 (tagged parts tail)
  = map (fun p => ("{{" ++ snd p ++ "}}")%string) parts.
Proof.
  intros Hparts Htail. induction parts as [|[separator name] parts IH].
  - now apply matchAll_nothing.
  - simpl in Hparts. rewrite !andb_true_iff in Hparts. destruct Hparts as [[Hs Hn] Hrest].
    cbn [tagged map snd]. rewrite (matchAll_separator _ _ Hs).
    pose proof (placeholderAt_tag name (tagged parts tail) Hn) as E.
    replace ("{{" ++ name ++ "}}" ++ tagged parts tail)%string
      with (("{{" ++ name ++ "}}") ++ tagged parts tail)%string in *
      by (cbn [append]; now rewrite append_assoc).
    rewrite (matchAll_hit placeholderAt ("{{" ++ name ++ "}}") (tagged parts tail)
               ltac:(discriminate) E).
    f_equal. now apply IH.
Qed.

Lemma removeAll_tag (name : string) :
  isName name = true -> removeAll delimiterAt 0 ("{{" ++ name ++ "}}") = name.
Proof.
  intros H. exact (removeAll_placeholder "" name "" Blank_nil Blank_nil H).
Qed.

(** X20.  Discovery finds the tags a text was written with: in a text made
    of separators free of opening braces and of tags [{{name}}], the
    placeholders extracted are the names, in order of first occurrence,
    each once. *)
Theorem extractPlaceholders_tagged (parts : list (string * string)) (tail : string)
  (Hparts : forallb (fun p => noOpening (fst p) && isName (snd p)) parts = true)
  (Htail : noOpening tail = true) :
  extractPlaceholders (tagged parts tail) = new_Set (map snd parts).
Proof.
  unfold extractPlaceholders. rewrite (matchAll_tagged parts tail Hparts Htail).
  f_equal. rewrite map_map.
  induction parts as [|[separator name] parts IH]; [reflexivity|].
  simpl in Hparts. rewrite !andb_true_iff in Hparts. destruct Hparts as [[Hs Hn] Hrest].
  cbn [map snd]. rewrite (removeAll_tag name Hn). f_equal. now apply IH.
Qed.

Lemma extractPlaceholders_tagged_witness :
  extractPlaceholders "Hello {{name}} and {{client.name}} and {{name}}!"
  = ["name"; "client.name"].
Proof.
  exact (extractPlaceholders_tagged
           [("Hello ", "name"); (" and ", "client.name"); (" and ", "name")] "!"
           eq_refl eq_refl).
Defined.

Lemma dropDigits_digits (d rest : string) :
  allChars isDigit d = true -> dropDigits (d ++ "-" ++ rest) = ("-" ++ rest)%string.
Proof.
  induction d as [|c d IH]; [reflexivity|].
  simpl. rewrite andb_true_iff. intros [-> Hd]. now apply IH.
Qed.

Lemma string_of_Z_digits (z : Z) :
  (0 <= z)%Z -> string_of_Z z <> "" /\ allChars isDigit (string_of_Z z) = true.
Proof.
  destruct z as [|p|p]; intros H; [split; [discriminate | reflexivity] | | lia].
  simpl. split; [|apply string_of_uint_digits].
  pose proof (Unsigned.to_uint_nonnil p) as Hn.
  destruct (Pos.to_uint p); [contradiction | discriminate..].
Qed.

(** X21.  The download name undoes the stamp of the upload: a stored name
    made of the digits of a non-negative [Date.now()], a hyphen and a base
    name gives back the base name, whatever it is; a name that does not
    start with a digit is left as it is. *)
Theorem downloadNameFor_stamped (now : Z) (baseName : string) (Hnow : (0 <= now)%Z) :
  downloadNameFor (string_of_Z now ++ "-" ++ baseName) = baseName
  /\ (forall c rest, isDigit c = false -> downloadNameFor (String c rest) = String c rest).
Proof.
  split.
  - destruct (string_of_Z_digits now Hnow) as [Hne Hd].
    destruct (string_of_Z now) as [|c d] eqn:E; [contradiction|].
    unfold downloadNameFor. cbn [append].
    assert (Hc : isDigit c = true) by (simpl in Hd; now apply andb_true_iff in Hd).
    rewrite Hc.
    change (String c (d ++ String "-" baseName)) with (String c d ++ "-" ++ baseName)%string.
    rewrite (dropDigits_digits _ _ Hd). reflexivity.
  - intros c rest Hc. unfold downloadNameFor. now rewrite Hc.
Qed.

Lemma downloadNameFor_stamped_witness :
  downloadNameFor "1712345678901-sample.html" = "sample.html".
Proof.
  destruct (downloadNameFor_stamped 1712345678901 "sample.html") as [E _];
    [lia | exact E].
Defined.

(* ================================================================== *)
(** ** The HTTP layer *)

Lemma serve_webThen {A B} (m : Web A) (f : A -> Web B) (w : World) :
  forall h,
    serve w (webThen m f) h =
    let (a, t1) := serve w m h in
    let (b, t2) := serve w (f a) (h ++ t1) in
    (b, t1 ++ t2).
Proof.
  induction m as [a | c k IH]; intros h; simpl.
  - rewrite app_nil_r. now destruct (serve w (f a) h).
  - rewrite IH. destruct (serve w (k (w h c)) (h ++ [webEvent c (w h c)])) as [a t1].
    rewrite <- app_assoc. simpl.
    now destruct (serve w (f a) (h ++ webEvent c (w h c) :: t1)).
Qed.

Lemma serve_webBind {A B} (m : Handler A) (f : A -> Handler B) (w : World) (h : WebTrace) :
  serve w (webBind m f) h =
  let (r, t1) := serve w m h in
  match r with
  | inl e => (inl e, t1)
  | inr a => let (b, t2) := serve w (f a) (h ++ t1) in (b, t1 ++ t2)
  end.
Proof.
  unfold webBind. rewrite serve_webThen.
  destruct (serve w m h) as [[e | a] t1]; simpl; [now rewrite app_nil_r | reflexivity].
Qed.

Lemma serve_webTry {R} (m : Handler R) (handler : JsErr -> Handler R) (w : World)
  (h : WebTrace) :
  serve w (webTry m handler) h =
  let (r, t1) := serve w m h in
  match r with
  | inl e => let (b, t2) := serve w (handler e) (h ++ t1) in (b, t1 ++ t2)
  | inr v => (inr v, t1)
  end.
Proof.
  unfold webTry. rewrite serve_webThen.
  destruct (serve w m h) as [[e | v] t1]; simpl; [reflexivity | now rewrite app_nil_r].
Qed.

(** Inside a handler the engine runs as it does on its own, against the
    oracle the world makes after the history so far. *)
Lemma serve_lift_after {R} (m : Prog R) (w : World) (h : WebTrace) :
  forall t,
    serve w (lift m) (h ++ map inject t) =
    let (r, t') := run (engineOracle w h) m t in (r, map inject t').
Proof.
  induction m as [r | c k IH]; intros t; [reflexivity|].
  cbn [lift serve run].
  change (engineOracle w h t c) with (w (h ++ map inject t) (Core c)).
  set (x := w (h ++ map inject t) (Core c)).
  replace ((h ++ map inject t) ++ [webEvent (Core c) x])
    with (h ++ map inject (t ++ [event c x]))
    by (now rewrite map_app, app_assoc).
  rewrite IH.
  now destruct (run (engineOracle w h) (k x) (t ++ [event c x])).
Qed.

Lemma serve_lift {R} (m : Prog R) (w : World) (h : WebTrace) :
  serve w (lift m) h =
  let (r, t) := run (engineOracle w h) m [] in (r, map inject t).
Proof.
  pose proof (serve_lift_after m w h []) as H. simpl in H. now rewrite app_nil_r in H.
Qed.

Lemma quiet_webThen {A R} (bad : WebCall -> bool) (m : Web A) (f : A -> Web R) :
  quiet bad m -> (forall a, quiet bad (f a)) -> quiet bad (webThen m f).
Proof.
  intros Hm Hf. induction Hm as [a | c k Hc _ IH]; simpl; [apply Hf|].
  now constructor.
Qed.

Lemma quiet_webBind {A R} (bad : WebCall -> bool) (m : Handler A) (f : A -> Handler R) :
  quiet bad m -> (forall a, quiet bad (f a)) -> quiet bad (webBind m f).
Proof.
  intros Hm Hf. apply quiet_webThen; [exact Hm|].
  intros [e | a]; [constructor | apply Hf].
Qed.

Lemma quiet_webTry {R} (bad : WebCall -> bool) (m : Handler R) (handler : JsErr -> Handler R) :
  quiet bad m -> (forall e, quiet bad (handler e)) -> quiet bad (webTry m handler).
Proof.
  intros Hm Hf. apply quiet_webThen; [exact Hm|].
  intros [e | a]; [apply Hf | constructor].
Qed.

Lemma quiet_lift {R} (bad : WebCall -> bool) (m : Prog R) :
  (forall c, bad (Core c) = false) -> quiet bad (lift m).
Proof. intros Hbad. induction m as [r | c k IH]; simpl; now constructor. Qed.

Lemma quiet_serve {R} (bad : WebCall -> bool) (m : Web R) (w : World) :
  quiet bad m ->
  forall h, Forall (fun ev => bad (projT1 ev) = false) (snd (serve w m h)).
Proof.
  intros Hm. induction Hm as [r | c k Hc _ IH]; intros h; simpl; [constructor|].
  specialize (IH (w h c) (h ++ [webEvent c (w h c)])).
  destruct (serve w (k (w h c)) (h ++ [webEvent c (w h c)])) as [r t]. simpl in *.
  now constructor.
Qed.

Lemma quiet_webCall {T} (bad : WebCall -> bool) (c : WebCall)
  (cast : webReply c -> ExtErr + T) :
  bad c = false -> quiet bad (webCall c cast).
Proof. intros Hc. unfold webCall. constructor; [exact Hc | intros x; constructor]. Qed.

Lemma quiet_webAsk (bad : WebCall -> bool) (c : WebCall) :
  bad c = false -> quiet bad (webAsk c).
Proof. intros Hc. unfold webAsk. constructor; [exact Hc | intros x; constructor]. Qed.

Lemma answers_respond (throws : bool) (status : nat) (body : Body) :
  answers throws (respond status body).
Proof. now apply answers_now. Qed.

Lemma answers_webThen {A} (throws : bool) (m : Web A) (f : A -> Handler unit) :
  quiet isAnswer m -> (forall a, answers throws (f a)) -> answers throws (webThen m f).
Proof.
  intros Hm Hf. induction Hm as [a | c k Hc _ IH]; simpl; [apply Hf|].
  now apply answers_Step.
Qed.

Lemma answers_webBind {A} (m : Handler A) (f : A -> Handler unit) :
  quiet isAnswer m -> (forall a, answers true (f a)) -> answers true (webBind m f).
Proof.
  intros Hm Hf. apply answers_webThen; [exact Hm|].
  intros [e | a]; [now apply answers_throw | apply Hf].
Qed.

Lemma answers_weaken (m : Handler unit) : answers false m -> answers true m.
Proof.
  induction 1 as [c k Hc Hk | e He | c k Hc _ IH];
    [now apply answers_now | discriminate | now apply answers_Step].
Qed.

Lemma silent_app (t1 t2 : WebTrace) : silent t1 -> silent t2 -> silent (t1 ++ t2).
Proof. intros H1 H2. apply Forall_app. now split. Qed.

Lemma answeredOnce_app (t1 t2 : WebTrace) :
  silent t1 -> answeredOnce t2 -> answeredOnce (t1 ++ t2).
Proof.
  intros H1 (before & last & -> & Hb & Hl).
  exists (t1 ++ before), last. rewrite app_assoc.
  repeat split; [now apply silent_app | exact Hl].
Qed.

Lemma answeredOnce_cons (ev : WebEvent) (t : WebTrace) :
  isAnswer (projT1 ev) = false -> answeredOnce t -> answeredOnce (ev :: t).
Proof.
  intros Hev Ht. apply (answeredOnce_app [ev] t); [|exact Ht].
  constructor; [exact Hev | constructor].
Qed.

Lemma answeredOnce_single (ev : WebEvent) :
  isAnswer (projT1 ev) = true -> answeredOnce [ev].
Proof. intros Hev. exists [], ev. repeat split; [constructor | exact Hev]. Qed.

(** What a run of an answering program looks like. *)
Lemma serve_answers (throws : bool) (m : Handler unit) (w : World) :
  answers throws m ->
  forall h,
    match serve w m h with
    | (inr _, t) => answeredOnce t
    | (inl _, t) => throws = true /\ silent t
    end.
Proof.
  induction 1 as [c k Hc Hk | e He | c k Hc _ IH]; intros h; simpl.
  - rewrite Hk. simpl. now apply answeredOnce_single.
  - split; [exact He | constructor].
  - specialize (IH (w h c) (h ++ [webEvent c (w h c)])).
    destruct (serve w (k (w h c)) (h ++ [webEvent c (w h c)])) as [[e | u] t].
    + destruct IH as [Ht Hs]. split; [exact Ht | now constructor].
    + now apply answeredOnce_cons.
Qed.

(** A handler whose body answers or throws, and whose [catch] answers. *)
Lemma serve_webTry_answers (m : Handler unit) (handler : JsErr -> Handler unit)
  (w : World) (h : WebTrace) :
  answers true m -> (forall e, answers false (handler e)) ->
  exists t, serve w (webTry m handler) h = (inr tt, t) /\ answeredOnce t.
Proof.
  intros Hm Hh. rewrite serve_webTry.
  pose proof (serve_answers true m w Hm h) as H1.
  destruct (serve w m h) as [[e | []] t1].
  - destruct H1 as [_ Hs].
    pose proof (serve_answers false (handler e) w (Hh e) (h ++ t1)) as H2.
    destruct (serve w (handler e) (h ++ t1)) as [[e2 | []] t2].
    + destruct H2 as [H2 _]. discriminate.
    + eexists. split; [reflexivity | now apply answeredOnce_app].
  - eexists. split; [reflexivity | exact H1].
Qed.

(* ------------------------------------------------------------------ *)
(** ** Every request is answered once *)

Ltac hush :=
  repeat first
    [ apply quiet_Done
    | apply quiet_webBind
    | apply quiet_webThen
    | apply quiet_webTry
    | apply quiet_lift; reflexivity
    | apply quiet_webCall; reflexivity
    | match goal with
      | |- quiet ?bad (webAsk ?c) => exact (quiet_webAsk bad c eq_refl)
      end
    | intro ].

Section Handlers.
Variable parse5 : string -> AstNode.
Variable J : Jsdom.
Variable P : NodePath.
Variable path_extname : string -> string.
Variable hmacSha256 : string -> string.
Variable fromHex : string -> string.

Lemma extractTextFromBuffer_quiet (bad : WebCall -> bool) (bytes mimeType : string) :
  bad (MammothExtractRawText bytes) = false ->
  quiet bad (extractTextFromBuffer J bytes mimeType).
Proof.
  intros Hbad. unfold extractTextFromBuffer.
  destruct (mimeType =? DOCX_MIME); [now apply quiet_webCall|].
  destruct (mimeType =? "text/html"); [|constructor].
  destruct (bodyOf (parse J bytes)); constructor.
Qed.

Lemma storeUpload_answers (file : Upload) (fileType : FileType) :
  answers true (storeUpload J P file fileType).
Proof.
  unfold storeUpload, storeTemplateAndFields.
  apply answers_webThen; [hush|]. intros now.
  apply answers_webBind; [hush|]. intros _.
  apply answers_webBind; [now apply extractTextFromBuffer_quiet|]. intros text.
  apply answers_webBind; [hush|]. intros saved.
  apply answers_respond.
Qed.

Lemma docxGate_answers (file : Upload) (fileType : FileType) :
  answers true (docxGate J P file fileType).
Proof.
  unfold docxGate. destruct (ext fileType =? "docx"); [|apply storeUpload_answers].
  apply answers_webBind; [hush|]. intros lint.
  apply answers_webThen; [hush|]. intros [e | n]; [now apply answers_throw|].
  destruct (truthy n); [apply answers_respond | apply storeUpload_answers].
Qed.

Lemma htmlGate_answers (file : Upload) (fileType : FileType) :
  answers true (htmlGate parse5 J P file fileType).
Proof.
  unfold htmlGate.
  destruct ((ext fileType =? "html") || (mime fileType =? "text/html"));
    [|apply docxGate_answers].
  cbv zeta. apply answers_webThen.
  - destruct (warnings _); hush.
  - intros _. destruct (errors _); [apply docxGate_answers | apply answers_respond].
Qed.

Lemma mergeFailure_answers (label : string) (err : JsErr) :
  answers false (mergeFailure label err).
Proof.
  unfold mergeFailure. destruct (isParseFailure err); [apply answers_respond|].
  apply answers_webThen; [hush|]. intros _. apply answers_respond.
Qed.

Lemma mergeRows_quiet (bad : WebCall -> bool) (templateId outputType : string)
  (rows : list JsVal) :
  (forall c, bad (Core c) = false) ->
  forall jobs, quiet bad (mergeRows J P templateId outputType rows jobs).
Proof.
  intros Hbad. induction rows as [|row rest IH]; intros jobs; cbn [mergeRows]; [constructor|].
  apply quiet_webBind; [now apply quiet_lift | intros job; apply IH].
Qed.

(** What reading the rows leaves behind: rows and no answer, or no rows
    and the answer. *)
Lemma readRows_outcome (w : World) (h : WebTrace) (req : WebhookRequest) :
  exists t,
    (exists rows, serve w (readRows req) h = (inr (Some rows), t) /\ silent t
                  /\ Forall (fun ev => match projT1 ev with Core _ => False | _ => True end) t)
    \/ (serve w (readRows req) h = (inr None, t) /\ answeredOnce t
        /\ Forall (fun ev => match projT1 ev with Core _ => False | _ => True end) t).
Proof.
  unfold readRows. rewrite serve_webTry.
  destruct (includes "text/csv" _).
  - cbn. destruct (w h (CsvParse (rawBody req))) as [x | rows]; cbn.
    + eexists. right. repeat split.
      * apply answeredOnce_cons; [reflexivity|]. now apply answeredOnce_single.
      * repeat constructor.
    + eexists. left. exists rows. repeat split; repeat constructor.
  - destruct (includes "application/json" _).
    + cbn. destruct (w h (JsonParse (rawBody req))) as [x | json]; cbn.
      * eexists. right. repeat split.
        -- apply answeredOnce_cons; [reflexivity|]. now apply answeredOnce_single.
        -- repeat constructor.
      * eexists. left. eexists. repeat split; repeat constructor.
    + cbn. eexists. right. repeat split.
      * now apply answeredOnce_single.
      * repeat constructor.
Qed.

(** X22.  Each of the four handlers (the upload route, the manual merge,
    the webhook and the signature check before it) ends every request the
    same way, whatever its collaborators reply or throw: it returns without
    an exception of its own, and it has answered exactly once, by a
    response or, for the signature check, by handing the request on; that
    answer is the last call it makes. *)
Theorem handlers_answer_once (w : World) (h : WebTrace) :
  (forall file, exists t,
      serve w (uploadHandler parse5 J P path_extname file) h = (inr tt, t)
      /\ answeredOnce t)
  /\ (forall req, exists t,
         serve w (manualMerge J P req) h = (inr tt, t) /\ answeredOnce t)
  /\ (forall req, exists t,
         serve w (webhookMerge J P req) h = (inr tt, t) /\ answeredOnce t)
  /\ (forall req, exists t,
         serve w (verifyHmac hmacSha256 fromHex req) h = (inr tt, t) /\ answeredOnce t).
Proof.
  repeat split.
  - intros file. unfold uploadHandler. apply serve_webTry_answers.
    + destruct file as [file|]; [|apply answers_respond].
      apply answers_webBind; [hush|]. intros detected.
      destruct (match detected with Some t => Some t | None => fallbackType path_extname file end)
        as [t|]; [|apply answers_respond].
      destruct (negb _); [apply answers_respond | apply htmlGate_answers].
    + intros e. apply answers_webThen; [hush|]. intros _. apply answers_respond.
  - intros req. unfold manualMerge. apply serve_webTry_answers.
    + apply answers_webThen; [hush|]. intros _.
      apply answers_webBind; [hush|]. intros result. apply answers_respond.
    + apply mergeFailure_answers.
  - intros req. unfold webhookMerge. cbv zeta. rewrite serve_webBind.
    destruct (readRows_outcome w h req) as (t & [(rows & -> & Hs & _) | (-> & Ha & _)]).
    + destruct (1000 <? List.length rows)%nat.
      * cbn. eexists. split; [reflexivity|].
        apply answeredOnce_app; [exact Hs | now apply answeredOnce_single].
      * match goal with
        | |- context [serve w (webTry ?m ?handler) ?hh] =>
            destruct (serve_webTry_answers m handler w hh) as (t2 & E & Ha)
        end.
        -- apply answers_webBind; [now apply mergeRows_quiet|].
           intros jobs. apply answers_respond.
        -- apply mergeFailure_answers.
        -- rewrite E. eexists. split; [reflexivity | now apply answeredOnce_app].
    + cbn. rewrite app_nil_r. eexists. split; [reflexivity | exact Ha].
  - intros req. unfold verifyHmac. cbv zeta.
    destruct (trim _ =? ""); [|destruct (signedBody req) as [raw|];
                               [destruct (negb _ || negb _)|]];
      cbn; eexists; (split; [reflexivity | now apply answeredOnce_single]).
Qed.


(* ------------------------------------------------------------------ *)
(** ** The upload route *)

Ltac told :=
  repeat match goal with
         | |- context [webEvent ?c (?w ?h ?c)] =>
             lazymatch c with
             | Respond _ _ => destruct (w h c)
             | ConsoleLog _ _ => destruct (w h c)
             | ConsoleError _ _ => destruct (w h c)
             | Next => destruct (w h c)
             | Core (ConsoleWarn _ _) => destruct (w h c)
             end
         end.

(** X23.  An upload is refused with 415, and nothing but the detection has
    been called, when the type detected from its content is not one of the
    two allowed ones, whatever its name says; and, when nothing was
    detected, when its extension is none of [.docx], [.html], [.htm] in any
    letter case, or is [.docx] on bytes that do not start with the ZIP
    signature. *)
Theorem uploadHandler_refuses_type (w : World) (h : WebTrace) (file : Upload)
  (detected : option FileType)
  (Hdetect : w h (FileTypeFromBuffer (buffer file)) = inr detected)
  (Hrefused :
     match detected with
     | Some t => ~ In (mime t) ALLOWED_MIME_TYPES
     | None =>
         toLowerCase (path_extname (originalname file)) <> ".html"
         /\ toLowerCase (path_extname (originalname file)) <> ".htm"
         /\ (toLowerCase (path_extname (originalname file)) = ".docx" ->
             substring 0 4 (buffer file) <> ZIP_MAGIC)
     end) :
  serve w (uploadHandler parse5 J P path_extname (Some file)) h
  = (inr tt,
     [webEvent (FileTypeFromBuffer (buffer file)) (inr detected);
      webEvent (Respond 415 (Sent "Unsupported or undetectable file type.")) tt]).
Proof.
  unfold uploadHandler. rewrite serve_webTry, serve_webBind.
  cbn [webCall serve]. rewrite Hdetect. cbn [liftExt app].
  assert (Hgate :
    match match detected with Some t => Some t | None => fallbackType path_extname file end with
    | None => True
    | Some t => negb (existsb (String.eqb (mime t)) ALLOWED_MIME_TYPES) = true
    end).
  { destruct detected as [t|].
    - apply negb_true_iff. destruct (existsb _ _) eqn:E; [|reflexivity].
      apply existsb_exists in E. destruct E as (m & Hin & Heq).
      apply String.eqb_eq in Heq. subst m. contradiction.
    - destruct Hrefused as (Hhtml & Hhtm & Hdocx). unfold fallbackType. cbv zeta.
      destruct (_ =? ".docx") eqn:E1.
      + apply String.eqb_eq in E1. specialize (Hdocx E1).
        apply String.eqb_neq in Hdocx. now rewrite Hdocx.
      + apply String.eqb_neq in Hhtml, Hhtm. now rewrite Hhtml, Hhtm. }
  destruct (match detected with Some t => Some t | None => _ end) as [t|].
  - rewrite Hgate. cbn. told. reflexivity.
  - cbn. told. reflexivity.
Qed.

(** X24.  An upload taken as HTML (by its detected or fallback type) in
    which the linter finds an error is answered 422 with the linter's
    errors as details; before that only the detection and, if there are
    warnings, their log were called: nothing is put in the object store
    and no template row is created. *)
Theorem uploadHandler_html_blocked (w : World) (h : WebTrace) (file : Upload)
  (detected : option FileType) (t : FileType)
  (Hdetect : w h (FileTypeFromBuffer (buffer file)) = inr detected)
  (Hchosen : match detected with
             | Some t' => Some t'
             | None => fallbackType path_extname file
             end = Some t)
  (Hallowed : In (mime t) ALLOWED_MIME_TYPES)
  (Hhtml : ext t = "html" \/ mime t = "text/html")
  (Hbad : errors (lintHtmlBuffer parse5 (buffer file) (mkLintOptions false false)) <> []) :
  serve w (uploadHandler parse5 J P path_extname (Some file)) h
  = (inr tt,
     webEvent (FileTypeFromBuffer (buffer file)) (inr detected)
     :: match warnings (lintHtmlBuffer parse5 (buffer file) (mkLintOptions false false)) with
        | [] => []
        | ws => [webEvent (Core (ConsoleWarn "HTML template warnings:" (VArr (map VStr ws))))
                          tt]
        end
     ++ [webEvent
           (Respond 422
              (Json (VObj [("error", VStr "Template blocked by HTML linter");
                           ("details",
                            VArr (map VStr
                                    (errors (lintHtmlBuffer parse5 (buffer file)
                                               (mkLintOptions false false)))))])))
           tt]).
Proof.
  unfold uploadHandler. rewrite serve_webTry, serve_webBind.
  cbn [webCall serve]. rewrite Hdetect. cbn [liftExt app]. rewrite Hchosen.
  assert (Hin : existsb (String.eqb (mime t)) ALLOWED_MIME_TYPES = true).
  { apply existsb_exists. exists (mime t). split; [exact Hallowed | apply String.eqb_refl]. }
  rewrite Hin. cbn [negb]. unfold htmlGate.
  assert (Hkind : (ext t =? "html") || (mime t =? "text/html") = true).
  { destruct Hhtml as [E | E]; rewrite E; [reflexivity | apply orb_true_r]. }
  rewrite Hkind. cbv zeta. rewrite serve_webThen.
  destruct (errors (lintHtmlBuffer parse5 (buffer file) (mkLintOptions false false)))
    as [|e es]; [contradiction|].
  destruct (warnings (lintHtmlBuffer parse5 (buffer file) (mkLintOptions false false)));
    cbn; told; reflexivity.
Qed.

(** X25.  An upload taken as DOCX for which the lint pass reports at least
    one diagnostic is answered 422 with the diagnostics as details; the
    calls before it are the detection and those of the lint pass: nothing
    is put in the object store and no template row is created. *)
Theorem uploadHandler_docx_blocked (w : World) (h : WebTrace) (file : Upload)
  (detected : option FileType) (t : FileType) (d : JsVal) (ds : list JsVal) (tl : Trace)
  (Hdetect : w h (FileTypeFromBuffer (buffer file)) = inr detected)
  (Hchosen : match detected with
             | Some t' => Some t'
             | None => fallbackType path_extname file
             end = Some t)
  (Hext : ext t = "docx")
  (Hmime : mime t = DOCX_MIME)
  (Hlint : run (engineOracle w (h ++ [webEvent (FileTypeFromBuffer (buffer file))
                                               (inr detected)]))
               (lintDocxBuffer (buffer file)) []
           = (inr (VArr (d :: ds)), tl)) :
  serve w (uploadHandler parse5 J P path_extname (Some file)) h
  = (inr tt,
     webEvent (FileTypeFromBuffer (buffer file)) (inr detected)
     :: map inject tl
     ++ [webEvent
           (Respond 422
              (Json (VObj [("error",
                            VStr "Template has invalid Docxtemplater delimiters/tags");
                           ("details", VArr (d :: ds))])))
           tt]).
Proof.
  unfold uploadHandler. rewrite serve_webTry, serve_webBind.
  cbn [webCall serve]. rewrite Hdetect. cbn [liftExt app]. rewrite Hchosen.
  unfold htmlGate, docxGate. rewrite Hmime, Hext.
  change (negb (existsb (String.eqb DOCX_MIME) ALLOWED_MIME_TYPES)) with false.
  change (("docx" =? "html") || (DOCX_MIME =? "text/html")) with false.
  change ("docx" =? "docx") with true. cbv iota.
  rewrite serve_webBind, serve_lift, Hlint.
  cbn. told. reflexivity.
Qed.

Lemma createFree_rows (file : Upload) (t : WebTrace) :
  createFree t -> rowAfterObject P file t.
Proof.
  intros Hfree before name fieldNames x after E. subst t.
  apply Forall_app in Hfree. destruct Hfree as [_ Hfree].
  inversion Hfree as [|? ? Hev _]. discriminate.
Qed.

Lemma rows_after_quiet (file : Upload) (pre t : WebTrace) :
  createFree pre -> rowAfterObject P file t -> rowAfterObject P file (pre ++ t).
Proof.
  intros Hpre Ht before name fieldNames x after E.
  apply app_eq_app in E. destruct E as (l & [[E1 E2] | [E1 E2]]).
  - destruct l as [|ev l].
    + simpl in E2. symmetry in E2.
      destruct (Ht [] name fieldNames x after E2) as (now & ct & _ & [] & _).
    + injection E2 as E2 _. subst ev pre.
      apply Forall_app in Hpre. destruct Hpre as [_ Hpre].
      inversion Hpre as [|? ? Hev _]. discriminate.
  - subst before. destruct (Ht l name fieldNames x after E2) as (now & ct & Hn & Hc & Hp).
    exists now, ct. repeat split; [exact Hn | apply in_or_app; now right..].
Qed.

Lemma rows_before_quiet (file : Upload) (t post : WebTrace) :
  rowAfterObject P file t -> createFree post -> rowAfterObject P file (t ++ post).
Proof.
  intros Ht Hpost before name fieldNames x after E.
  apply app_eq_app in E. destruct E as (l & [[E1 E2] | [E1 E2]]).
  - destruct l as [|ev l].
    + simpl in E2. subst post. inversion Hpost as [|? ? Hev _]. discriminate.
    + injection E2 as E2 _. subst ev.
      now apply (Ht before name fieldNames x l).
  - subst post. apply Forall_app in Hpost. destruct Hpost as [_ Hpost].
    inversion Hpost as [|? ? Hev _]. discriminate.
Qed.

Lemma createFree_inject (t : Trace) : createFree (map inject t).
Proof. induction t as [|ev t IH]; constructor; [reflexivity | exact IH]. Qed.

Lemma rows_single (file : Upload) (pre post : WebTrace) (now : Z) (contentType : string)
  (fieldNames : list string) (x : webReply (TemplateCreate
     (string_of_Z now ++ "-" ++ replaceUnsafeRuns false (path_basename P (originalname file)))
     fieldNames)) :
  createFree pre -> createFree post ->
  In (webEvent (Core DateNow) now) pre ->
  In (webEvent (S3PutObject
                  ("uploads/" ++ string_of_Z now ++ "-"
                   ++ replaceUnsafeRuns false (path_basename P (originalname file)))
                  (buffer file) contentType) (inr tt)) pre ->
  rowAfterObject P file
    (pre ++ webEvent (TemplateCreate
                        (string_of_Z now ++ "-"
                         ++ replaceUnsafeRuns false (path_basename P (originalname file)))
                        fieldNames) x :: post).
Proof.
  intros Hpre Hpost Hnow Hput before name names y after E.
  assert (Hhere : forall ev : WebEvent,
             isCreate (projT1 ev) = true ->
             forall l, createFree l -> ~ In ev l).
  { intros ev Hev l Hl Hin. unfold createFree in Hl. rewrite Forall_forall in Hl.
    specialize (Hl ev Hin). congruence. }
  apply app_eq_app in E. destruct E as (l & [[E1 E2] | [E1 E2]]).
  - destruct l as [|ev l].
    + simpl in E2. rewrite app_nil_r in E1. subst before.
      injection E2 as E2 _. subst name.
      exists now, contentType. repeat split; assumption.
    + injection E2 as E2 _. subst ev pre. exfalso.
      apply (Hhere (webEvent (TemplateCreate name names) y) eq_refl _ Hpre).
      apply in_or_app. right. now left.
  - destruct l as [|ev l].
    + simpl in E2. rewrite app_nil_r in E1. subst before.
      injection E2 as E2 _. subst name.
      exists now, contentType. repeat split; assumption.
    + injection E2 as _ E2. subst post. exfalso.
      apply (Hhere (webEvent (TemplateCreate name names) y) eq_refl _ Hpost).
      apply in_or_app. right. now left.
Qed.

Lemma storeUpload_rows (w : World) (h : WebTrace) (file : Upload) (t : FileType) :
  rowAfterObject P file (snd (serve w (storeUpload J P file t) h)).
Proof.
  unfold storeUpload, sanitize, storeTemplateAndFields, withPrefix.
  rewrite serve_webThen. cbn [webAsk serve]. set (now := w h (Core DateNow)).
  rewrite serve_webBind. cbn [webCall serve app].
  match goal with
  | |- context [liftExt (?w ?hh (S3PutObject ?k ?b ?c))] =>
      destruct (w hh (S3PutObject k b c)) as [x | []] eqn:Eput
  end; cbn [liftExt].
  - apply createFree_rows. repeat constructor.
  - rewrite serve_webBind.
    match goal with
    | |- context [serve w (extractTextFromBuffer ?j ?b ?m) ?hh] =>
        pose proof (quiet_serve isCreate (extractTextFromBuffer j b m) w
                      (extractTextFromBuffer_quiet isCreate b m eq_refl) hh) as Hquiet;
        destruct (serve w (extractTextFromBuffer j b m) hh) as [[e | text] t1]
    end; simpl in Hquiet.
    + apply createFree_rows. simpl. repeat constructor. exact Hquiet.
    + rewrite serve_webBind. cbn [webCall serve app].
      match goal with
      | |- context [liftExt (?w ?hh (TemplateCreate ?n ?f))] =>
          destruct (w hh (TemplateCreate n f)) as [x | saved] eqn:Ecreate
      end; cbn [liftExt respond serve app snd].
      * apply (rows_single file (_ :: _ :: t1) [] now (mime t)).
        -- repeat constructor. exact Hquiet.
        -- constructor.
        -- now left.
        -- right. now left.
      * apply (rows_single file (_ :: _ :: t1) [_] now (mime t)).
        -- repeat constructor. exact Hquiet.
        -- repeat constructor.
        -- now left.
        -- right. now left.
Qed.

Lemma docxGate_rows (w : World) (h : WebTrace) (file : Upload) (t : FileType) :
  rowAfterObject P file (snd (serve w (docxGate J P file t) h)).
Proof.
  unfold docxGate. destruct (ext t =? "docx"); [|apply storeUpload_rows].
  rewrite serve_webBind, serve_lift.
  destruct (run (engineOracle w h) (lintDocxBuffer (buffer file)) []) as [[e | lint] tl].
  - apply createFree_rows, createFree_inject.
  - rewrite serve_webThen. cbn [serve app].
    destruct (lengthOf lint) as [e | n].
    + cbn. apply createFree_rows. rewrite app_nil_r. apply createFree_inject.
    + destruct (truthy n).
      * cbn. apply createFree_rows. apply Forall_app. split; [apply createFree_inject|].
        repeat constructor.
      * rewrite app_nil_r.
        pose proof (storeUpload_rows w (h ++ map inject tl) file t) as Hs.
        destruct (serve w (storeUpload J P file t) (h ++ map inject tl)) as [r ts].
        apply rows_after_quiet; [apply createFree_inject | exact Hs].
Qed.

Lemma htmlGate_rows (w : World) (h : WebTrace) (file : Upload) (t : FileType) :
  rowAfterObject P file (snd (serve w (htmlGate parse5 J P file t) h)).
Proof.
  unfold htmlGate.
  destruct ((ext t =? "html") || (mime t =? "text/html")); [|apply docxGate_rows].
  cbv zeta. rewrite serve_webThen.
  match goal with
  | |- context [serve w ?m h] =>
      match m with
      | match _ with [] => _ | _ => _ end =>
          assert (Hq : quiet isCreate m) by (destruct (warnings _); hush);
          pose proof (quiet_serve isCreate m w Hq h) as Hpre;
          destruct (serve w m h) as [[] tw]
      end
  end.
  simpl in Hpre.
  destruct (errors _) as [|e es].
  - pose proof (docxGate_rows w (h ++ tw) file t) as Hs.
    destruct (serve w (docxGate J P file t) (h ++ tw)) as [r ts].
    now apply rows_after_quiet.
  - cbn. apply createFree_rows. apply Forall_app. split; [exact Hpre | repeat constructor].
Qed.

Lemma rows_webTry (file : Upload) (m : Handler unit) (handler : JsErr -> Handler unit)
  (w : World) (h : WebTrace) :
  rowAfterObject P file (snd (serve w m h)) ->
  (forall e hh, createFree (snd (serve w (handler e) hh))) ->
  rowAfterObject P file (snd (serve w (webTry m handler) h)).
Proof.
  intros Hm Hh. rewrite serve_webTry.
  destruct (serve w m h) as [[e | v] t1]; [|exact Hm].
  specialize (Hh e (h ++ t1)). destruct (serve w (handler e) (h ++ t1)) as [b t2].
  now apply rows_before_quiet.
Qed.

(** X26.  In every run of the upload handler, a template row is created
    only after the clock was read and the object store accepted the bytes
    of the upload; the row is named by that time, a hyphen and the
    sanitized base name of the upload, and the object lies under
    [uploads/] and that same name. *)
Theorem uploadHandler_row_after_object (w : World) (h : WebTrace) (file : Upload)
  (before after : WebTrace) (name : string) (fieldNames : list string)
  (x : webReply (TemplateCreate name fieldNames))
  (Hrow : snd (serve w (uploadHandler parse5 J P path_extname (Some file)) h)
          = before ++ webEvent (TemplateCreate name fieldNames) x :: after) :
  exists now contentType,
    name = (string_of_Z now ++ "-" ++ sanitize P (originalname file))%string
    /\ In (webEvent (Core DateNow) now) before
    /\ In (webEvent (S3PutObject ("uploads/" ++ name) (buffer file) contentType) (inr tt))
          before.
Proof.
  revert before name fieldNames x after Hrow.
  change (rowAfterObject P file
            (snd (serve w (uploadHandler parse5 J P path_extname (Some file)) h))).
  unfold uploadHandler. apply rows_webTry.
  - rewrite serve_webBind. cbn [webCall serve app].
    destruct (w h (FileTypeFromBuffer (buffer file))) as [x | detected]; cbn [liftExt].
    + apply createFree_rows. repeat constructor.
    + destruct (match detected with Some t => Some t | None => _ end) as [t|].
      * destruct (negb _).
        -- cbn [respond serve app]. apply createFree_rows. repeat constructor.
        -- pose proof (htmlGate_rows w (h ++ [webEvent (FileTypeFromBuffer (buffer file))
                                                       (inr detected)]) file t) as Hs.
           destruct (serve w (htmlGate parse5 J P file t) _) as [r ts].
           apply (rows_after_quiet file [_]); [repeat constructor | exact Hs].
      * cbn [respond serve app]. apply createFree_rows. repeat constructor.
  - intros e hh. cbn. repeat constructor.
Qed.

(* ------------------------------------------------------------------ *)
(** ** The merge routes *)

Lemma manual_route_run (w : World) (h : WebTrace) (req : MergeRequest) :
  serve w (manualMerge J P req) h
  = let (outcome, t) := run (engineOracle w (h ++ [keysLogged req]))
                            (mergeTemplate J P (manualArgs req)) [] in
    (inr tt,
     keysLogged req :: map inject t
     ++ match outcome with
        | inr result => [webEvent (Respond 200 (Json (jobResult result))) tt]
        | inl err =>
            if isParseFailure err
            then [webEvent
                    (Respond 422
                       (Json (VObj [("error", VStr "Template has invalid Docxtemplater tags");
                                    ("details", errGet err "details")]))) tt]
            else [webEvent (ConsoleError "Merge error:" err) tt;
                  webEvent (Respond 400 (Json (VObj [("error", errGet err "message")]))) tt]
        end).
Proof.
  unfold manualMerge, keysLogged. rewrite serve_webTry, serve_webThen.
  cbn [webAsk serve app]. told. rewrite serve_webBind, serve_lift.
  destruct (run _ (mergeTemplate J P (manualArgs req)) []) as [[err | result] t].
  - unfold mergeFailure. destruct (isParseFailure err); cbn; told; reflexivity.
  - cbn. told. reflexivity.
Qed.


(** X28.  A manual merge whose data leave out a declared field is answered
    400, not 422: the body is the message that lists the missing names,
    joined by a space and a comma; the error was logged, and the engine
    had done no more than make the two directories, look the template up
    and warn about undeclared fields. *)
Theorem manualMerge_missing_fields (w : World) (h : WebTrace) (req : MergeRequest)
  (template : Template)
  (Hup : w (h ++ [keysLogged req]) (Core (FsMkdir (UPLOADS_DIR P))) = inr tt)
  (Hout : w (h ++ [keysLogged req; webEvent (Core (FsMkdir (UPLOADS_DIR P))) (inr tt)])
            (Core (FsMkdir (OUTPUTS_DIR P))) = inr tt)
  (Hfind : w (h ++ [keysLogged req; webEvent (Core (FsMkdir (UPLOADS_DIR P))) (inr tt);
                    webEvent (Core (FsMkdir (OUTPUTS_DIR P))) (inr tt)])
             (Core (TemplateFindUnique (paramTemplateId req))) = inr (Some template))
  (Hmiss : missingOf template (data (manualArgs req)) <> []) :
  serve w (manualMerge J P req) h
  = (inr tt,
     keysLogged req
     :: map inject (opening P (manualArgs req) template
                    ++ extrasWarning template (data (manualArgs req)))
     ++ [webEvent (ConsoleError "Merge error:"
                     (missingError (missingOf template (data (manualArgs req))))) tt;
         webEvent
           (Respond 400
              (Json (VObj [("error",
                            VStr ("Missing required fields: "
                                  ++ String.concat " ,"
                                       (missingOf template (data (manualArgs req)))))])))
           tt]).
Proof.
  rewrite manual_route_run.
  rewrite (mergeTemplate_validation_failure J P _ [] (manualArgs req) template).
  - reflexivity.
  - unfold engineOracle. cbn [map]. rewrite app_nil_r. exact Hup.
  - unfold engineOracle. cbn [map inject projT1 projT2 event app].
    rewrite <- app_assoc. exact Hout.
  - unfold engineOracle. cbn [map inject projT1 projT2 event app].
    rewrite <- app_assoc. exact Hfind.
  - exact Hmiss.
Qed.

Lemma mergeFailure_quiet (bad : WebCall -> bool) (label : string) (err : JsErr) :
  (forall body, bad (Respond 422 body) = false) ->
  (forall body, bad (Respond 400 body) = false) ->
  (forall l e, bad (ConsoleError l e) = false) ->
  quiet bad (mergeFailure label err).
Proof.
  intros H422 H400 Hlog. unfold mergeFailure, respond.
  destruct (isParseFailure err).
  - constructor; [apply H422 | intros; constructor].
  - apply quiet_webThen; [apply quiet_webAsk, Hlog|].
    intros _. constructor; [apply H400 | intros; constructor].
Qed.

(** X29.  The webhook merges at most 1000 rows.  Once the payload has been
    read, which calls a parser and nothing of the merge engine, a payload
    of more than 1000 rows is answered 413 at once: no row is merged, not
    even the first.  A payload of 1000 rows or fewer is never answered
    413. *)
Theorem webhookMerge_row_limit (w : World) (h : WebTrace) (req : WebhookRequest)
  (rows : list JsVal) (t : WebTrace)
  (Hread : serve w (readRows req) h = (inr (Some rows), t)) :
  Forall (fun ev => isCore (projT1 ev) = false) t
  /\ ((1000 < List.length rows)%nat ->
      serve w (webhookMerge J P req) h
      = (inr tt, t ++ [webEvent (Respond 413 (Json (VObj [("error", VStr "Too many rows")])))
                                tt]))
  /\ ((List.length rows <= 1000)%nat ->
      Forall (fun ev => isStatus 413 (projT1 ev) = false)
             (snd (serve w (webhookMerge J P req) h))).
Proof.
  assert (Hquiet : forall bad,
             bad (CsvParse (rawBody req)) = false ->
             bad (JsonParse (rawBody req)) = false ->
             Forall (fun ev => bad (projT1 ev) = false) t).
  { intros bad Hcsv Hjson. revert Hread. unfold readRows. rewrite serve_webTry.
    destruct (includes "text/csv" _).
    - cbn. destruct (w h (CsvParse (rawBody req))) as [x | r]; cbn;
        intros E; injection E as ? ?; subst; try discriminate.
      repeat constructor. exact Hcsv.
    - destruct (includes "application/json" _).
      + cbn. destruct (w h (JsonParse (rawBody req))) as [x | r]; cbn;
          intros E; injection E as ? ?; subst; try discriminate.
        repeat constructor. exact Hjson.
      + cbn. intros E. discriminate. }
  split; [now apply Hquiet|]. unfold webhookMerge. cbv zeta.
  rewrite serve_webBind, Hread. split.
  - intros Hmany. apply Nat.ltb_lt in Hmany. rewrite Hmany. cbn. told. reflexivity.
  - intros Hfew. destruct (1000 <? List.length rows)%nat eqn:E;
      [apply Nat.ltb_lt in E; lia|].
    match goal with
    | |- context [serve w ?m ?hh] =>
        assert (Hm : quiet (isStatus 413) m);
        [| pose proof (quiet_serve (isStatus 413) m w Hm hh) as Hs;
           destruct (serve w m hh) as [r t2] ]
    end.
    + apply quiet_webTry.
      * apply quiet_webBind; [now apply mergeRows_quiet|].
        intros jobs. constructor; [reflexivity | intros; constructor].
      * intros e. now apply mergeFailure_quiet.
    + simpl in *. apply Forall_app. split; [now apply Hquiet | exact Hs].
Qed.

(** X30.  The signature check hands a request on exactly when it carries a
    signature that is not blank, its body is raw bytes and the signature,
    trimmed and read as hexadecimal, equals the HMAC of the body; it then
    calls nothing else.  Every other request ends there, with 401 or, for
    a body that is not raw, 400, and is not handed on. *)
Theorem verifyHmac_passes_iff (w : World) (h : WebTrace) (req : SignedRequest) :
  ((exists signature raw,
       signatureHeader req = Some signature /\ trim signature <> ""
       /\ signedBody req = Some raw
       /\ fromHex (trim signature) = hmacSha256 raw)
   -> serve w (verifyHmac hmacSha256 fromHex req) h = (inr tt, [webEvent Next tt]))
  /\ (~ (exists signature raw,
            signatureHeader req = Some signature /\ trim signature <> ""
            /\ signedBody req = Some raw
            /\ fromHex (trim signature) = hmacSha256 raw)
      -> exists status body,
           (status = 401 \/ status = 400)
           /\ serve w (verifyHmac hmacSha256 fromHex req) h
              = (inr tt, [webEvent (Respond status body) tt])).
Proof.
  unfold verifyHmac. cbv zeta. split.
  - intros (signature & raw & Hsig & Hblank & Hraw & Heq).
    rewrite Hsig, Hraw, Heq. apply String.eqb_neq in Hblank. rewrite Hblank.
    rewrite Nat.eqb_refl, String.eqb_refl. cbn. told. reflexivity.
  - intros Hno.
    destruct (trim _ =? "") eqn:Eblank.
    { cbn. told. eexists _, _. split; [left; reflexivity | reflexivity]. }
    destruct (signedBody req) as [raw|] eqn:Eraw.
    2:{ cbn. told. eexists _, _. split; [right; reflexivity | reflexivity]. }
    destruct (negb _ || negb _) eqn:Ecmp.
    { cbn. told. eexists _, _. split; [left; reflexivity | reflexivity]. }
    exfalso. apply Hno. apply orb_false_iff in Ecmp. destruct Ecmp as [_ Ecmp].
    apply negb_false_iff, String.eqb_eq in Ecmp.
    destruct (signatureHeader req) as [signature|] eqn:Esig.
    + exists signature, raw. repeat split; [now apply String.eqb_neq | exact Ecmp].
    + discriminate.
Qed.

End Handlers.

(* ------------------------------------------------------------------ *)
(** ** The handlers on worked cases *)

Lemma uploadHandler_refuses_type_witness :
  serve (caseWorld txtEnv (Some (mkFileType "pdf" "application/pdf")) [])
        (uploadHandler (fun _ => linkAst) caseJsdom posixPath caseExtname
                       (Some (mkUpload "page.html" "%PDF-1.7")))
        []
  = (inr tt,
     [webEvent (FileTypeFromBuffer "%PDF-1.7")
               (inr (Some (mkFileType "pdf" "application/pdf")));
      webEvent (Respond 415 (Sent "Unsupported or undetectable file type.")) tt]).
Proof.
  apply (uploadHandler_refuses_type (fun _ => linkAst) caseJsdom posixPath caseExtname
           (caseWorld txtEnv (Some (mkFileType "pdf" "application/pdf")) []) []
           (mkUpload "page.html" "%PDF-1.7")
           (Some (mkFileType "pdf" "application/pdf")));
    [reflexivity | simpl; intuition discriminate].
Defined.

Lemma uploadHandler_html_blocked_witness :
  serve (caseWorld txtEnv None [])
        (uploadHandler (fun _ => linkAst) caseJsdom posixPath caseExtname
                       (Some (mkUpload "page.HTML" linkMarkup)))
        []
  = (inr tt,
     [webEvent (FileTypeFromBuffer linkMarkup) (inr None);
      webEvent (Core (ConsoleWarn "HTML template warnings:"
                        (VArr [VStr ("Remote ref: src=" ++ DQ
                                     ++ "https://cdn.example.com/x.png" ++ DQ)])))
               tt;
      webEvent
        (Respond 422
           (Json (VObj [("error", VStr "Template blocked by HTML linter");
                        ("details",
                         VArr [VStr ("Disallowed attr " ++ DQ ++ "onclick" ++ DQ ++ " on <a>");
                               VStr "Disallowed <script> tag"])])))
        tt]).
Proof.
  apply (uploadHandler_html_blocked (fun _ => linkAst) caseJsdom posixPath caseExtname
           (caseWorld txtEnv None []) [] (mkUpload "page.HTML" linkMarkup) None
           (mkFileType "html" "text/html"));
    [reflexivity | reflexivity | right; left; reflexivity | left; reflexivity
    | vm_compute; discriminate].
Defined.

Lemma uploadHandler_docx_blocked_witness :
  exists tl,
    serve (caseWorld (docxEnv malformedScript) (Some (mkFileType "docx" DOCX_MIME)) [])
          (uploadHandler (fun _ => linkAst) caseJsdom posixPath caseExtname
                         (Some (mkUpload "form.docx" "FAKE_DOCX_CONTENT")))
          []
    = (inr tt,
       webEvent (FileTypeFromBuffer "FAKE_DOCX_CONTENT")
                (inr (Some (mkFileType "docx" DOCX_MIME)))
       :: map inject tl
       ++ [webEvent
             (Respond 422
                (Json (VObj [("error",
                              VStr "Template has invalid Docxtemplater delimiters/tags");
                             ("details",
                              VArr [VObj [("id", VStr "duplicate_open_tag");
                                          ("explanation", VStr "Duplicate open tag");
                                          ("xtag", VStr "{{ name");
                                          ("file", VStr "word/document.xml");
                                          ("offset", VNum 42)]])])))
             tt]).
Proof.
  eexists.
  apply (uploadHandler_docx_blocked (fun _ => linkAst) caseJsdom posixPath caseExtname
           (caseWorld (docxEnv malformedScript) (Some (mkFileType "docx" DOCX_MIME)) []) []
           (mkUpload "form.docx" "FAKE_DOCX_CONTENT")
           (Some (mkFileType "docx" DOCX_MIME)) (mkFileType "docx" DOCX_MIME));
    reflexivity.
Defined.

Lemma uploadHandler_row_after_object_witness :
  exists now contentType,
    "1700000000000-my form.docx"
    = (string_of_Z now ++ "-" ++ sanitize posixPath "../my form.docx")%string
    /\ In (webEvent (S3PutObject "uploads/1700000000000-my form.docx" "Dear {{ firstName }}"
                                 contentType) (inr tt))
          (firstn 8
             (snd (serve (caseWorld (docxEnv SDone) (Some (mkFileType "docx" DOCX_MIME)) [])
                         (uploadHandler (fun _ => linkAst) caseJsdom posixPath caseExtname
                            (Some (mkUpload "../my form.docx" "Dear {{ firstName }}")))
                         []))).
Proof.
  destruct (uploadHandler_row_after_object (fun _ => linkAst) caseJsdom posixPath caseExtname
              (caseWorld (docxEnv SDone) (Some (mkFileType "docx" DOCX_MIME)) []) []
              (mkUpload "../my form.docx" "Dear {{ firstName }}")
              (firstn 8
                 (snd (serve (caseWorld (docxEnv SDone)
                                (Some (mkFileType "docx" DOCX_MIME)) [])
                             (uploadHandler (fun _ => linkAst) caseJsdom posixPath caseExtname
                                (Some (mkUpload "../my form.docx" "Dear {{ firstName }}")))
                             [])))
              [webEvent
                 (Respond 200
                    (Json (VObj [("templateId", VStr "tpl-new-1");
                                 ("fields", VArr [VStr "firstName"]);
                                 ("message",
                                  VStr ("File " ++ DQ ++ "../my form.docx" ++ DQ
                                        ++ " successfully uploaded and validated."))])))
                 tt]
              "1700000000000-my form.docx" ["firstName"]
              (inr (mkTemplate "tpl-new-1" "1700000000000-my form.docx" [mkField "firstName"]))
              eq_refl)
    as (now & contentType & Hname & _ & Hput).
  exists now, contentType. split; [exact Hname | exact Hput].
Defined.

Lemma manualMerge_missing_fields_witness :
  serve (caseWorld contractEnv None [])
        (manualMerge caseJsdom posixPath
           (mkMergeRequest "tpl-docx-3" (VObj [("data", VObj [("a", VNum 1)])]) None))
        []
  = (inr tt,
     [webEvent (ConsoleLog "merge data keys:" (VArr [VStr "a"])) tt;
      webEvent (Core (FsMkdir "/app/uploads")) (inr tt);
      webEvent (Core (FsMkdir "/app/outputs")) (inr tt);
      webEvent (Core (TemplateFindUnique "tpl-docx-3")) (inr (Some contractTemplate));
      webEvent (ConsoleError "Merge error:"
                  (MkErr ClsError
                     [("message", VStr "Missing required fields: b.c");
                      ("status", VNum 422)]
                     None)) tt;
      webEvent (Respond 400 (Json (VObj [("error", VStr "Missing required fields: b.c")])))
               tt]).
Proof.
  rewrite (manualMerge_missing_fields caseJsdom posixPath (caseWorld contractEnv None []) []
             (mkMergeRequest "tpl-docx-3" (VObj [("data", VObj [("a", VNum 1)])]) None)
             contractTemplate);
    [reflexivity | reflexivity | reflexivity | reflexivity | vm_compute; discriminate].
Defined.

Lemma webhookMerge_row_limit_witness :
  serve (caseWorld txtEnv None (repeat (VObj []) 1001))
        (webhookMerge caseJsdom posixPath
           (mkWebhookRequest "tpl-docx-1" None (Some "Application/JSON; charset=utf-8")
                             "PAYLOAD_OF_1001_ROWS"))
        []
  = (inr tt,
     [webEvent (JsonParse "PAYLOAD_OF_1001_ROWS") (inr (VArr (repeat (VObj []) 1001)));
      webEvent (Respond 413 (Json (VObj [("error", VStr "Too many rows")]))) tt]).
Proof.
  destruct (webhookMerge_row_limit caseJsdom posixPath
              (caseWorld txtEnv None (repeat (VObj []) 1001)) []
              (mkWebhookRequest "tpl-docx-1" None (Some "Application/JSON; charset=utf-8")
                                "PAYLOAD_OF_1001_ROWS")
              (repeat (VObj []) 1001)
              [webEvent (JsonParse "PAYLOAD_OF_1001_ROWS") (inr (VArr (repeat (VObj []) 1001)))]
              eq_refl)
    as (_ & Hmany & _).
  apply Hmany. rewrite repeat_length. lia.
Defined.
